(** * AutoImprover: the generate / run / fix / version controller

    A shallow embedding of [autoimprover.py] and the properties of its
    version controller, sandbox runner, test introspection and test-file
    repair.

    Conventions of the embedding.
    - A Python [str] is a [string]; its characters are modelled as
      [ascii], so slicing and [len] count [ascii] characters.  The texts
      of the model are ASCII texts: a character above 127 is outside of
      what the embedding speaks about.
    - A Python value that is either [None] or a [str] is an
      [option string].
    - A Python [int] is a [Z].
    - The outside world (completion service, child processes, storage
      faults, clock, random source) answers through streams that the
      controller consumes in order; every run of the program is the run
      of the model on some choice of streams.
    - Storage is a map from paths to the characters each file holds.
      Writing stores the characters written; reading in text mode
      returns them with every carriage return read as a line feed (see
      [open_read]).  Only the controller writes to storage: a child
      process is taken to leave the controller's files alone.
    - The module-level start-up (reading the API key, creating the logs
      directory, configuring [logging]) has happened when [main] starts. *)

From Stdlib Require Import ZArith List Ascii String Lia Permutation.
From Stdlib Require Import DecimalString DecimalN DecimalPos.
From stdpp Require Import gmap strings list.

Set Warnings "-register-all".

Local Open Scope string_scope.
Local Open Scope Z_scope.

(** ** Python strings *)

Module PyStr.

(** The line feed character, ["\n"] in the Python source. *)
Definition nl : string := String "010"%char "".

(** [s.startswith(p)]. *)
Definition startswith (s p : string) : bool := String.prefix p s.

(** [s[n:]]. *)
Fixpoint drop (n : nat) (s : string) : string :=
  match n, s with
  | O, _ => s
  | S _, "" => ""
  | S k, String _ s' => drop k s'
  end.

(** [s[:n]]. *)
Fixpoint take (n : nat) (s : string) : string :=
  match n, s with
  | O, _ => ""
  | S _, "" => ""
  | S k, String c s' => String c (take k s')
  end.

(** [str.lower] on one character.  Only the letters [A]..[Z] have an
    ASCII lower case; no character outside ASCII lowers to one of the
    letters of ["no errors"], so comparing a lowered string with that
    sentinel is decided by the ASCII letters alone. *)
Definition lower_char (c : ascii) : ascii :=
  let n := nat_of_ascii c in
  if ((65 <=? n)%nat && (n <=? 90)%nat)%bool then ascii_of_nat (n + 32) else c.

(** [s.lower()]. *)
Fixpoint lower (s : string) : string :=
  match s with
  | "" => ""
  | String c s' => String (lower_char c) (lower s')
  end.

(** What reading in text mode makes of the characters of a file, with
    the default [newline=None] (universal newlines): every ["\r\n"] and
    every other ["\r"] is read as ["\n"]. *)
Fixpoint universal_newlines (s : string) : string :=
  match s with
  | "" => ""
  | String c s' =>
      if Ascii.eqb c "013"%char
      then
        match s' with
        | String "010"%char _ => universal_newlines s'
        | _ => String "010"%char (universal_newlines s')
        end
      else String c (universal_newlines s')
  end.

(** A text that every platform writes and reads back unchanged: its
    characters are ASCII, which UTF-8 and the default encodings encode
    alike, and none is a carriage return. *)
Definition portable_char (c : ascii) : bool :=
  ((nat_of_ascii c <? 128)%nat && negb (Ascii.eqb c "013"%char))%bool.

Fixpoint portable (s : string) : bool :=
  match s with
  | "" => true
  | String c s' => portable_char c && portable s'
  end.

(** [repr(s)] for a [str]: in single quotes, or in double quotes when
    the text has a single quote and no double quote; the quote and the
    backslash are escaped, tab, line feed and carriage return are
    written [\t], [\n], [\r], and the other characters that are not
    printable as [\xhh]. *)
Definition hex_digit (n : nat) : ascii :=
  nth n (list_ascii_of_string "0123456789abcdef") "f"%char.

Definition printable (c : ascii) : bool :=
  let n := nat_of_ascii c in
  (((32 <=? n)%nat && (n <? 127)%nat)
   || ((161 <=? n)%nat && negb (n =? 173)%nat))%bool.

Definition has_char (c : ascii) : string -> bool :=
  fix has (s : string) : bool :=
    match s with
    | "" => false
    | String d s' => Ascii.eqb c d || has s'
    end.

Definition repr_char (quote c : ascii) : string :=
  if (Ascii.eqb c quote || Ascii.eqb c "092"%char)%bool
  then String "092"%char (String c "")
  else if Ascii.eqb c "009"%char then String "092"%char "t"%string
  else if Ascii.eqb c "010"%char then String "092"%char "n"%string
  else if Ascii.eqb c "013"%char then String "092"%char "r"%string
  else if printable c then String c ""
  else
    let n := nat_of_ascii c in
    String "092"%char (String "x"%char (String (hex_digit (n / 16))
                                (String (hex_digit (n mod 16)) ""))).

Definition repr (s : string) : string :=
  let quote : ascii :=
    if (has_char "039"%char s && negb (has_char "034"%char s))%bool then "034"%char else "039"%char in
  let body :=
    (fix go (t : string) : string :=
       match t with
       | "" => String quote ""
       | String c t' => repr_char quote c +:+ go t'
       end) s in
  String quote body.

(** [str.isspace] on the ASCII range. *)
Definition is_space (c : ascii) : bool :=
  let n := nat_of_ascii c in
  (((9 <=? n)%nat && (n <=? 13)%nat) || ((28 <=? n)%nat && (n <=? 32)%nat))%bool.

Fixpoint lstrip (s : string) : string :=
  match s with
  | "" => ""
  | String c s' => if is_space c then lstrip s' else s
  end.

Definition rstrip (s : string) : string := String.rev (lstrip (String.rev s)).

(** [s.strip()]. *)
Definition strip (s : string) : string := rstrip (lstrip s).

(** [s.split(sep)] for a non-empty separator: [skip] counts the
    characters of a separator occurrence still to be passed over, [cur]
    is the current part, reversed. *)
Fixpoint split_aux (sep : string) (skip : nat) (cur : string) (s : string)
  : list string :=
  match s with
  | "" => [String.rev cur]
  | String c s' =>
      match skip with
      | S k => split_aux sep k cur s'
      | O =>
          if String.prefix sep s
          then String.rev cur :: split_aux sep (String.length sep - 1) "" s'
          else split_aux sep 0 (String c cur) s'
      end
  end.

Definition split (sep s : string) : list string := split_aux sep 0 "" s.

(** [s.replace(old, new)] for a non-empty [old], leftmost occurrences
    first, not overlapping. *)
Fixpoint replace_aux (old new : string) (skip : nat) (s : string) : string :=
  match s with
  | "" => ""
  | String c s' =>
      match skip with
      | S k => replace_aux old new k s'
      | O =>
          if String.prefix old s
          then new +:+ replace_aux old new (String.length old - 1) s'
          else String c (replace_aux old new 0 s')
      end
  end.

Definition replace (old new s : string) : string := replace_aux old new 0 s.

(** [sep.join(parts)]. *)
Definition join (sep : string) (parts : list string) : string :=
  String.concat sep parts.

(** Truthiness of a value that is [None] or a [str]: [None] and the
    empty string are false. *)
Definition truthy (v : option string) : bool :=
  match v with
  | None => false
  | Some "" => false
  | Some _ => true
  end.

(** [str(v)] and [f"{v}"] for a value that is [None] or a [str]. *)
Definition str_of (v : option string) : string :=
  match v with
  | None => "None"
  | Some s => s
  end.

(** [f"{z}"] for an integer. *)
Definition str_int (z : Z) : string := NilZero.string_of_int (Z.to_int z).

Fixpoint zeros (n : nat) : string :=
  match n with
  | O => ""
  | S k => String "0"%char (zeros k)
  end.

(** The decimal digits of a natural number. *)
Definition digits (n : N) : string := NilEmpty.string_of_uint (N.to_uint n).

(** [f"{z:04d}"]: decimal, padded with zeros after the sign up to a
    total width of four. *)
Definition format_04d (z : Z) : string :=
  let d := digits (Z.abs_N z) in
  if z <? 0
  then "-" +:+ zeros (3 - String.length d) +:+ d
  else zeros (4 - String.length d) +:+ d.

(** The number a run of digits denotes. *)
Definition value_of (s : string) : option N :=
  option_map N.of_uint (NilEmpty.uint_of_string s).

End PyStr.

Import PyStr.

(** ** Test-file repair: the text surgery of [remove_problematic_tests]

    The pattern is [f"def {test_name}.*?(?=def|\Z)"] compiled with
    [re.DOTALL].  Test names are identifiers, which the pattern syntax
    reads literally, so a match starts with the text ["def " + test_name],
    continues over as few characters as possible (of any kind, line
    feeds included) and ends just before the next occurrence of the
    three letters [def], or at the end of the text. *)

Module Repair.

(** What is left of [s] after the lazy [.*?(?=def|\Z)]. *)
Fixpoint lazy_skip (s : string) : string :=
  match s with
  | "" => ""
  | String _ s' => if String.prefix "def" s then s else lazy_skip s'
  end.

(** A match of the pattern at the very start of [s]: the text that
    follows the match. *)
Definition match_here (test_name s : string) : option string :=
  let lit := "def " +:+ test_name in
  if String.prefix lit s
  then Some (lazy_skip (drop (String.length lit) s))
  else None.

(** [pattern.sub('', s)]: every match, leftmost first, is deleted and
    the search resumes where the match ended.  A match is never empty,
    so each round consumes a character; [fuel] bounds the rounds. *)
Fixpoint sub_fuel (fuel : nat) (test_name s : string) : string :=
  match fuel with
  | O => s
  | S f =>
      match match_here test_name s with
      | Some rest => sub_fuel f test_name rest
      | None =>
          match s with
          | "" => ""
          | String c s' => String c (sub_fuel f test_name s')
          end
      end
  end.

Definition pattern_sub (test_name content : string) : string :=
  sub_fuel (S (String.length content)) test_name content.

(** The loop of [remove_problematic_tests] over [test_names], on the
    text of the file. *)
Definition remove_all (test_names : list string) (content : string) : string :=
  fold_left (fun c test_name => pattern_sub test_name c) test_names content.

End Repair.

(** ** Syntax trees: what [ast.parse] returns and [ast.walk] visits *)

Module Ast.

(** The node classes the program looks at; every other class of node
    (statements, expressions, argument lists, ...) is [Other]. *)
Inductive kind : Type :=
| ModuleNode
| FunctionDef (name : string)
| AsyncFunctionDef (name : string)
| ClassDef (name : string)
| Other.

(** A node with its child nodes in the order of [ast.iter_child_nodes]. *)
Inductive node : Type :=
| Node (k : kind) (children : list node).

Definition node_kind (n : node) : kind := let 'Node k _ := n in k.
Definition iter_child_nodes (n : node) : list node := let 'Node _ cs := n in cs.

Fixpoint node_count (n : node) : nat :=
  match n with
  | Node _ cs => S (list_sum (map node_count cs))
  end.

(** [ast.walk]: a queue that starts with the root; each round pops the
    first node, appends its children at the back and yields the node. *)
Fixpoint walk_queue (fuel : nat) (todo : list node) : list node :=
  match fuel, todo with
  | S f, n :: rest => n :: walk_queue f (rest ++ iter_child_nodes n)
  | _, _ => []
  end.

Definition walk (tree : node) : list node := walk_queue (node_count tree) [tree].

(** All nodes of a tree, parents before children and siblings left to
    right: the order of the source text. *)
Fixpoint preorder (n : node) : list node :=
  match n with
  | Node _ cs => n :: flat_map preorder cs
  end.

(** The number of nodes in a queue of trees. *)
Definition forest_count (q : list node) : nat := list_sum (map node_count q).

End Ast.

Import Ast.

(** ** The outside world and the effects of the program *)

(** A raised exception: its class name and the text [str(e)]. *)
Inductive exn : Type :=
| PyExn (cls msg : string).

Definition exn_str (e : exn) : string := let 'PyExn _ msg := e in msg.

Inductive level : Type := INFO | WARNING | ERROR.

(** The two command lines the program hands to [subprocess.run], both
    with captured output:
    [[sys.executable, filename, "--headless"]] with [timeout=5] and
    [[sys.executable, "-m", "unittest", target]] with [timeout=timeout]. *)
Inductive command : Type :=
| RunSimulation (filename : string)
| RunUnittest (target : string) (timeout : Z).

(** How a [subprocess.run] call ends: the child exits, the timeout
    expires ([subprocess.TimeoutExpired]), or any other exception is
    raised (the interpreter is missing, permission is denied, ...). *)
Inductive completed : Type :=
| Exited (returncode : Z) (stdout stderr : string)
| TimeoutExpired
| LaunchError (e : exn).

(** What [ast.parse] does with a source text. *)
Inductive parse_result : Type :=
| Parsed (tree : node)
| IndentationError (lineno : Z)
| SyntaxError (lineno : Z) (text : string)
| ParseError (e : exn).

(** What an observer of the run sees, oldest first. *)
Inductive event : Type :=
| Log (lvl : level) (msg : string)
| ApiCall (model prompt : string)
| Spawn (cmd : command)
| Choice (picked : bool)
| Sleep (seconds : Z).

(** Storage, the trace so far, and the answers the outside world is
    still to give: [api] the completion service (an exception, or the
    content of the first choice, which may be [None]); [procs] the child
    processes; [faults] the openings of a file for writing or appending
    (an exception, or none); [coins] the random source; [clock] the
    formatted time stamps. *)
Record world : Type := World {
  files : gmap string string;
  trace : list event;
  api : nat -> exn + option string;
  procs : nat -> completed;
  faults : nat -> option exn;
  coins : nat -> bool;
  clock : nat -> string
}.

Definition tl {A : Type} (s : nat -> A) : nat -> A := fun k => s (S k).

(** How a computation ends: with a value, with an exception on its way
    up, with [main] having executed [return], or cut off by the bound
    put on the [while True] loops. *)
Inductive outcome (A : Type) : Type :=
| Val (a : A)
| Raised (e : exn)
| Returned
| OutOfFuel.

Arguments Val {A} a.
Arguments Raised {A} e.
Arguments Returned {A}.
Arguments OutOfFuel {A}.

Definition M (A : Type) : Type := world -> outcome A * world.

#[export] Instance M_ret : MRet M := fun A a w => (Val a, w).

#[export] Instance M_bind : MBind M := fun A B f m w =>
  match m w with
  | (Val a, w') => f a w'
  | (Raised e, w') => (Raised e, w')
  | (Returned, w') => (Returned, w')
  | (OutOfFuel, w') => (OutOfFuel, w')
  end.

Definition raise {A : Type} (e : exn) : M A := fun w => (Raised e, w).
Definition main_return {A : Type} : M A := fun w => (Returned, w).
Definition out_of_fuel {A : Type} : M A := fun w => (OutOfFuel, w).

(** [try: body / except Exception as e: handler e]. *)
Definition try_except {A : Type} (body : M A) (handler : exn -> M A) : M A :=
  fun w =>
    match body w with
    | (Raised e, w') => handler e w'
    | r => r
    end.

Definition emit (e : event) : M unit := fun w =>
  (Val tt, World (files w) (trace w ++ [e])%list (api w) (procs w) (faults w)
                 (coins w) (clock w)).

Definition update_files (f : gmap string string -> gmap string string)
  : M unit := fun w =>
  (Val tt, World (f (files w)) (trace w) (api w) (procs w) (faults w)
                 (coins w) (clock w)).

(** [logging.info], [logging.warning], [logging.error]. *)
Definition logging (lvl : level) (msg : string) : M unit := emit (Log lvl msg).

(** The text of [str(e)] for the [FileNotFoundError] of [open]: the
    path is shown as [repr] writes it. *)
Definition no_such_file (path : string) : string :=
  "[Errno 2] No such file or directory: " +:+ repr path.

(** [with open(path, 'r') as f: f.read()]: a read in text mode, which
    returns the characters of the file with universal newlines. *)
Definition open_read (path : string) : M string := fun w =>
  match files w !! path with
  | Some content => (Val (universal_newlines content), w)
  | None => (Raised (PyExn "FileNotFoundError" (no_such_file path)), w)
  end.

(** Opening a file for writing or appending asks the world for a fault. *)
Definition open_fault : M unit := fun w =>
  let w' := World (files w) (trace w) (api w) (procs w) (tl (faults w))
                  (coins w) (clock w) in
  match faults w O with
  | Some e => (Raised e, w')
  | None => (Val tt, w')
  end.

(** [with open(path, 'w') as f: f.write(content)]: opening truncates the
    file; writing [None] raises [TypeError] and leaves it empty.  The
    characters written are the characters stored.  (Where the platform
    writes a line feed as ["\r\n"], a later read turns it back into the
    line feed, so that what is read of a text written without carriage
    returns is the same there.) *)
Definition open_write (path : string) (content : option string) : M unit :=
  open_fault;;
  match content with
  | Some text => update_files (insert path text)
  | None =>
      update_files (insert path "");;
      raise (PyExn "TypeError" "write() argument must be str, not None")
  end.

(** [with open(path, 'a') as f: f.write(text)]. *)
Definition open_append (path text : string) : M unit :=
  open_fault;;
  update_files (fun fs => <[path := default "" (fs !! path) +:+ text]> fs).

(** [os.path.exists(path)]. *)
Definition path_exists (path : string) : M bool := fun w =>
  (Val (bool_decide (is_Some (files w !! path))), w).

(** [client.chat.completions.create(...)] followed by
    [response.choices[0].message.content]. *)
Definition api_reply : M (option string) := fun w =>
  let w' := World (files w) (trace w) (tl (api w)) (procs w) (faults w)
                  (coins w) (clock w) in
  match api w O with
  | inl e => (Raised e, w')
  | inr content => (Val content, w')
  end.

Definition completions_create (model prompt : string) : M (option string) :=
  emit (ApiCall model prompt);; api_reply.

(** [subprocess.run(...)]: the three ways it ends are returned as a
    value, for the caller's [try] to tell apart. *)
Definition proc_ends : M completed := fun w =>
  (Val (procs w O),
   World (files w) (trace w) (api w) (tl (procs w)) (faults w)
         (coins w) (clock w)).

Definition subprocess_run (cmd : command) : M completed :=
  emit (Spawn cmd);; proc_ends.

(** [random.choice([True, False])]. *)
Definition random_choice : M bool := fun w =>
  let b := coins w O in
  (Val b, World (files w) (trace w ++ [Choice b])%list (api w) (procs w) (faults w)
                (tl (coins w)) (clock w)).

(** [datetime.now().strftime(...)]. *)
Definition now_strftime : M string := fun w =>
  (Val (clock w O),
   World (files w) (trace w) (api w) (procs w) (faults w) (coins w)
         (tl (clock w))).

(** [time.sleep(seconds)]. *)
Definition sleep (seconds : Z) : M unit := emit (Sleep seconds).

(** ** The program *)

Section Program.

(** Three facilities of the Python library are taken as they come:
    [str.format] (applied to a template and its keyword arguments, it
    returns the text or raises), [ast.parse], and the search
    [re.search(r'class\s+(\w+)\(.*TestCase.*\):', content)] with its
    first group. *)
Variable str_format : string -> list (string * option string) -> exn + string.
Variable ast_parse : string -> parse_result.
Variable search_test_class : string -> option string.

Definition format (template : string) (kwargs : list (string * option string))
  : M string :=
  match str_format template kwargs with
  | inl e => raise e
  | inr text => mret text
  end.

(** [os.path.join], with the separator written as a slash; nothing below
    depends on which character it is. *)
Definition path_join (dir name : string) : string := dir +:+ "/" +:+ name.

Definition logs_dir : string := "logs".
Definition version_history_log : string := path_join logs_dir "version_history.log".
Definition feature_history_log : string := path_join logs_dir "feature_history.log".
Definition prompts_dir : string := "T:\Dev\PredPrey_GP4omini\prompts".

Definition load_prompt (filename : string) : M (string * list string) :=
  let full_path := path_join prompts_dir filename in
  content ← open_read full_path;
  let parts := split "---" content in
  mret (match parts with
        | part0 :: part1 :: _ => (strip part0, map strip (split "," part1))
        | _ => (content, [])
        end).

Definition save_gpt_response (prompt : string) (response : option string)
    (prefix : string) : M unit :=
  timestamp ← now_strftime;
  let prompt_filename :=
    path_join logs_dir (prefix +:+ "_prompt_" +:+ timestamp +:+ ".txt") in
  let response_filename :=
    path_join logs_dir (prefix +:+ "_response_" +:+ timestamp +:+ ".txt") in
  open_write prompt_filename (Some prompt);;
  open_write response_filename response;;
  logging INFO ("Saved GPT prompt to " +:+ prompt_filename);;
  logging INFO ("Saved GPT response to " +:+ response_filename).

(** The files [save_gpt_response] writes for a request of the given
    prefix. *)
Definition audit_path (prefix path : string) : Prop :=
  exists kind timestamp,
    path = path_join logs_dir (prefix +:+ kind +:+ timestamp +:+ ".txt").

Definition call_openai_api (model prompt prefix : string) : M (option string) :=
  try_except
    (content ← completions_create model prompt;
     save_gpt_response prompt content prefix;;
     mret content)
    (fun e =>
       logging ERROR ("Error calling OpenAI API: " +:+ exn_str e);;
       mret None).

Definition save_code_to_file (code : option string) (filename : string) : M bool :=
  try_except
    (open_write filename code;;
     logging INFO ("Saved code to " +:+ filename);;
     mret true)
    (fun e =>
       logging ERROR ("Error saving code to file " +:+ filename +:+ ": "
                      +:+ exn_str e);;
       mret false).

(** The value [run_simulation] returns for each way the child ends. *)
Definition simulation_result (r : completed) : option string :=
  match r with
  | Exited returncode _ stderr =>
      if negb (returncode =? 0) then Some stderr else None
  | TimeoutExpired => None
  | LaunchError e => Some (exn_str e)
  end.

(** The controller sees a run as failed when [run_simulation] returns a
    true value: a text that is not empty. *)
Definition run_fails (r : completed) : Prop := truthy (simulation_result r) = true.

Definition run_simulation (filename : string) : M (option string) :=
  r ← subprocess_run (RunSimulation filename);
  mret (simulation_result r).

(** The loop of [get_test_methods] over the nodes [ast.walk] yields. *)
Fixpoint collect_test_methods (nodes : list node) : list string :=
  match nodes with
  | [] => []
  | n :: rest =>
      match node_kind n with
      | FunctionDef name =>
          if startswith name "test_"
          then name :: collect_test_methods rest
          else collect_test_methods rest
      | _ => collect_test_methods rest
      end
  end.

Definition get_test_methods (filename : string) : M (list string) :=
  try_except
    (content ← open_read filename;
     match ast_parse content with
     | Parsed tree => mret (collect_test_methods (walk tree))
     | IndentationError lineno =>
         logging ERROR ("Indentation error in " +:+ filename +:+ " at line "
                        +:+ str_int lineno);;
         mret []
     | SyntaxError lineno text =>
         logging ERROR ("Syntax error in " +:+ filename +:+ " at line "
                        +:+ str_int lineno +:+ ": " +:+ text);;
         mret []
     | ParseError e => raise e
     end)
    (fun e =>
       logging ERROR ("Error parsing " +:+ filename +:+ ": " +:+ exn_str e);;
       mret []).

(** What [get_test_methods] finds in a file: nothing when the file
    cannot be read or parsed. *)
Definition discovered (filename : string) (w : world) : list string :=
  match files w !! filename with
  | None => []
  | Some content =>
      match ast_parse (universal_newlines content) with
      | Parsed tree => collect_test_methods (walk tree)
      | _ => []
      end
  end.


Definition get_test_class_name (filename : string) : M (option string) :=
  try_except
    (content ← open_read filename;
     mret (search_test_class content))
    (fun e =>
       logging ERROR ("Error getting test class name from " +:+ filename
                      +:+ ": " +:+ exn_str e);;
       mret None).

Fixpoint remove_loop (test_names : list string) (content : string) : M string :=
  match test_names with
  | [] => mret content
  | test_name :: rest =>
      let content := Repair.pattern_sub test_name content in
      logging INFO ("Removed problematic test: " +:+ test_name);;
      remove_loop rest content
  end.

Definition remove_problematic_tests (test_filename : string)
    (test_names : list string) : M unit :=
  content ← open_read test_filename;
  content ← remove_loop test_names content;
  open_write test_filename (Some content).

Definition unable_to_parse (filename : string) : string :=
  "Unable to parse test methods from " +:+ filename
  +:+ ". Please check the file for syntax errors.".

(** The [for test_method in test_methods] loop of [run_unit_tests]. *)
Fixpoint run_tests_loop (filename test_class_name : string) (timeout : Z)
    (test_methods failures removed_tests : list string)
  : M (list string * list string) :=
  match test_methods with
  | [] => mret (failures, removed_tests)
  | test_method :: rest =>
      r ← subprocess_run
            (RunUnittest (replace ".py" "" filename +:+ "." +:+ test_class_name
                          +:+ "." +:+ test_method) timeout);
      '(failures, removed_tests) ←
        match r with
        | Exited returncode _ stderr =>
            if negb (returncode =? 0)
            then mret ((failures ++ ["Test " +:+ test_method +:+ " failed:"
                                     +:+ nl +:+ stderr])%list, removed_tests)
            else mret (failures, removed_tests)
        | TimeoutExpired =>
            logging WARNING ("Test " +:+ test_method +:+ " timed out after "
                             +:+ str_int timeout +:+ " seconds");;
            mret (failures, (removed_tests ++ [test_method])%list)
        | LaunchError e =>
            mret ((failures ++ ["Error running test " +:+ test_method +:+ ": "
                                +:+ exn_str e])%list, removed_tests)
        end;
      run_tests_loop filename test_class_name timeout rest failures removed_tests
  end.

Definition run_unit_tests (filename : string) (timeout : Z) : M (option string) :=
  test_methods ← get_test_methods filename;
  class_name ← get_test_class_name filename;
  let test_class_name :=
    if truthy class_name then str_of class_name else "UnitTester" in
  match test_methods with
  | [] => mret (Some (unable_to_parse filename))
  | _ =>
      '(failures, removed_tests) ←
        run_tests_loop filename test_class_name timeout test_methods [] [];
      (match removed_tests with
       | [] => mret tt
       | _ => remove_problematic_tests filename removed_tests
       end);;
      match failures, removed_tests with
      | [], [] => mret None
      | _, _ =>
          mret (Some (join nl (failures ++ ["Removed tests due to timeout: "
                                            +:+ join ", " removed_tests])%list))
      end
  end.

Definition analyze_code_for_errors (code : option string) : M (option string) :=
  '(prompt, _) ← load_prompt "prompt_analyze_code_for_errors.txt";
  formatted_prompt ← format prompt [("code", code)];
  call_openai_api "gpt-4o-mini" formatted_prompt "analyze_errors".

Definition read_feature_history : M string :=
  found ← path_exists feature_history_log;
  if found : bool
  then content ← open_read feature_history_log; mret (strip content)
  else mret "".

Definition suggest_new_features (code : option string) : M (option string) :=
  features ← read_feature_history;
  '(prompt, _) ← load_prompt "prompt_suggest_features.txt";
  formatted_prompt ← format prompt [("features", Some features); ("code", code)];
  call_openai_api "gpt-4o-mini" formatted_prompt "suggest_features".

Definition choose_best_feature (features code : option string)
  : M (option string) :=
  '(prompt, _) ← load_prompt "prompt_choose_best_feature.txt";
  formatted_prompt ← format prompt [("features", features); ("code", code)];
  call_openai_api "gpt-4o-mini" formatted_prompt "choose_feature".

(** The request is made with [prompt], not with [formatted_prompt]. *)
Definition design_feature (feature code : option string) : M (option string) :=
  '(prompt, _) ← load_prompt "prompt_design_feature.txt";
  formatted_prompt ← format prompt [("feature", feature); ("code", code)];
  call_openai_api "gpt-4o-mini" prompt "design_feature".

Definition implement_feature (design code : option string) : M (option string) :=
  '(prompt, _) ← load_prompt "prompt_implement_feature.txt";
  formatted_prompt ← format prompt [("plan", design); ("code", code)];
  call_openai_api "gpt-4o-mini" formatted_prompt "implement_feature".

Definition fix_simulation (error code : option string) : M (option string) :=
  '(prompt, _) ← load_prompt "prompt_fix_sim.txt";
  formatted_prompt ← format prompt [("issue", error); ("code", code)];
  call_openai_api "gpt-4o-mini" formatted_prompt "fix_simulation".

Definition create_unit_tests (code : option string) (filename : string)
  : M (option string) :=
  '(prompt, _) ← load_prompt "prompt_unit_test.txt";
  formatted_prompt ← format prompt [("code", code); ("filename", Some filename)];
  call_openai_api "gpt-4o" formatted_prompt "create_unit_tests".

Definition fix_unit_tests (error test_code main_code : option string)
  : M (option string) :=
  '(prompt, _) ← load_prompt "prompt_fix_unit_test.txt";
  formatted_prompt ←
    format prompt [("code", main_code); ("test_code", test_code); ("error", error)];
  call_openai_api "gpt-4o-mini" formatted_prompt "fix_unit_tests".

(** The second, three-argument definition of [log_version_history] is
    the one in force when [main] runs. *)
Definition log_version_history (version : Z) (is_fix : bool) (summary : string)
  : M unit :=
  open_append version_history_log
    ("Version " +:+ str_int version +:+ ": "
     +:+ (if is_fix then "Fix" else "New feature") +:+ " - " +:+ summary +:+ nl).

Definition log_feature_history (version : Z) (summary : string) : M unit :=
  open_append feature_history_log
    ("Version " +:+ str_int version +:+ ": " +:+ summary +:+ nl).

Definition determine_next_step (version : Z) (code : option string)
    (main_feature : string) : M string :=
  let is_fix := startswith main_feature "Fix errors" in
  let summary := if is_fix then drop 12 main_feature else drop 13 main_feature in
  log_version_history version is_fix summary;;
  (if negb is_fix then log_feature_history version summary else mret tt);;
  picked ← random_choice;
  if picked : bool then mret "analyze" else mret "improve".

Definition adjust_unit_test_imports (test_code : string) (version : Z) : string :=
  let module_name := "sim" +:+ format_04d version in
  replace "from your_module" ("from " +:+ module_name) test_code.

(** *** [main] *)

(** The three variables [main] carries from one round of its outer loop
    to the next. *)
Record ctl : Type := Ctl {
  version : Z;
  code : option string;
  main_feature : string
}.

Definition sim_file (version : Z) : string := "sim" +:+ format_04d version +:+ ".py".
Definition test_file (version : Z) : string :=
  "sim" +:+ format_04d version +:+ "_test.py".

Definition max_sim_fix_attempts_of (version : Z) : Z :=
  if version =? 1 then 10 else 3.

(** The inner [while True] loop: run, and fix if necessary.  It ends by
    [break] with the values of [version], [code] and [sim_fix_attempts],
    or by [return]. *)
Fixpoint sim_fix_loop (fuel : nat) (sim_filename : string)
    (max_sim_fix_attempts : Z) (version : Z) (code : option string)
    (sim_fix_attempts : Z) : M (Z * option string * Z) :=
  match fuel with
  | O => out_of_fuel
  | S fuel' =>
      errors ← run_simulation sim_filename;
      if negb (truthy errors)
      then
        logging INFO ("Simulation for version " +:+ str_int version
                      +:+ " completed successfully.");;
        mret (version, code, sim_fix_attempts)
      else
        logging WARNING ("Simulation errors in version " +:+ str_int version
                         +:+ ":" +:+ nl +:+ str_of errors);;
        let sim_fix_attempts := sim_fix_attempts + 1 in
        if sim_fix_attempts >=? max_sim_fix_attempts
        then
          if version =? 1
          then
            logging ERROR "Initial version failed after 10 attempts. Exiting.";;
            main_return
          else
            logging WARNING ("Version " +:+ str_int version +:+ " failed after "
                             +:+ str_int max_sim_fix_attempts
                             +:+ " fix attempts. Rolling back.");;
            let version := version - 1 in
            code ← open_read (sim_file version);
            mret (version, Some code, sim_fix_attempts)
        else
          code ← fix_simulation errors code;
          saved ← save_code_to_file code sim_filename;
          if negb saved
          then
            logging ERROR ("Failed to save fixed simulation code for version "
                           +:+ str_int version +:+ ". Exiting.");;
            main_return
          else
            sim_fix_loop fuel' sim_filename max_sim_fix_attempts version code
                         sim_fix_attempts
  end.

(** The exception of [error_analysis.lower()] when [error_analysis] is
    [None]. *)
Definition attribute_error : exn :=
  PyExn "AttributeError" "'NoneType' object has no attribute 'lower'".

(** The [if next_step == "analyze"] branch, entered with [version]
    already incremented. *)
Definition analyze_branch (version : Z) (code : option string)
    (main_feature : string) : M ctl :=
  error_analysis ← analyze_code_for_errors code;
  lowered ←
    match error_analysis with
    | Some text => mret (lower text)
    | None => raise attribute_error
    end;
  if negb (String.eqb lowered "no errors")
  then
    logging INFO ("Potential errors found in version " +:+ str_int version
                  +:+ ":" +:+ nl +:+ str_of error_analysis);;
    let main_feature := "Fix errors: " +:+ take 100 (str_of error_analysis)
                        +:+ "..." in
    code ← fix_simulation error_analysis code;
    mret (Ctl version code main_feature)
  else
    logging INFO ("No potential errors found in version " +:+ str_int version
                  +:+ ".");;
    mret (Ctl (version - 1) code main_feature).

(** The [else] branch: improve. *)
Definition improve_branch (version : Z) (code : option string)
    (main_feature : string) : M ctl :=
  new_features ← suggest_new_features code;
  best_feature ← choose_best_feature new_features code;
  head ←
    match best_feature with
    | Some text => mret (take 100 text)
    | None => raise (PyExn "TypeError" "'NoneType' object is not subscriptable")
    end;
  let main_feature := "New feature: " +:+ head +:+ "..." in
  feature_design ← design_feature best_feature code;
  code ← implement_feature feature_design code;
  logging INFO ("Implemented new feature for version " +:+ str_int version
                +:+ ": " +:+ str_of best_feature);;
  mret (Ctl version code main_feature).

(** From [determine_next_step] to the end of the round. *)
Definition schedule_phase (version : Z) (code : option string)
    (main_feature : string) : M ctl :=
  next_step ← determine_next_step version code main_feature;
  let version := version + 1 in
  st ← (if String.eqb next_step "analyze"
        then analyze_branch version code main_feature
        else improve_branch version code main_feature);
  sleep 10;;
  mret st.

(** How the first part of a round ends when [main] neither returns nor
    raises: at the [continue] that follows a rollback, or on its way to
    [determine_next_step]; each with the values of [version] and
    [code]. *)
Inductive accepted : Type :=
| Continue (version : Z) (code : option string)
| Proceed (version : Z) (code : option string).

(** The body of [if version == 1] at the top of a round. *)
Definition generate_initial : M (option string) :=
  '(prompt, _) ← load_prompt "prompt_initial.txt";
  code ← call_openai_api "gpt-4o" prompt "initial";
  match code with
  | None =>
      logging ERROR "Failed to generate initial simulation code. Exiting.";;
      main_return
  | Some _ => mret code
  end.

(** A round of the outer loop, from its top to the saving of the unit
    tests. *)
Definition accept_phase (fuel : nat) (st : ctl) : M accepted :=
  let version := version st in
  code ← (if version =? 1 then generate_initial else mret (code st));
  let sim_filename := sim_file version in
  saved ← save_code_to_file code sim_filename;
  if negb saved
  then
    logging ERROR ("Failed to save simulation code for version "
                   +:+ str_int version +:+ ". Exiting.");;
    main_return
  else
    let max_sim_fix_attempts := max_sim_fix_attempts_of version in
    '(version, code, sim_fix_attempts) ←
      sim_fix_loop fuel sim_filename max_sim_fix_attempts version code 0;
    if (sim_fix_attempts >=? max_sim_fix_attempts) && (version >? 1)
    then mret (Continue version code)
    else
      test_code ← create_unit_tests code sim_filename;
      let test_filename := test_file version in
      saved ← save_code_to_file test_code test_filename;
      if negb saved
      then
        logging ERROR ("Failed to save unit tests for version "
                       +:+ str_int version +:+ ". Exiting.");;
        main_return
      else mret (Proceed version code).

(** One round of the outer [while True] loop; its value is the state the
    next round starts from. *)
Definition main_body (fuel : nat) (st : ctl) : M ctl :=
  r ← accept_phase fuel st;
  match r with
  | Continue version code => mret (Ctl version code (main_feature st))
  | Proceed version code => schedule_phase version code (main_feature st)
  end.

(** The outer [while True] loop, cut off after [rounds] rounds. *)
Fixpoint main_loop (rounds fuel : nat) (st : ctl) : M unit :=
  match rounds with
  | O => out_of_fuel
  | S rounds' =>
      st ← main_body fuel st;
      main_loop rounds' fuel st
  end.

Definition main (rounds fuel : nat) : M unit :=
  main_loop rounds fuel (Ctl 1 None "Initial implementation").

End Program.

(** ** Instances for the examples *)

Module Demo.

(** [str.format] on a template whose replacement fields are bare keyword
    names: [{{] and [}}] stand for a brace, [{name}] for the argument of
    that name.  The scan is in plain text, just past an opening brace,
    just past a closing brace, or inside a field whose name so far is
    kept reversed. *)
Inductive scan : Type :=
| Text
| Opened
| Closing
| Field (name : string).

Fixpoint lookup_kwarg (kwargs : list (string * option string)) (name : string)
  : option (option string) :=
  match kwargs with
  | [] => None
  | (k, v) :: rest => if String.eqb k name then Some v else lookup_kwarg rest name
  end.

Fixpoint format_scan (kwargs : list (string * option string)) (st : scan)
    (s : string) : exn + string :=
  match s with
  | "" =>
      match st with
      | Text => inr ""
      | Opened => inl (PyExn "ValueError" "Single '{' encountered in format string")
      | Closing => inl (PyExn "ValueError" "Single '}' encountered in format string")
      | Field _ => inl (PyExn "ValueError" "expected '}' before end of string")
      end
  | String c s' =>
      let emit_then (text : string) (st' : scan) :=
        match format_scan kwargs st' s' with
        | inl e => inl e
        | inr out => inr (text +:+ out)
        end in
      match st with
      | Text =>
          if Ascii.eqb c "{" then format_scan kwargs Opened s'
          else if Ascii.eqb c "}" then format_scan kwargs Closing s'
          else emit_then (String c "") Text
      | Opened =>
          if Ascii.eqb c "{" then emit_then "{" Text
          else if Ascii.eqb c "}"
          then inl (PyExn "IndexError"
                      "Replacement index 0 out of range for positional args tuple")
          else format_scan kwargs (Field (String c "")) s'
      | Closing =>
          if Ascii.eqb c "}" then emit_then "}" Text
          else inl (PyExn "ValueError" "Single '}' encountered in format string")
      | Field name =>
          if Ascii.eqb c "}"
          then
            match lookup_kwarg kwargs (String.rev name) with
            | Some v => emit_then (str_of v) Text
            | None => inl (PyExn "KeyError" (repr (String.rev name)))
            end
          else format_scan kwargs (Field (String c name)) s'
      end
  end.

Definition format_names (template : string)
    (kwargs : list (string * option string)) : exn + string :=
  format_scan kwargs Text template.

(** The syntax trees of the few sources the examples use: an assignment
    [x = 1], a test case class with one method, and three top-level
    functions; any other text is turned down. *)
Definition assignment_source : string := "x = 1" +:+ nl.
Definition assignment_tree : node :=
  Node ModuleNode [Node Other [Node Other [Node Other []]; Node Other []]].

Definition test_case_source : string :=
  "class T(unittest.TestCase):" +:+ nl +:+
  "    def test_a(self):" +:+ nl +:+
  "        pass" +:+ nl.
Definition test_case_tree : node :=
  Node ModuleNode
    [Node (ClassDef "T")
       [Node Other [Node Other [Node Other []]; Node Other []];
        Node (FunctionDef "test_a")
          [Node Other [Node Other []]; Node Other []]]].

Definition plain_tests_source : string :=
  "def test_a():" +:+ nl +:+ "    pass" +:+ nl +:+
  "def helper():" +:+ nl +:+ "    pass" +:+ nl +:+
  "def test_b():" +:+ nl +:+ "    pass" +:+ nl.
Definition function_def (name : string) : node :=
  Node (FunctionDef name) [Node Other []; Node Other []].
Definition plain_tests_tree : node :=
  Node ModuleNode [function_def "test_a"; function_def "helper";
                   function_def "test_b"].

Definition parse (content : string) : parse_result :=
  if String.eqb content assignment_source then Parsed assignment_tree
  else if String.eqb content test_case_source then Parsed test_case_tree
  else if String.eqb content plain_tests_source then Parsed plain_tests_tree
  else SyntaxError 1 content.

Definition search_class (content : string) : option string :=
  if String.eqb content test_case_source then Some "T" else None.

Definition prompt_path (name : string) : string := path_join prompts_dir name.

(** A prompts folder with a template for every request. *)
Definition prompts : gmap string string :=
  list_to_map
    [(prompt_path "prompt_initial.txt", "Write a simulation.");
     (prompt_path "prompt_fix_sim.txt", "Fix {issue} in: {code}");
     (prompt_path "prompt_unit_test.txt", "Test {code} of {filename}");
     (prompt_path "prompt_analyze_code_for_errors.txt", "Find errors in: {code}");
     (prompt_path "prompt_suggest_features.txt",
      "Done: {features}. Suggest for: {code}");
     (prompt_path "prompt_choose_best_feature.txt",
      "Choose among {features} for: {code}");
     (prompt_path "prompt_design_feature.txt", "Design {feature} for: {code}");
     (prompt_path "prompt_implement_feature.txt", "Implement {plan} in: {code}")].

Definition crash : completed := Exited 1 "" "Traceback: boom".
Definition clean : completed := Exited 0 "" "".

(** A world with the given files and answers, an empty trace, storage
    that never faults and a clock that stands still. *)
Definition world_of (fs : gmap string string)
    (replies : nat -> exn + option string) (runs : nat -> completed)
    (picks : nat -> bool) : world :=
  World fs [] replies runs (fun _ => None) picks (fun _ => "20240101_000000").

End Demo.

(** ** Vocabulary of the proofs *)

(** An outcome other than a value passes through what follows. *)
Definition pass {A B : Type} (r : outcome A) : option (outcome B) :=
  match r with
  | Val _ => None
  | Raised e => Some (Raised e)
  | Returned => Some Returned
  | OutOfFuel => Some OutOfFuel
  end.

Fixpoint spawns (evs : list event) : nat :=
  match evs with
  | [] => 0
  | Spawn _ :: rest => S (spawns rest)
  | _ :: rest => spawns rest
  end.

Definition is_choice (e : event) : bool :=
  match e with
  | Choice _ => true
  | _ => false
  end.

Definition is_log (e : event) : bool :=
  match e with
  | Log _ _ => true
  | _ => false
  end.

(** The trace without its log lines. *)
Definition observable (evs : list event) : list event :=
  List.filter (fun e => negb (is_log e)) evs.

(** [ran P n w w']: from [w] to [w'] exactly [n] child processes were
    spawned, the random source was not asked, and only files whose path
    satisfies [P] were written. *)
Record ran (P : string -> Prop) (n : nat) (w w' : world) : Prop := Ran {
  ran_trace : exists evs, trace w' = (trace w ++ evs)%list
                          /\ Forall (fun e => is_choice e = false) evs
                          /\ spawns evs = n;
  ran_files : forall path, ~ P path -> files w' !! path = files w !! path;
  ran_procs : forall k, procs w' k = procs w (n + k)%nat
}.

(** A helper of the controller: it spawns nothing, makes no choice,
    writes only to [P], and ends with a value or an exception. *)
Definition keeps {A : Type} (P : string -> Prop) (m : M A) : Prop :=
  forall w r w', m w = (r, w') ->
    ran P 0 w w' /\ ((exists a, r = Val a) \/ (exists e, r = Raised e)).

(** Every path but that of the version history. *)
Definition not_history (path : string) : Prop := path <> version_history_log.

(** A text that does not begin with the letter U. *)
Definition not_U (s : string) : Prop :=
  exists c rest, s = String c rest /\ c <> "U"%char.

(** ** Concrete runs *)

Module Runs.

Import Demo.

(** Version 3 is in flight with version 2 on disk; the first three runs
    crash, later ones exit cleanly; every request is answered; the
    scheduler picks the analysis. *)
Definition world_three : world :=
  world_of (<["sim0002.py" := "v2"]> prompts)
    (fun _ => inr (Some "fixed"))
    (fun k => if (k <? 3)%nat then crash else clean)
    (fun _ => true).

Definition state_three : ctl := Ctl 3 (Some "v3") "New feature: wolves...".

(** A fresh start in which every run crashes. *)
Definition world_crashing : world :=
  world_of prompts (fun _ => inr (Some "code")) (fun _ => crash) (fun _ => true).

(** A fresh start in which every run exits cleanly and the scheduler
    picks the analysis; the third request, the analysis, is answered
    by [analysis]. *)
Definition world_analysis (analysis : exn + option string) : world :=
  world_of prompts
    (fun k => if (k =? 2)%nat then analysis else inr (Some "code"))
    (fun _ => clean) (fun _ => true).

Definition state_one : ctl := Ctl 1 None "Initial implementation".

(** The same world when the first round reaches the scheduler. *)
Definition world_scheduling (analysis : exn + option string) : world :=
  snd (accept_phase format_names 1 state_one (world_analysis analysis)).

(** A world in which every child process outlives its timeout. *)
Definition world_timeout : world :=
  world_of prompts (fun _ => inr None) (fun _ => TimeoutExpired) (fun _ => false).

(** A world in which the design is requested. *)
Definition world_design : world :=
  world_of prompts (fun _ => inr (Some "a design")) (fun _ => clean)
    (fun _ => false).

Definition two_tests (first second : string) : string :=
  "def " +:+ first +:+ "(self):" +:+ nl +:+ "    pass" +:+ nl +:+ nl +:+
  "def " +:+ second +:+ "(self):" +:+ nl +:+ "    pass".

Definition one_test (name body : string) : string :=
  "def " +:+ name +:+ "(self):" +:+ nl +:+ "    " +:+ body.

(** A world whose only file is a test file with the given text. *)
Definition test_world (content : string) : world :=
  world_of {["sim0001_test.py" := content]} (fun _ => inr None)
    (fun _ => clean) (fun _ => false).

(** The test file after [remove_problematic_tests]. *)
Definition repaired (test_names : list string) (content : string)
  : option string :=
  files (snd (remove_problematic_tests "sim0001_test.py" test_names
                (test_world content))) !! "sim0001_test.py".


End Runs.

Import Runs.


(** ** Further vocabulary *)

(** The commands spawned, in order. *)
Fixpoint spawned (evs : list event) : list command :=
  match evs with
  | [] => []
  | Spawn cmd :: rest => cmd :: spawned rest
  | _ :: rest => spawned rest
  end.

(** A computation that ends with a value or with an exception: it
    neither executes the [return] of [main] nor is cut off. *)
Definition plain {A : Type} (m : M A) : Prop :=
  forall w r w', m w = (r, w') -> (exists a, r = Val a) \/ (exists e, r = Raised e).

(** The path of a prompt template. *)
Definition template_path (filename : string) : string :=
  path_join prompts_dir filename.

(** The two files [save_gpt_response] writes at a given time stamp. *)
Definition prompt_log (prefix timestamp : string) : string :=
  path_join logs_dir (prefix +:+ "_prompt_" +:+ timestamp +:+ ".txt").
Definition response_log (prefix timestamp : string) : string :=
  path_join logs_dir (prefix +:+ "_response_" +:+ timestamp +:+ ".txt").

(** The text between the start of [s] and its first dash is free of
    dashes. *)
Fixpoint dashless (s : string) : bool :=
  match s with
  | "" => true
  | String c s' => negb (Ascii.eqb c "-") && dashless s'
  end.

(** [sep] occurs nowhere in [s]. *)
Fixpoint absent (sep s : string) : bool :=
  match s with
  | "" => negb (String.prefix sep "")
  | String _ s' => negb (String.prefix sep s) && absent sep s'
  end.

(** No restriction on the files written. *)
Definition anywhere (path : string) : Prop := True.

(** The class the harness addresses the tests of a file by: the one the
    search finds, or [UnitTester]. *)
Definition test_class_of (search_test_class : string -> option string)
    (filename : string) (w : world) : string :=
  match files w !! filename with
  | Some content =>
      if truthy (search_test_class (universal_newlines content))
      then str_of (search_test_class (universal_newlines content))
      else "UnitTester"
  | None => "UnitTester"
  end.

(** The command that runs one test of a file. *)
Definition unittest_command (filename test_class_name : string) (timeout : Z)
    (test_method : string) : command :=
  RunUnittest (replace ".py" "" filename +:+ "." +:+ test_class_name +:+ "."
               +:+ test_method) timeout.

(** The child did not exit with status zero. *)
Definition test_fails (r : completed) : Prop :=
  match r with
  | Exited returncode _ _ => returncode <> 0
  | TimeoutExpired => False
  | LaunchError _ => True
  end.

(** A name made of ASCII letters, digits and underscores: as part of a
    pattern it stands for itself. *)
Definition word_char (c : ascii) : bool :=
  let n := nat_of_ascii c in
  (((48 <=? n)%nat && (n <=? 57)%nat) || ((65 <=? n)%nat && (n <=? 90)%nat)
   || ((97 <=? n)%nat && (n <=? 122)%nat) || (n =? 95)%nat)%bool.

Fixpoint identifier (s : string) : bool :=
  match s with
  | "" => true
  | String c s' => word_char c && identifier s'
  end.

(** The tests whose child outlives the timeout, when the children end
    as [runs] tells, one for each test in order. *)
Fixpoint timed_out (tests : list string) (runs : nat -> completed) : list string :=
  match tests with
  | [] => []
  | t :: rest =>
      match runs O with
      | TimeoutExpired => t :: timed_out rest (tl runs)
      | _ => timed_out rest (tl runs)
      end
  end.

(** ** Start-up: the API key *)

(** [sys.exit(code)] raises [SystemExit]. *)
Definition sys_exit {A : Type} (code : Z) : M A :=
  raise (PyExn "SystemExit" (str_int code)).

(** [load_api_key]: the [try] has a handler for [FileNotFoundError] and
    one for every other [Exception]; both log and exit.  It runs before
    [logging.basicConfig], so its two error lines go to the standard
    error stream; they are events of the trace all the same. *)
Definition load_api_key (filename : string) : M string :=
  try_except
    (content ← open_read filename;
     mret (strip content))
    (fun e =>
       let 'PyExn cls _ := e in
       if String.eqb cls "FileNotFoundError"
       then
         logging ERROR ("API key file '" +:+ filename +:+ "' not found.");;
         sys_exit 1
       else
         logging ERROR ("Error reading API key file: " +:+ exn_str e);;
         sys_exit 1).

(** The text begins and ends with a character that is not white space,
    or is empty. *)
Definition trimmed (s : string) : Prop :=
  s = "" \/
  ((exists c r, s = String c r /\ is_space c = false) /\
   (exists q d, s = q +:+ String d "" /\ is_space d = false)).

(** No occurrence of [old] begins in the first [n] characters of [s]. *)
Fixpoint no_start (old : string) (n : nat) (s : string) : bool :=
  match n with
  | O => true
  | S k =>
      negb (String.prefix old s)
      && match s with
         | "" => true
         | String _ s' => no_start old k s'
         end
  end.

(** The placeholder a generated test module imports the simulation
    from. *)
Definition import_marker : string := "from your_module".


(** A computation all of whose events satisfy [P]. *)
Definition emits {A : Type} (P : event -> Prop) (m : M A) : Prop :=
  forall w r w', m w = (r, w') ->
    exists evs, trace w' = (trace w ++ evs)%list /\ Forall P evs.

(** The warning the fix loop logs when it rolls back. *)
Definition rollback_warning (version max : Z) : event :=
  Log WARNING ("Version " +:+ str_int version +:+ " failed after "
               +:+ str_int max +:+ " fix attempts. Rolling back.").

(** A warning that begins as the rollback warning does. *)
Definition is_rollback_warning (e : event) : bool :=
  match e with
  | Log WARNING msg => String.prefix "Version " msg
  | _ => false
  end.

(** Neither a child process nor a warning. *)
Definition quiet (e : event) : Prop :=
  match e with
  | Spawn _ => False
  | Log WARNING _ => False
  | _ => True
  end.

(** What may come before a rollback: no rollback warning, and child
    processes that satisfy [Q]. *)
Definition leading (Q : command -> Prop) (e : event) : Prop :=
  is_rollback_warning e = false /\
  match e with
  | Spawn cmd => Q cmd
  | _ => True
  end.

(** A computation whose events fall in two stages: a first one without
    a rollback warning, whose child processes satisfy [Q], and a second
    one without any child process. *)
Definition staged {A : Type} (Q : command -> Prop) (m : M A) : Prop :=
  forall w r w', m w = (r, w') ->
    exists before after,
      trace w' = (trace w ++ before ++ after)%list /\
      Forall (leading Q) before /\
      spawned after = [].

(** ** Further runs *)

Module Cases.

Import Demo.

(** A world whose only file is the key file. *)
Definition key_world (content : string) : world :=
  world_of {["apikey.txt" := content]} (fun _ => inr None) (fun _ => clean)
    (fun _ => false).

(** A fresh start in which every run exits with status 1 and writes
    nothing. *)
Definition world_silent : world :=
  world_of prompts (fun _ => inr (Some "code")) (fun _ => Exited 1 "out" "")
    (fun _ => true).

(** A fresh start in which every run crashes and the service refuses
    every request. *)
Definition world_refusing : world :=
  world_of prompts (fun _ => inl (PyExn "APIError" "Connection error."))
    (fun _ => crash) (fun _ => true).

(** A world whose storage refuses every file opened for writing. *)
Definition world_full : world :=
  World prompts [] (fun _ => inr (Some "code")) (fun _ => clean)
    (fun _ => Some (PyExn "OSError" "[Errno 28] No space left on device"))
    (fun _ => true) (fun _ => "20240101_000000").

(** A fresh start in which every run exits cleanly and the scheduler
    picks the improvement; the fourth request, the choice of a feature,
    comes back without an answer. *)
Definition world_improving : world :=
  world_of prompts
    (fun k => if (k =? 3)%nat then inr None else inr (Some "code"))
    (fun _ => clean) (fun _ => false).

(** A world whose only file is a test file with the given text and in
    which every child crashes. *)
Definition failing_tests_world (content : string) : world :=
  world_of {["sim0001_test.py" := content]} (fun _ => inr None)
    (fun _ => crash) (fun _ => false).

(** A world whose only file is a test file with the given text and in
    which the first child outlives its timeout and the others crash. *)
Definition slow_test_world (content : string) : world :=
  world_of {["sim0001_test.py" := content]} (fun _ => inr None)
    (fun k => match k with O => TimeoutExpired | _ => crash end) (fun _ => false).


(** A fresh start with the key file beside the templates, in which
    every run exits cleanly. *)
Definition world_keyed : world :=
  world_of (<["apikey.txt" := "sk-1"]> prompts) (fun _ => inr (Some "code"))
    (fun _ => clean) (fun _ => true).

End Cases.

Import Cases.

(** A computation all of whose child processes satisfy [Q]. *)
Definition spawns_only {A : Type} (Q : command -> Prop) (m : M A) : Prop :=
  forall w r w', m w = (r, w') ->
    exists evs, trace w' = (trace w ++ evs)%list /\ Forall Q (spawned evs).

(** A run of the simulation file of some version. *)
Definition simulation_run (cmd : command) : Prop :=
  exists v, cmd = RunSimulation (sim_file v).

(** A computation that writes only to files whose path satisfies [P]. *)
Definition writes_only {A : Type} (P : string -> Prop) (m : M A) : Prop :=
  forall w r w', m w = (r, w') ->
    forall path, ~ P path -> files w' !! path = files w !! path.

(** The files of the controller: the programs, their tests, and what is
    in the logs folder. *)
Definition working_file (path : string) : Prop :=
  (exists v, path = sim_file v) \/ (exists v, path = test_file v) \/
  (exists name, path = path_join logs_dir name).

(** * Properties *)

(** ** The string functions at work *)

Example format_04d_7 : format_04d 7 = "0007".
Proof. reflexivity. Qed.
Example format_04d_12345 : format_04d 12345 = "12345".
Proof. reflexivity. Qed.
Example format_04d_neg : format_04d (-5) = "-005".
Proof. reflexivity. Qed.
Example str_int_0 : str_int 0 = "0" /\ str_int 42 = "42" /\ str_int (-3) = "-3".
Proof. repeat split; reflexivity. Qed.
Example split_ex : split "---" "a---b,c---" = ["a"; "b,c"; ""].
Proof. reflexivity. Qed.
Example strip_ex : strip ("  a b " +:+ nl) = "a b".
Proof. reflexivity. Qed.
Example replace_ex : replace ".py" "" "sim0001_test.py" = "sim0001_test".
Proof. reflexivity. Qed.
Example lower_ex : lower "No ERRORS" = "no errors".
Proof. reflexivity. Qed.

Example remove_all_test_slow :
  Repair.remove_all ["test_slow"]
    ("def test_slow(self):" +:+ nl +:+ "    pass" +:+ nl +:+ nl +:+
     "def test_fast(self):" +:+ nl +:+ "    pass")
  = "def test_fast(self):" +:+ nl +:+ "    pass".
Proof. reflexivity. Qed.

Example remove_all_test_a :
  Repair.remove_all ["test_a"]
    ("def test_a(self):" +:+ nl +:+ "    pass" +:+ nl +:+ nl +:+
     "def test_ab(self):" +:+ nl +:+ "    pass")
  = "".
Proof. reflexivity. Qed.

Example walk_is_breadth_first :
  map node_kind (walk (Node ModuleNode
     [Node (ClassDef "T") [Node (FunctionDef "test_a") [Node Other []]];
      Node (FunctionDef "test_b") []]))
  = [ModuleNode; ClassDef "T"; FunctionDef "test_b"; FunctionDef "test_a"; Other].
Proof. reflexivity. Qed.

(** ** File names *)

Section FileNames.

Lemma append_nil (t : string) : "" +:+ t = t.
Proof. reflexivity. Qed.

Lemma append_cons (c : ascii) (s t : string) : String c s +:+ t = String c (s +:+ t).
Proof. reflexivity. Qed.

Lemma append_length (s t : string) :
  String.length (s +:+ t) = (String.length s + String.length t)%nat.
Proof.
  induction s as [|c s IH]; [reflexivity|].
  rewrite append_cons. simpl. now rewrite IH.
Qed.

Lemma append_cancel_r (t s1 s2 : string) : s1 +:+ t = s2 +:+ t -> s1 = s2.
Proof.
  revert s2. induction s1 as [|c s1 IH]; intros [|d s2] H;
    rewrite ?append_nil, ?append_cons in H.
  - reflexivity.
  - apply (f_equal String.length) in H. simpl in H.
    rewrite (append_length s2 t) in H. lia.
  - apply (f_equal String.length) in H. simpl in H.
    rewrite (append_length s1 t) in H. lia.
  - injection H as -> H. f_equal. now apply IH.
Qed.

Lemma value_of_zeros_digits (k : nat) (n : N) :
  value_of (zeros k +:+ digits n) = Some n.
Proof.
  unfold value_of, digits. induction k as [|k IH]; simpl;
    rewrite ?append_nil, ?append_cons; simpl.
  - rewrite NilEmpty.usu. simpl. f_equal. apply DecimalN.Unsigned.of_to.
  - destruct (NilEmpty.uint_of_string (zeros k +:+ NilEmpty.string_of_uint (N.to_uint n)))
      as [d|]; simpl in *; [|discriminate].
    exact IH.
Qed.

Lemma format_04d_inj (a b : Z) :
  0 <= a -> 0 <= b -> format_04d a = format_04d b -> a = b.
Proof.
  intros Ha Hb H. unfold format_04d in H.
  destruct (Z.ltb_spec a 0) as [?|_]; [lia|].
  destruct (Z.ltb_spec b 0) as [?|_]; [lia|].
  apply (f_equal value_of) in H. rewrite !value_of_zeros_digits in H.
  injection H as H. lia.
Qed.

Lemma sim_file_inj (a b : Z) : 0 <= a -> 0 <= b -> sim_file a = sim_file b -> a = b.
Proof.
  intros Ha Hb H. unfold sim_file in H. rewrite !append_cons, !append_nil in H.
  injection H as H. apply append_cancel_r in H. now apply format_04d_inj.
Qed.

End FileNames.

(** ** Running computations *)

Section Running.

Context {A B : Type}.

Lemma bind_val (m : M A) (f : A -> M B) (w w1 : world) (a : A) :
  m w = (Val a, w1) -> (m ≫= f) w = f a w1.
Proof. unfold mbind, M_bind. now intros ->. Qed.

Lemma bind_raised (m : M A) (f : A -> M B) (w w1 : world) (e : exn) :
  m w = (Raised e, w1) -> (m ≫= f) w = (Raised e, w1).
Proof. unfold mbind, M_bind. now intros ->. Qed.

(** A computation followed by another ends where the first one stops,
    or where the second one ends after the first gave a value. *)
Lemma bind_inv (m : M A) (f : A -> M B) (w w' : world) (r : outcome B) :
  (m ≫= f) w = (r, w') ->
  (exists a w1, m w = (Val a, w1) /\ f a w1 = (r, w')) \/
  (exists r0, m w = (r0, w') /\ pass r0 = Some r).
Proof.
  unfold mbind, M_bind. destruct (m w) as [[a|e| |] w1]; intros H.
  - left. eauto.
  - right. injection H as <- <-. eauto.
  - right. injection H as <- <-. eauto.
  - right. injection H as <- <-. eauto.
Qed.

End Running.

(** ** What a computation leaves alone *)

Lemma spawns_app (evs1 evs2 : list event) :
  spawns (evs1 ++ evs2) = (spawns evs1 + spawns evs2)%nat.
Proof.
  induction evs1 as [|e evs1 IH]; [reflexivity|].
  destruct e; simpl; rewrite IH; reflexivity.
Qed.

Lemma ran_refl (P : string -> Prop) (w : world) : ran P 0 w w.
Proof.
  split; try reflexivity.
  exists []. split; [now rewrite app_nil_r | split; [constructor | reflexivity]].
Qed.

Lemma ran_trans (P : string -> Prop) (n m : nat) (w1 w2 w3 : world) :
  ran P n w1 w2 -> ran P m w2 w3 -> ran P (n + m) w1 w3.
Proof.
  intros [(e1 & T1 & F1 & S1) H1 Q1] [(e2 & T2 & F2 & S2) H2 Q2]. split.
  - exists (e1 ++ e2)%list. split; [|split].
    + now rewrite T2, T1, app_assoc.
    + now apply Forall_app.
    + rewrite spawns_app. now rewrite S1, S2.
  - intros path Hp. now rewrite H2, H1.
  - intros k. rewrite Q2, Q1. f_equal. lia.
Qed.

Lemma ran_trans_0 (P : string -> Prop) (n : nat) (w1 w2 w3 : world) :
  ran P n w1 w2 -> ran P 0 w2 w3 -> ran P n w1 w3.
Proof. intros H1 H2. replace n with (n + 0)%nat by lia. eapply ran_trans; eauto. Qed.

(** A step that only touches the trace, with one event that is neither
    a spawn nor a choice, or that only advances a stream other than the
    processes. *)
Lemma ran_same (P : string -> Prop) (w w' : world) :
  trace w' = trace w -> files w' = files w -> procs w' = procs w -> ran P 0 w w'.
Proof.
  intros T F Q. split.
  - exists []. rewrite T, app_nil_r. repeat split. constructor.
  - intros path _. now rewrite F.
  - intros k. now rewrite Q.
Qed.

Section Keeps.

Variable P : string -> Prop.

Lemma keeps_ret {A : Type} (a : A) : keeps P (mret a).
Proof. intros w r w' H. injection H as <- <-. split; [apply ran_refl | eauto]. Qed.

Lemma keeps_raise {A : Type} (e : exn) : keeps P (@raise A e).
Proof. intros w r w' H. injection H as <- <-. split; [apply ran_refl | eauto]. Qed.

Lemma keeps_bind {A B : Type} (m : M A) (f : A -> M B) :
  keeps P m -> (forall a, keeps P (f a)) -> keeps P (m ≫= f).
Proof.
  intros Hm Hf w r w' H.
  destruct (bind_inv _ _ _ _ _ H) as [(a & w1 & H1 & H2)|(r0 & H1 & Hr)].
  - destruct (Hm _ _ _ H1) as [R1 _]. destruct (Hf _ _ _ _ H2) as [R2 O2].
    split; [|exact O2]. eapply ran_trans_0; eassumption.
  - destruct (Hm _ _ _ H1) as [R1 [[a ->]|[e ->]]]; [discriminate|].
    injection Hr as <-. split; eauto.
Qed.

Lemma keeps_try_except {A : Type} (body : M A) (handler : exn -> M A) :
  keeps P body -> (forall e, keeps P (handler e)) -> keeps P (try_except body handler).
Proof.
  intros Hb Hh w r w' H. unfold try_except in H.
  destruct (body w) as [[a|e| |] w1] eqn:E.
  - injection H as <- <-. eapply Hb; eassumption.
  - destruct (Hb _ _ _ E) as [R1 _]. destruct (Hh _ _ _ _ H) as [R2 O2].
    split; [|exact O2]. eapply ran_trans_0; eassumption.
  - injection H as <- <-. eapply Hb; eassumption.
  - injection H as <- <-. eapply Hb; eassumption.
Qed.

Lemma keeps_logging (lvl : level) (msg : string) : keeps P (logging lvl msg).
Proof.
  intros w r w' H. injection H as <- <-. split; [|eauto].
  split; simpl; try reflexivity.
  exists [Log lvl msg]. repeat split. now constructor.
Qed.

Lemma keeps_sleep (seconds : Z) : keeps P (sleep seconds).
Proof.
  intros w r w' H. injection H as <- <-. split; [|eauto].
  split; simpl; try reflexivity.
  exists [Sleep seconds]. repeat split. now constructor.
Qed.

Lemma keeps_open_read (path : string) : keeps P (open_read path).
Proof.
  intros w r w' H. unfold open_read in H.
  destruct (files w !! path); injection H as <- <-; (split; [apply ran_refl | eauto]).
Qed.

Lemma keeps_path_exists (path : string) : keeps P (path_exists path).
Proof. intros w r w' H. injection H as <- <-. split; [apply ran_refl | eauto]. Qed.

Lemma keeps_open_fault : keeps P open_fault.
Proof.
  intros w r w' H. unfold open_fault in H.
  destruct (faults w 0%nat); injection H as <- <-; (split; [now apply ran_same | eauto]).
Qed.

Lemma keeps_update_files (f : gmap string string -> gmap string string) :
  (forall fs path, ~ P path -> f fs !! path = fs !! path) ->
  keeps P (update_files f).
Proof.
  intros Hf w r w' H. injection H as <- <-. split; [|eauto].
  split; simpl; try reflexivity; auto.
  exists []. rewrite app_nil_r. repeat split. constructor.
Qed.

Lemma keeps_insert (path text : string) :
  P path -> keeps P (update_files (insert path text)).
Proof.
  intros Hp. apply keeps_update_files. intros fs path' Hn.
  apply lookup_insert_ne. intros ->. contradiction.
Qed.

Lemma keeps_open_write (path : string) (content : option string) :
  P path -> keeps P (open_write path content).
Proof.
  intros Hp. unfold open_write. apply keeps_bind; [apply keeps_open_fault|].
  intros _. destruct content.
  - now apply keeps_insert.
  - apply keeps_bind; [now apply keeps_insert | intros; apply keeps_raise].
Qed.

Lemma keeps_open_append (path text : string) :
  P path -> keeps P (open_append path text).
Proof.
  intros Hp. unfold open_append. apply keeps_bind; [apply keeps_open_fault|].
  intros _. apply keeps_update_files. intros fs path' Hn.
  apply lookup_insert_ne. intros ->. contradiction.
Qed.

Lemma keeps_completions_create (model prompt : string) :
  keeps P (completions_create model prompt).
Proof.
  unfold completions_create. apply keeps_bind.
  - intros w r w' H. injection H as <- <-. split; [|eauto].
    split; simpl; try reflexivity.
    exists [ApiCall model prompt]. repeat split. now constructor.
  - intros _ w r w' H. unfold api_reply in H.
    destruct (api w 0%nat); injection H as <- <-; (split; [now apply ran_same | eauto]).
Qed.

Lemma keeps_now_strftime : keeps P now_strftime.
Proof. intros w r w' H. injection H as <- <-. split; [now apply ran_same | eauto]. Qed.

End Keeps.

Create HintDb keeps.

#[local] Hint Resolve keeps_ret keeps_raise keeps_logging keeps_sleep
  keeps_open_read keeps_path_exists keeps_completions_create
  keeps_now_strftime : keeps.

(** Splits a sequence of computations into its steps. *)
Ltac keeps_step :=
  lazymatch goal with
  | |- keeps _ (_ ≫= _) => apply keeps_bind; [|intros]
  | |- keeps _ (try_except _ _) => apply keeps_try_except; [|intros]
  | |- keeps _ (match ?x with _ => _ end) => destruct x
  end.

Ltac keeps_tac := repeat keeps_step; eauto with keeps.

(** ** The helpers of the controller *)

Section KeepsProgram.

Variable str_format : string -> list (string * option string) -> exn + string.
Variable P : string -> Prop.

Lemma keeps_format (template : string) (kwargs : list (string * option string)) :
  keeps P (format str_format template kwargs).
Proof. unfold format. destruct (str_format template kwargs); auto with keeps. Qed.

Lemma keeps_load_prompt (filename : string) : keeps P (load_prompt filename).
Proof. unfold load_prompt. keeps_tac. Qed.

Lemma keeps_save_gpt_response (prompt : string) (response : option string)
    (prefix : string) :
  (forall path, audit_path prefix path -> P path) ->
  keeps P (save_gpt_response prompt response prefix).
Proof.
  intros HP. unfold save_gpt_response. keeps_tac;
    apply keeps_open_write; apply HP; eexists _, _; reflexivity.
Qed.

Lemma keeps_call_openai_api (model prompt prefix : string) :
  (forall path, audit_path prefix path -> P path) ->
  keeps P (call_openai_api model prompt prefix).
Proof.
  intros HP. unfold call_openai_api. keeps_tac.
  now apply keeps_save_gpt_response.
Qed.

Lemma keeps_save_code_to_file (code : option string) (filename : string) :
  P filename -> keeps P (save_code_to_file code filename).
Proof.
  intros HP. unfold save_code_to_file. keeps_tac. now apply keeps_open_write.
Qed.

Lemma keeps_fix_simulation (error code : option string) :
  (forall path, audit_path "fix_simulation" path -> P path) ->
  keeps P (fix_simulation str_format error code).
Proof.
  intros HP. unfold fix_simulation. keeps_tac;
    auto using keeps_load_prompt, keeps_format, keeps_call_openai_api.
Qed.

Lemma keeps_create_unit_tests (code : option string) (filename : string) :
  (forall path, audit_path "create_unit_tests" path -> P path) ->
  keeps P (create_unit_tests str_format code filename).
Proof.
  intros HP. unfold create_unit_tests. keeps_tac;
    auto using keeps_load_prompt, keeps_format, keeps_call_openai_api.
Qed.

End KeepsProgram.

(** ** The fix loop *)

Ltac bind_split H a w1 H1 :=
  apply bind_inv in H;
  destruct H as [(a & w1 & H1 & H)|(?r0 & H1 & ?Hr)].

Section FixLoop.

Variable str_format : string -> list (string * option string) -> exn + string.
Variable P : string -> Prop.
Variable version max : Z.
Hypothesis P_sim : P (sim_file version).
Hypothesis P_audit : forall path, audit_path "fix_simulation" path -> P path.

Lemma run_simulation_step (filename : string) (w : world) :
  exists w1, run_simulation filename w = (Val (simulation_result (procs w 0%nat)), w1)
             /\ ran P 1 w w1.
Proof.
  eexists. split; [reflexivity|]. split; simpl; try reflexivity.
  exists [Spawn (RunSimulation filename)]. repeat split. now constructor.
Qed.

Lemma sim_fix_loop_failing (fuel : nat) :
  forall (attempts : Z) (code : option string) (w : world)
         (r : outcome (Z * option string * Z)) (w' : world),
    let remaining := Z.to_nat (max - attempts) in
    (1 <= remaining <= fuel)%nat ->
    (forall k, (k < remaining)%nat -> run_fails (procs w k)) ->
    sim_fix_loop str_format fuel (sim_file version) max version code attempts w
      = (r, w') ->
    exists n, ran P n w w' /\ (n <= remaining)%nat /\
      match r with
      | Val (v, c, a) =>
          n = remaining /\ version <> 1 /\ v = version - 1 /\ a = max /\
          exists text, c = Some (universal_newlines text)
                       /\ files w' !! sim_file (version - 1) = Some text
      | Raised _ => version = 1 -> (n < remaining)%nat
      | Returned => True
      | OutOfFuel => False
      end.
Proof.
  induction fuel as [|fuel IH]; intros attempts code w r w' remaining Hrem Hfail H;
    [lia|].
  cbn [sim_fix_loop] in H.
  destruct (run_simulation_step (sim_file version) w) as (w1 & Hrun & R1).
  rewrite (bind_val _ _ _ _ _ Hrun) in H.
  assert (Hf0 : run_fails (procs w 0%nat)) by (apply Hfail; lia).
  unfold run_fails in Hf0. rewrite Hf0 in H. cbn [negb] in H.
  bind_split H u w2 H2;
    [|destruct (keeps_logging P _ _ _ _ _ H2) as [_ [[? ->]|[? ->]]]; discriminate].
  destruct (keeps_logging P _ _ _ _ _ H2) as [R2 _].
  assert (R12 : ran P 1 w w2) by (eapply ran_trans_0; eassumption).
  destruct (Z.geb_spec (attempts + 1) max) as [Hge|Hlt].
  - (* the budget is exhausted *)
    assert (Hone : remaining = 1%nat) by (subst remaining; lia).
    destruct (Z.eqb_spec version 1) as [Hv|Hv].
    + bind_split H u' w3 H3.
      * injection H as <- <-. destruct (keeps_logging P _ _ _ _ _ H3) as [R3 _].
        exists 1%nat. split; [eapply ran_trans_0; eassumption|]. split; [lia|exact I].
      * destruct (keeps_logging P _ _ _ _ _ H3) as [_ [[? ->]|[? ->]]]; discriminate.
    + bind_split H u' w3 H3;
        [|destruct (keeps_logging P _ _ _ _ _ H3) as [_ [[? ->]|[? ->]]]; discriminate].
      destruct (keeps_logging P _ _ _ _ _ H3) as [R3 _].
      assert (R13 : ran P 1 w w3) by (eapply ran_trans_0; eassumption).
      unfold mbind, M_bind, open_read in H.
      destruct (files w3 !! sim_file (version - 1)) as [text|] eqn:E;
        injection H as <- <-; exists 1%nat; (split; [exact R13|split; [lia|]]).
      * repeat split; try assumption; try lia. eauto.
      * intros; contradiction.
  - (* a fix is requested *)
    bind_split H code' w3 H3.
    2: { destruct (keeps_fix_simulation str_format P _ _ P_audit _ _ _ H3)
           as [R3 [[? ->]|[e ->]]]; [discriminate|].
         injection Hr as <-. exists 1%nat.
         split; [eapply ran_trans_0; eassumption|]. subst remaining. split; lia. }
    destruct (keeps_fix_simulation str_format P _ _ P_audit _ _ _ H3) as [R3 _].
    bind_split H saved w4 H4.
    2: { destruct (keeps_save_code_to_file P _ _ P_sim _ _ _ H4)
           as [R4 [[? ->]|[e ->]]]; [discriminate|].
         injection Hr as <-. exists 1%nat.
         split; [eapply ran_trans_0; [eapply ran_trans_0|]; eassumption|].
         subst remaining. split; lia. }
    destruct (keeps_save_code_to_file P _ _ P_sim _ _ _ H4) as [R4 _].
    assert (R14 : ran P 1 w w4) by (eapply ran_trans_0; [eapply ran_trans_0|]; eassumption).
    destruct saved; cbn [negb] in H.
    + (* next attempt *)
      apply IH in H.
      * destruct H as (n & Rn & Hn & Hr).
        exists (1 + n)%nat. split; [eapply ran_trans; eassumption|].
        subst remaining.
        replace (Z.to_nat (max - (attempts + 1))) with
          (Z.to_nat (max - attempts) - 1)%nat in * by lia.
        split; [lia|].
        destruct r as [[[v c] a]|e| |]; try exact Hr.
        -- destruct Hr as (-> & ?). split; [lia|assumption].
        -- intros Hv. specialize (Hr Hv). lia.
      * subst remaining. lia.
      * intros k Hk. unfold run_fails. rewrite (ran_procs _ _ _ _ R14).
        apply Hfail. subst remaining. lia.
    + bind_split H u' w5 H5.
      * injection H as <- <-. destruct (keeps_logging P _ _ _ _ _ H5) as [R5 _].
        exists 1%nat. split; [eapply ran_trans_0; eassumption|].
        subst remaining. split; [lia|exact I].
      * destruct (keeps_logging P _ _ _ _ _ H5) as [_ [[? ->]|[? ->]]]; discriminate.
Qed.

End FixLoop.

(** ** Paths that differ *)

Ltac spell H :=
  unfold audit_path, version_history_log, feature_history_log, path_join,
    logs_dir, sim_file, test_file in H;
  repeat (rewrite append_cons in H || rewrite append_nil in H).

Lemma audit_not_history (prefix path : string) (c : ascii) (rest : string) :
  prefix = String c rest -> c <> "v"%char ->
  audit_path prefix path -> path <> version_history_log.
Proof.
  intros -> Hc (kind & timestamp & ->) H. spell H.
  injection H as H _. congruence.
Qed.

Lemma audit_not_sim (prefix path : string) (v : Z) :
  audit_path prefix path -> path <> sim_file v.
Proof. intros (kind & timestamp & ->) H. spell H. discriminate. Qed.

Lemma sim_not_history (v : Z) : sim_file v <> version_history_log.
Proof. intros H. spell H. discriminate. Qed.

(** ** The first version *)

Section FirstVersion.

Variable str_format : string -> list (string * option string) -> exn + string.

Lemma not_history_sim (v : Z) : not_history (sim_file v).
Proof. apply sim_not_history. Qed.

Lemma not_history_audit_fix (path : string) : audit_path "fix_simulation" path -> not_history path.
Proof. now apply (audit_not_history _ _ "f" "ix_simulation"). Qed.

Lemma not_history_audit_initial (path : string) : audit_path "initial" path -> not_history path.
Proof. now apply (audit_not_history _ _ "i" "nitial"). Qed.

Lemma generate_initial_ran (P : string -> Prop) (w w' : world)
    (r : outcome (option string)) :
  (forall path, audit_path "initial" path -> P path) ->
  generate_initial w = (r, w') ->
  ran P 0 w w' /\ r <> OutOfFuel.
Proof.
  intros HP H. unfold generate_initial in H.
  bind_split H pr w1 H1.
  2: { destruct (keeps_load_prompt P _ _ _ _ H1) as [R1 [[? ->]|[? ->]]];
       [discriminate|]. injection Hr as <-. now split. }
  destruct (keeps_load_prompt P _ _ _ _ H1) as [R1 _]. destruct pr as [prompt params].
  bind_split H reply w2 H2.
  2: { destruct (keeps_call_openai_api P _ _ _ HP _ _ _ H2) as [R2 [[? ->]|[? ->]]];
       [discriminate|]. injection Hr as <-.
       split; [eapply ran_trans_0; eassumption | discriminate]. }
  destruct (keeps_call_openai_api P _ _ _ HP _ _ _ H2) as [R2 _].
  assert (R12 : ran P 0 w w2) by (eapply ran_trans_0; eassumption).
  destruct reply as [text|].
  - injection H as <- <-. now split.
  - bind_split H u w3 H3.
    + injection H as <- <-. destruct (keeps_logging P _ _ _ _ _ H3) as [R3 _].
      split; [eapply ran_trans_0; eassumption | discriminate].
    + destruct (keeps_logging P _ _ _ _ _ H3) as [_ [[? ->]|[? ->]]]; discriminate.
Qed.

Lemma accept_phase_first (fuel : nat) (code : option string) (mf : string)
    (w w' : world) (r : outcome accepted) :
  (10 <= fuel)%nat ->
  (forall k, (k < 10)%nat -> run_fails (procs w k)) ->
  accept_phase str_format fuel (Ctl 1 code mf) w = (r, w') ->
  exists n, ran not_history n w w' /\ (n <= 10)%nat /\
    match r with
    | Val _ | OutOfFuel => False
    | Raised _ => (n < 10)%nat
    | Returned => True
    end.
Proof.
  intros Hfuel Hfail H. unfold accept_phase in H. cbn [version] in H.
  change (1 =? 1) with true in H. cbv iota in H.
  change (max_sim_fix_attempts_of 1) with 10 in H.
  bind_split H code0 w1 H1.
  2: { destruct (generate_initial_ran not_history _ _ _ not_history_audit_initial H1) as [R1 N1].
       exists 0%nat. split; [exact R1|]. split; [lia|].
       destruct r0; try discriminate; injection Hr as <-; try exact I; try lia.
       now contradiction N1. }
  destruct (generate_initial_ran not_history _ _ _ not_history_audit_initial H1) as [R1 _].
  bind_split H saved w2 H2.
  2: { destruct (keeps_save_code_to_file not_history _ _ (not_history_sim 1) _ _ _ H2)
         as [R2 [[? ->]|[? ->]]]; [discriminate|]. injection Hr as <-.
       exists 0%nat. split; [eapply ran_trans_0; eassumption|]. split; lia. }
  destruct (keeps_save_code_to_file not_history _ _ (not_history_sim 1) _ _ _ H2) as [R2 _].
  assert (R12 : ran not_history 0 w w2) by (eapply ran_trans_0; eassumption).
  destruct saved; cbn [negb] in H.
  - bind_split H res w3 H3.
    + apply (sim_fix_loop_failing str_format not_history 1 10 (not_history_sim 1) not_history_audit_fix) in H3.
      * destruct H3 as (n & _ & _ & H3). destruct res as [[v c] a].
        destruct H3 as (_ & Hv & _). now contradiction Hv.
      * simpl. lia.
      * intros k Hk. unfold run_fails. rewrite (ran_procs _ _ _ _ R12).
        apply Hfail. simpl in Hk. lia.
    + apply (sim_fix_loop_failing str_format not_history 1 10 (not_history_sim 1) not_history_audit_fix) in H3.
      * destruct H3 as (n & Rn & Hn & Hr0). exists n.
        split; [eapply (ran_trans _ 0); eassumption|]. simpl in Hn. split; [lia|].
        destruct r0; try discriminate; injection Hr as <-; try exact I.
        -- simpl in Hr0. now apply Hr0.
        -- contradiction.
      * simpl. lia.
      * intros k Hk. unfold run_fails. rewrite (ran_procs _ _ _ _ R12).
        apply Hfail. simpl in Hk. lia.
  - bind_split H u w3 H3.
    + injection H as <- <-. destruct (keeps_logging not_history _ _ _ _ _ H3) as [R3 _].
      exists 0%nat. split; [eapply ran_trans_0; eassumption|]. split; [lia|exact I].
    + destruct (keeps_logging not_history _ _ _ _ _ H3) as [_ [[? ->]|[? ->]]]; discriminate.
Qed.

End FirstVersion.

(** ** Exhausting the budget *)

Section Exhaustion.

Variable str_format : string -> list (string * option string) -> exn + string.

(** The budget is 10 for version 1 and 3 for every other version.  When
    the first ten runs of a fresh start all come back with an error
    text, [main] ends in its first round, by [return] or by an
    exception: it makes no scheduling choice, writes no line of version
    history, and spawns at most ten runs; if it spawned all ten, it
    ended by [return]. *)
Lemma exhaustion_on_error_text_halts :
  max_sim_fix_attempts_of 1 = 10 /\
  (forall version, version <> 1 -> max_sim_fix_attempts_of version = 3) /\
  forall (rounds fuel : nat) (w w' : world) (r : outcome unit),
    (10 <= fuel)%nat ->
    (forall k, (k < 10)%nat -> run_fails (procs w k)) ->
    main str_format (S rounds) fuel w = (r, w') ->
    (r = Returned \/ exists e, r = Raised e) /\
    (exists evs,
        trace w' = (trace w ++ evs)%list /\
        Forall (fun e => is_choice e = false) evs /\
        (spawns evs <= 10)%nat /\
        (spawns evs = 10%nat -> r = Returned)) /\
    files w' !! version_history_log = files w !! version_history_log.
Proof.
  split; [reflexivity|]. split.
  { intros version Hv. unfold max_sim_fix_attempts_of.
    destruct (Z.eqb_spec version 1); [contradiction | reflexivity]. }
  intros rounds fuel w w' r Hfuel Hfail H.
  unfold main in H. cbn [main_loop] in H. unfold main_body in H.
  bind_split H st w1 H1.
  - bind_split H1 a w0 H0.
    + apply accept_phase_first in H0; [|assumption..].
      destruct H0 as (n & _ & _ & []).
    + apply accept_phase_first in H0; [|assumption..].
      destruct H0 as (n & _ & _ & H0). destruct r0; try discriminate; contradiction.
  - bind_split H1 a w0 H0.
    + apply accept_phase_first in H0; [|assumption..].
      destruct H0 as (n & _ & _ & []).
    + apply accept_phase_first in H0; [|assumption..].
      destruct H0 as (n & [(evs & T & F & S) Hfiles _] & Hn & H0).
      assert (Hr' : r = Returned \/ (exists e, r = Raised e) /\ (n < 10)%nat).
      { destruct r1; try contradiction; injection Hr0 as <-; injection Hr as <-;
          eauto. }
      split; [|split].
      * destruct Hr' as [?|[? _]]; auto.
      * exists evs. repeat split; try assumption; try lia.
        intros H10. destruct Hr' as [?|[_ ?]]; [assumption | lia].
      * apply Hfiles. intros Hp. now apply Hp.
Qed.

End Exhaustion.

Example exhaustion_on_error_text_halts_crashing :
  let run := main Demo.format_names 1 10 world_crashing in
  (fst run = Returned \/ exists e, fst run = Raised e) /\
  (exists evs,
      trace (snd run) = (trace world_crashing ++ evs)%list /\
      Forall (fun e => is_choice e = false) evs /\
      (spawns evs <= 10)%nat /\
      (spawns evs = 10%nat -> fst run = Returned)) /\
  files (snd run) !! version_history_log
  = files world_crashing !! version_history_log.
Proof.
  intros run.
  apply (proj2 (proj2 (exhaustion_on_error_text_halts Demo.format_names))
           0%nat 10%nat world_crashing).
  - lia.
  - intros k _. reflexivity.
  - apply surjective_pairing.
Qed.

(** ** The sandbox runner *)

(** C4.  [run_simulation] returns [None] both when the child exits with
    status zero and when the timeout expires; for any other exit status
    it returns the captured standard error, and when the process cannot
    be launched it returns the text of the exception.  It always returns:
    nothing is raised to the caller.  On [None] the fix loop ends at once
    with the version, the code and the attempt counter as they were. *)
Theorem run_simulation_outcomes :
  (forall stdout stderr, simulation_result (Exited 0 stdout stderr) = None) /\
  simulation_result TimeoutExpired = None /\
  (forall returncode stdout stderr,
      simulation_result (Exited returncode stdout stderr)
      = if returncode =? 0 then None else Some stderr) /\
  (forall e, simulation_result (LaunchError e) = Some (exn_str e)) /\
  (forall filename w,
      fst (run_simulation filename w) = Val (simulation_result (procs w 0%nat))) /\
  (forall str_format fuel filename max version current attempts w,
      simulation_result (procs w 0%nat) = None ->
      fst (sim_fix_loop str_format (S fuel) filename max version current
             attempts w)
      = Val (version, current, attempts)).
Proof.
  repeat split; try reflexivity.
  - intros returncode stdout stderr. simpl. now destruct (returncode =? 0).
  - intros str_format fuel filename max version current attempts w Hnone.
    cbn [sim_fix_loop].
    assert (Hrun : run_simulation filename w
                   = (Val (simulation_result (procs w 0%nat)),
                      snd (run_simulation filename w))) by reflexivity.
    rewrite (bind_val _ _ _ _ _ Hrun), Hnone. reflexivity.
Qed.

(** C4 on a run that outlives its timeout. *)
Lemma run_simulation_outcomes_witness :
  fst (sim_fix_loop Demo.format_names 1 "sim0001.py" 10 1 (Some "code") 0
         world_timeout)
  = Val (1, Some "code", 0).
Proof.
  apply (proj2 (proj2 (proj2 (proj2 (proj2 run_simulation_outcomes))))).
  reflexivity.
Defined.

(** ** Requests to the completion service *)

Lemma load_prompt_reads (filename : string) (w w' : world)
    (r : outcome (string * list string)) :
  load_prompt filename w = (r, w') ->
  w' = w /\ forall w0, files w0 = files w -> load_prompt filename w0 = (r, w0).
Proof.
  unfold load_prompt, mbind, M_bind, open_read. intros H.
  destruct (files w !! path_join prompts_dir filename) as [content|] eqn:E.
  - injection H as <- <-. split; [reflexivity|]. intros w0 ->. now rewrite E.
  - injection H as <- <-. split; [reflexivity|]. intros w0 ->. now rewrite E.
Qed.

Lemma call_openai_api_total (model prompt prefix : string) (w : world) :
  exists v w' evs,
    call_openai_api model prompt prefix w = (Val v, w') /\
    trace w' = (trace w ++ ApiCall model prompt :: evs)%list.
Proof.
  set (rest := api_reply ≫= fun content =>
                 save_gpt_response prompt content prefix;; mret content).
  set (w0 := snd (emit (ApiCall model prompt) w)).
  assert (K : keeps (fun _ => True) rest).
  { unfold rest. apply keeps_bind.
    - intros w1 r w2 H. unfold api_reply in H.
      destruct (api w1 0%nat); injection H as <- <-;
        (split; [now apply ran_same | eauto]).
    - intros content. apply keeps_bind; [now apply keeps_save_gpt_response|].
      intros; apply keeps_ret. }
  assert (E : call_openai_api model prompt prefix w
              = match rest w0 with
                | (Raised e, w') =>
                    (logging ERROR ("Error calling OpenAI API: " +:+ exn_str e);;
                     mret None) w'
                | r => r
                end) by reflexivity.
  rewrite E. destruct (rest w0) as [r w1] eqn:Er.
  destruct (K _ _ _ Er) as [[(evs & T1 & _) _ _] [[a ->]|[e ->]]].
  - eexists _, _, _. split; [reflexivity|]. rewrite T1. subst w0. simpl.
    now rewrite <- app_assoc.
  - eexists _, _, _. split; [reflexivity|]. simpl. rewrite T1. subst w0. simpl.
    rewrite <- !app_assoc. reflexivity.
Qed.

Section Scheduling.

Variable str_format : string -> list (string * option string) -> exn + string.

(** C10.  A request whose call to the completion service raises is
    logged and answered with [None], and no request ever raises.  When
    that happens to the error analysis of a round that chose to analyze,
    [main] ends there with the [AttributeError] of calling [lower] on
    [None]. *)
Theorem failed_analysis_ends_the_run :
  (forall model prompt prefix w e,
      api w 0%nat = inl e ->
      exists w',
        call_openai_api model prompt prefix w = (Val None, w') /\
        trace w' = (trace w ++ [ApiCall model prompt;
                                Log ERROR ("Error calling OpenAI API: "
                                           +:+ exn_str e)])%list) /\
  (forall model prompt prefix w,
      exists v w', call_openai_api model prompt prefix w = (Val v, w')) /\
  (forall rounds fuel st w w0 w1 w1' version current template params prompt e,
      accept_phase str_format fuel st w = (Val (Proceed version current), w0) ->
      determine_next_step version current (main_feature st) w0
        = (Val "analyze", w1) ->
      load_prompt "prompt_analyze_code_for_errors.txt" w1
        = (Val (template, params), w1') ->
      str_format template [("code", current)] = inr prompt ->
      api w1 0%nat = inl e ->
      exists w2,
        main_loop str_format (S rounds) fuel st w = (Raised attribute_error, w2) /\
        trace w2 = (trace w1 ++ [ApiCall "gpt-4o-mini" prompt;
                                 Log ERROR ("Error calling OpenAI API: "
                                            +:+ exn_str e)])%list).
Proof.
  assert (Hfail : forall model prompt prefix w e,
      api w 0%nat = inl e ->
      exists w',
        call_openai_api model prompt prefix w = (Val None, w') /\
        trace w' = (trace w ++ [ApiCall model prompt;
                                Log ERROR ("Error calling OpenAI API: "
                                           +:+ exn_str e)])%list).
  { intros model prompt prefix w e He.
    unfold call_openai_api, try_except, completions_create, mbind, M_bind,
      emit, api_reply. cbn [api trace]. rewrite He.
    eexists. split; [reflexivity|]. cbn [trace]. now rewrite <- app_assoc. }
  split; [exact Hfail|]. split.
  { intros model prompt prefix w.
    destruct (call_openai_api_total model prompt prefix w) as (v & w' & _ & H & _).
    eauto. }
  intros rounds fuel st w w0 w1 w1' version current template params prompt e
    Hacc Hnext Hload Hfmt Hapi.
  destruct (load_prompt_reads _ _ _ _ Hload) as [-> _].
  destruct (Hfail "gpt-4o-mini" prompt "analyze_errors" w1 e Hapi) as (w2 & Hcall & T2).
  exists w2. split; [|exact T2].
  cbn [main_loop]. apply bind_raised. unfold main_body.
  rewrite (bind_val _ _ _ _ _ Hacc). unfold schedule_phase.
  rewrite (bind_val _ _ _ _ _ Hnext). cbn [String.eqb Ascii.eqb Bool.eqb].
  apply bind_raised. unfold analyze_branch.
  assert (Han : analyze_code_for_errors str_format current w1 = (Val None, w2)).
  { unfold analyze_code_for_errors. rewrite (bind_val _ _ _ _ _ Hload).
    unfold format. rewrite Hfmt. exact Hcall. }
  rewrite (bind_val _ _ _ _ _ Han). apply bind_raised. reflexivity.
Qed.

End Scheduling.

(** C10 on a first round whose analysis request fails. *)
Lemma failed_analysis_ends_the_run_witness :
  let e := PyExn "APIError" "connection lost" in
  let w0 := world_scheduling (inl e) in
  let w1 := snd (determine_next_step 1 (Some "code") "Initial implementation" w0) in
  exists w2,
    main_loop Demo.format_names 1 1 state_one (world_analysis (inl e))
    = (Raised attribute_error, w2) /\
    trace w2 = (trace w1 ++ [ApiCall "gpt-4o-mini" "Find errors in: code";
                             Log ERROR ("Error calling OpenAI API: "
                                        +:+ exn_str e)])%list.
Proof.
  intros e w0 w1.
  apply (proj2 (proj2 (failed_analysis_ends_the_run Demo.format_names))
           0%nat 1%nat state_one (world_analysis (inl e)) w0 w1 w1
           1 (Some "code") "Find errors in: {code}" []).
  - vm_compute. reflexivity.
  - vm_compute. reflexivity.
  - vm_compute. reflexivity.
  - reflexivity.
  - reflexivity.
Defined.

Section Analysis.

Variable str_format : string -> list (string * option string) -> exn + string.

(** C5.  In a round that chose to analyze and got an analysis text:
    when the text lowered is ["no errors"], the round ends with the
    version it started with and the code unchanged, and after the
    analysis only a log line and the pause follow, so no fix is
    requested; otherwise, the template for fixes being available, a fix
    is requested with the analysis text as the issue and the round ends
    with the version advanced by one. *)
Theorem no_errors_sentinel_reverts_increment
    (version : Z) (current : option string) (mf : string)
    (w w1 w2 : world) (text : string) :
  determine_next_step version current mf w = (Val "analyze", w1) ->
  analyze_code_for_errors str_format current w1 = (Val (Some text), w2) ->
  (lower text = "no errors" ->
   exists w3,
     schedule_phase str_format version current mf w
       = (Val (Ctl version current mf), w3) /\
     trace w3 = (trace w2 ++
                 [Log INFO ("No potential errors found in version "
                            +:+ str_int (version + 1) +:+ ".");
                  Sleep 10])%list) /\
  (lower text <> "no errors" ->
   forall template params prompt w',
     load_prompt "prompt_fix_sim.txt" w2 = (Val (template, params), w') ->
     str_format template [("issue", Some text); ("code", current)] = inr prompt ->
     exists fixed w3 evs,
       schedule_phase str_format version current mf w
         = (Val (Ctl (version + 1) fixed
                   ("Fix errors: " +:+ take 100 text +:+ "...")), w3) /\
       trace w3 = (trace w2 ++
                   [Log INFO ("Potential errors found in version "
                              +:+ str_int (version + 1) +:+ ":" +:+ nl +:+ text);
                    ApiCall "gpt-4o-mini" prompt] ++ evs ++ [Sleep 10])%list).
Proof.
  intros Hnext Han.
  assert (Hsched : forall st w3,
             analyze_branch str_format (version + 1) current mf w1 = (Val st, w3) ->
             schedule_phase str_format version current mf w
             = (Val st, snd (sleep 10 w3))).
  { intros st w3 Hab. unfold schedule_phase.
    rewrite (bind_val _ _ _ _ _ Hnext). cbn [String.eqb Ascii.eqb Bool.eqb].
    rewrite (bind_val _ _ _ _ _ Hab). reflexivity. }
  assert (Hbranch : forall r w3,
             (if negb (String.eqb (lower text) "no errors")
              then
                logging INFO ("Potential errors found in version "
                              +:+ str_int (version + 1) +:+ ":" +:+ nl +:+ text);;
                fixed ← fix_simulation str_format (Some text) current;
                mret (Ctl (version + 1) fixed
                        ("Fix errors: " +:+ take 100 text +:+ "..."))
              else
                logging INFO ("No potential errors found in version "
                              +:+ str_int (version + 1) +:+ ".");;
                mret (Ctl (version + 1 - 1) current mf)) w2 = (r, w3) ->
             analyze_branch str_format (version + 1) current mf w1 = (r, w3)).
  { intros r w3 H. unfold analyze_branch.
    rewrite (bind_val _ _ _ _ _ Han). exact H. }
  split.
  - intros Hno. eexists. split.
    + apply Hsched, Hbranch. rewrite Hno. cbn [String.eqb Ascii.eqb Bool.eqb negb].
      replace (version + 1 - 1) with version by lia. reflexivity.
    + cbn [snd sleep logging emit trace]. now rewrite <- app_assoc.
  - intros Hne template params prompt w' Hload Hfmt.
    destruct (load_prompt_reads _ _ _ _ Hload) as [-> Hany].
    set (msg := "Potential errors found in version "
                +:+ str_int (version + 1) +:+ ":" +:+ nl +:+ text).
    set (w2a := snd (logging INFO msg w2)).
    destruct (call_openai_api_total "gpt-4o-mini" prompt "fix_simulation" w2a)
      as (fixed & w3 & evs & Hcall & T3).
    assert (Hfix : fix_simulation str_format (Some text) current w2a = (Val fixed, w3)).
    { unfold fix_simulation. rewrite (bind_val _ _ _ _ _ (Hany w2a eq_refl)).
      unfold format. rewrite Hfmt. exact Hcall. }
    exists fixed, (snd (sleep 10 w3)), evs. split.
    + apply Hsched, Hbranch.
      destruct (String.eqb_spec (lower text) "no errors") as [?|_]; [contradiction|].
      cbn [negb]. fold msg.
      assert (Hlog : logging INFO msg w2 = (Val tt, w2a)) by reflexivity.
      rewrite (bind_val _ _ _ _ _ Hlog). rewrite (bind_val _ _ _ _ _ Hfix).
      reflexivity.
    + cbn [snd sleep emit trace]. rewrite T3.
      subst w2a. cbn [snd logging emit trace]. rewrite <- !app_assoc. reflexivity.
Qed.

End Analysis.

(** C5 on a first round whose analysis answers "No Errors". *)
Lemma no_errors_sentinel_reverts_increment_witness :
  let w := world_scheduling (inr (Some "No Errors")) in
  let w1 := snd (determine_next_step 1 (Some "code") "Initial implementation" w) in
  let w2 := snd (analyze_code_for_errors Demo.format_names (Some "code") w1) in
  exists w3,
    schedule_phase Demo.format_names 1 (Some "code") "Initial implementation" w
    = (Val (Ctl 1 (Some "code") "Initial implementation"), w3) /\
    trace w3 = (trace w2 ++
                [Log INFO ("No potential errors found in version "
                           +:+ str_int (1 + 1) +:+ ".");
                 Sleep 10])%list.
Proof.
  intros w w1 w2.
  apply (proj1 (no_errors_sentinel_reverts_increment Demo.format_names 1
                  (Some "code") "Initial implementation" w w1 w2 "No Errors"
                  ltac:(vm_compute; reflexivity) ltac:(vm_compute; reflexivity))).
  reflexivity.
Defined.

(** ** Evaluations on concrete runs *)

(** C1.  After the third failed run of version 3 the round rolls back to
    version 2 and ends at [continue]; the next round then saves and runs
    version 2 and generates tests for it before the scheduler makes its
    choice. *)
Theorem rollback_reenters_the_sandbox :
  fst (main_body Demo.format_names 3 state_three world_three)
  = Val (Ctl 2 (Some "v2") "New feature: wolves...") /\
  observable (trace (snd (main_body Demo.format_names 3 state_three world_three)))
  = [Spawn (RunSimulation "sim0003.py");
     ApiCall "gpt-4o-mini" "Fix Traceback: boom in: v3";
     Spawn (RunSimulation "sim0003.py");
     ApiCall "gpt-4o-mini" "Fix Traceback: boom in: fixed";
     Spawn (RunSimulation "sim0003.py")] /\
  observable (trace (snd (main_loop Demo.format_names 2 3 state_three world_three)))
  = [Spawn (RunSimulation "sim0003.py");
     ApiCall "gpt-4o-mini" "Fix Traceback: boom in: v3";
     Spawn (RunSimulation "sim0003.py");
     ApiCall "gpt-4o-mini" "Fix Traceback: boom in: fixed";
     Spawn (RunSimulation "sim0003.py");
     Spawn (RunSimulation "sim0002.py");
     ApiCall "gpt-4o" "Test v2 of sim0002.py";
     Choice true;
     ApiCall "gpt-4o-mini" "Find errors in: v2";
     ApiCall "gpt-4o-mini" "Fix fixed in: v2";
     Sleep 10].
Proof. repeat split; vm_compute; reflexivity. Qed.

(** C6.  The request for a design is made with the template as loaded:
    the chosen feature and the current code, which the formatted prompt
    would carry, are not in it; the request for the implementation, next
    to it, is made with the formatted prompt. *)
Theorem design_request_carries_the_bare_template :
  Demo.format_names "Design {feature} for: {code}"
    [("feature", Some "wolves"); ("code", Some "print(1)")]
  = inr "Design wolves for: print(1)" /\
  fst (design_feature Demo.format_names (Some "wolves") (Some "print(1)")
         world_design)
  = Val (Some "a design") /\
  observable
    (trace (snd (design_feature Demo.format_names (Some "wolves")
                   (Some "print(1)") world_design)))
  = [ApiCall "gpt-4o-mini" "Design {feature} for: {code}"] /\
  observable
    (trace (snd (implement_feature Demo.format_names (Some "a design")
                   (Some "print(1)") world_design)))
  = [ApiCall "gpt-4o-mini" "Implement a design in: print(1)"].
Proof. repeat split; vm_compute; reflexivity. Qed.

(** Whatever [str.format] does, and whatever the feature and the code
    are, the design is requested with the template itself. *)
Lemma design_request_is_the_template
    (str_format : string -> list (string * option string) -> exn + string)
    (feature current : option string) (w w0 : world)
    (template prompt : string) (params : list string) :
  load_prompt "prompt_design_feature.txt" w = (Val (template, params), w0) ->
  str_format template [("feature", feature); ("code", current)] = inr prompt ->
  exists v w' evs,
    design_feature str_format feature current w = (Val v, w') /\
    trace w' = (trace w ++ ApiCall "gpt-4o-mini" template :: evs)%list.
Proof.
  intros Hload Hfmt. destruct (load_prompt_reads _ _ _ _ Hload) as [-> _].
  destruct (call_openai_api_total "gpt-4o-mini" template "design_feature" w)
    as (v & w' & evs & Hcall & T).
  exists v, w', evs. split; [|exact T].
  unfold design_feature. rewrite (bind_val _ _ _ _ _ Hload).
  unfold format. rewrite Hfmt. exact Hcall.
Qed.

(** C9.  With [test_a] followed by [test_ab] in the file, removing
    [test_a] deletes both definitions; removing [test_a] from a file
    that only defines [test_ab] deletes [test_ab]; and a definition
    whose body contains the letters [def] is deleted only up to them. *)
Theorem removal_reaches_beyond_the_named_test :
  repaired ["test_a"] (two_tests "test_a" "test_ab") = Some "" /\
  repaired ["test_a"] (one_test "test_ab" "pass") = Some "" /\
  repaired ["test_slow"] (one_test "test_slow" "undefined = 1")
  = Some "defined = 1".
Proof. repeat split; vm_compute; reflexivity. Qed.

(** The example of the specification: the second definition stays. *)
Example removal_of_test_slow :
  repaired ["test_slow"] (two_tests "test_slow" "test_fast")
  = Some (one_test "test_fast" "pass").
Proof. vm_compute. reflexivity. Qed.

(** A name that occurs nowhere after [def ] leaves the text as it is. *)
Lemma sub_fuel_absent (fuel : nat) (test_name : string) :
  forall s,
    (forall k, Repair.match_here test_name (drop k s) = None) ->
    Repair.sub_fuel fuel test_name s = s.
Proof.
  induction fuel as [|fuel IH]; intros s H; [reflexivity|].
  cbn [Repair.sub_fuel]. rewrite (H 0%nat : Repair.match_here test_name s = None).
  destruct s as [|c s]; [reflexivity|]. f_equal. apply IH.
  intros k. exact (H (S k)).
Qed.

Lemma pattern_sub_absent (test_name content : string) :
  (forall k, Repair.match_here test_name (drop k content) = None) ->
  Repair.pattern_sub test_name content = content.
Proof. apply sub_fuel_absent. Qed.

(** The loop of [remove_problematic_tests] computes [Repair.remove_all]. *)
Lemma remove_loop_value (test_names : list string) :
  forall content w,
    fst (remove_loop test_names content w)
    = Val (Repair.remove_all test_names content).
Proof.
  induction test_names as [|test_name rest IH]; intros content w; [reflexivity|].
  cbn [remove_loop Repair.remove_all fold_left].
  set (msg := "Removed problematic test: " +:+ test_name).
  assert (Hlog : logging INFO msg w = (Val tt, snd (logging INFO msg w)))
    by reflexivity.
  rewrite (bind_val _ _ _ _ _ Hlog). apply IH.
Qed.

(** ** Walking the syntax tree *)

Lemma forest_count_app (q1 q2 : list node) :
  forest_count (q1 ++ q2) = (forest_count q1 + forest_count q2)%nat.
Proof.
  unfold forest_count. induction q1 as [|n q1 IH]; simpl; [reflexivity|].
  rewrite IH. lia.
Qed.



(** With enough fuel the walk visits every node of the queued trees,
    each once. *)
Lemma walk_queue_permutation (fuel : nat) :
  forall q, (forest_count q <= fuel)%nat ->
            Permutation (walk_queue fuel q) (flat_map preorder q).
Proof.
  induction fuel as [|fuel IH]; intros q Hq.
  - destruct q as [|[k cs] q]; [constructor|].
    unfold forest_count in Hq. simpl in Hq. lia.
  - destruct q as [|n q]; [constructor|].
    cbn [walk_queue]. destruct n as [k cs]. cbn [flat_map preorder iter_child_nodes].
    rewrite <- app_comm_cons. constructor.
    etransitivity.
    + apply IH. rewrite forest_count_app.
      change (forest_count (Node k cs :: q))
        with (S (forest_count cs) + forest_count q)%nat in Hq. lia.
    + rewrite flat_map_app. apply Permutation_app_comm.
Qed.




(** ** Test introspection and the harness *)

Section Introspection.

Variable ast_parse : string -> parse_result.
Variable search_test_class : string -> option string.

Lemma get_test_methods_value (filename : string) (w : world) :
  exists w1, get_test_methods ast_parse filename w = (Val (discovered ast_parse filename w), w1)
             /\ procs w1 = procs w /\ files w1 = files w.
Proof.
  unfold get_test_methods, discovered, try_except, mbind, M_bind, open_read.
  destruct (files w !! filename) as [content|]; [|eexists; repeat split].
  destruct (ast_parse (universal_newlines content)); eexists; repeat split.
Qed.

Lemma get_test_class_name_value (filename : string) (w : world) :
  exists v w1, get_test_class_name search_test_class filename w = (Val v, w1).
Proof.
  unfold get_test_class_name, try_except, mbind, M_bind, open_read.
  destruct (files w !! filename); eexists _, _; reflexivity.
Qed.


End Introspection.



(** The example of the specification: [test_a] then [test_b], with a
    helper between them. *)
Example extraction_of_test_a_test_b :
  fst (get_test_methods Demo.parse "sim0001_test.py"
         (test_world Demo.plain_tests_source)) = Val ["test_a"; "test_b"].
Proof. reflexivity. Qed.

Section Harness.

Variable ast_parse : string -> parse_result.
Variable search_test_class : string -> option string.

Lemma concat_not_U (sep : string) (parts : list string) :
  parts <> [] -> Forall not_U parts -> not_U (String.concat sep parts).
Proof.
  intros Hne Hall. destruct parts as [|x parts]; [contradiction|].
  inversion Hall as [|? ? (c & rest & -> & Hc) _]; subst.
  destruct parts as [|y parts]; simpl.
  - exists c, rest. now split.
  - eexists c, _. split; [|exact Hc]. apply append_cons.
Qed.

Lemma run_tests_loop_value (filename cls : string) (timeout : Z)
    (tests : list string) :
  forall failures removed w,
    Forall not_U failures ->
    exists failures' removed' w',
      run_tests_loop filename cls timeout tests failures removed w
      = (Val (failures', removed'), w') /\ Forall not_U failures'.
Proof.
  induction tests as [|t tests IH]; intros failures removed w Hall.
  - eexists _, _, _. split; [reflexivity | assumption].
  - cbn [run_tests_loop].
    set (cmd := RunUnittest _ _).
    set (w1 := snd (subprocess_run cmd w)).
    assert (Hrun : subprocess_run cmd w = (Val (procs w 0%nat), w1)) by reflexivity.
    rewrite (bind_val _ _ _ _ _ Hrun).
    destruct (procs w 0%nat) as [rc out err| |e].
    + destruct (negb (rc =? 0)).
      * apply IH. apply Forall_app. split; [assumption|].
        constructor; [|constructor]. eexists "T"%char, _. split; [|discriminate].
        rewrite !append_cons. reflexivity.
      * apply IH. assumption.
    + set (w2 := snd (logging WARNING
                        ("Test " +:+ t +:+ " timed out after " +:+ str_int timeout
                         +:+ " seconds") w1)).
      apply IH. assumption.
    + apply IH. apply Forall_app. split; [assumption|].
      constructor; [|constructor]. eexists "E"%char, _. split; [|discriminate].
      rewrite !append_cons. reflexivity.
Qed.

(** C7.  The harness answers with the "unable to parse" message exactly
    when the extraction found no test name: when the file cannot be read
    or parsed, and equally when it parses and holds no function
    definition named [test_...]. *)
Theorem unable_to_parse_iff_nothing_found (filename : string) (timeout : Z)
    (w : world) :
  fst (get_test_methods ast_parse filename w) = Val (discovered ast_parse filename w) /\
  (fst (run_unit_tests ast_parse search_test_class filename timeout w)
   = Val (Some (unable_to_parse filename))
   <-> discovered ast_parse filename w = []).
Proof.
  destruct (get_test_methods_value ast_parse filename w) as (w1 & Hget & _).
  split; [now rewrite Hget|].
  destruct (get_test_class_name_value search_test_class filename w1) as (cls & w2 & Hcls).
  unfold run_unit_tests.
  rewrite (bind_val _ _ _ _ _ Hget), (bind_val _ _ _ _ _ Hcls).
  destruct (discovered ast_parse filename w) as [|t tests] eqn:E.
  - split; reflexivity.
  - split; [|discriminate]. intros H. exfalso.
    destruct (run_tests_loop_value filename
                (if truthy cls then str_of cls else "UnitTester") timeout
                (t :: tests) [] [] w2 ltac:(constructor))
      as (failures & removed & w3 & Hloop & Hall).
    rewrite (bind_val _ _ _ _ _ Hloop) in H.
    assert (Hmsg : forall parts, parts <> [] -> Forall not_U parts ->
                     join nl parts = unable_to_parse filename -> False).
    { intros parts Hne Hparts Heq.
      destruct (concat_not_U nl parts Hne Hparts) as (c & rest & Hc & HU).
      unfold join in Heq. rewrite Hc in Heq. unfold unable_to_parse in Heq.
      rewrite !append_cons in Heq. injection Heq as Heq _. contradiction. }
    assert (Hlast : forall removed0 : list string,
               Forall not_U ["Removed tests due to timeout: "
                             +:+ join ", " removed0]).
    { intros. constructor; [|constructor]. eexists "R"%char, _.
      split; [|discriminate]. rewrite !append_cons. reflexivity. }
    destruct removed as [|rm removed].
    + destruct failures as [|f failures]; [discriminate|].
      unfold mbind, M_bind, mret, M_ret in H. cbn [fst] in H.
      match type of H with
      | Val (Some (join nl ?parts)) = _ =>
          apply (Hmsg parts); [discriminate | | congruence]
      end.
      apply Forall_app. split; [assumption | apply Hlast].
    + unfold mbind, M_bind, mret, M_ret in H.
      destruct (remove_problematic_tests filename (rm :: removed) w3)
        as [[[]|e| |] w4]; try discriminate.
      destruct failures as [|f failures]; cbn [fst] in H;
        match type of H with
        | Val (Some (join nl ?parts)) = _ =>
            apply (Hmsg parts); [discriminate | | congruence]
        end.
      * apply Hlast.
      * apply Forall_app. split; [assumption | apply Hlast].
Qed.

End Harness.

(** C7 refuted as stated: a file that parses and defines no test is
    answered with the "unable to parse" message. *)
Lemma valid_file_without_tests_is_reported_unparsable :
  Demo.parse Demo.assignment_source = Parsed Demo.assignment_tree /\
  fst (run_unit_tests Demo.parse Demo.search_class "sim0001_test.py" 10
         (test_world Demo.assignment_source))
  = Val (Some (unable_to_parse "sim0001_test.py")).
Proof. split; reflexivity. Qed.

(** C7 on a file that does not parse. *)
Lemma unable_to_parse_iff_nothing_found_witness :
  fst (run_unit_tests Demo.parse Demo.search_class "sim0001_test.py" 10
         (test_world "def broken(:"))
  = Val (Some (unable_to_parse "sim0001_test.py")).
Proof.
  apply (proj2 (proj2 (unable_to_parse_iff_nothing_found Demo.parse
                         Demo.search_class "sim0001_test.py" 10
                         (test_world "def broken(:")))).
  reflexivity.
Defined.

(** * Further properties *)

(** ** The names of the persisted files *)

Lemma uint_of_char_none (c : ascii) : uint_of_char c None = None.
Proof. destruct c as [[] [] [] [] [] [] [] []]; reflexivity. Qed.

Lemma value_of_test_suffix (x : string) : value_of (x +:+ "_test") = None.
Proof.
  unfold value_of. induction x as [|c x IH]; [reflexivity|].
  rewrite append_cons. cbn [NilEmpty.uint_of_string].
  destruct (NilEmpty.uint_of_string (x +:+ "_test")); [discriminate|].
  now rewrite uint_of_char_none.
Qed.

Lemma format_04d_value (z : Z) : 0 <= z -> value_of (format_04d z) = Some (Z.abs_N z).
Proof.
  intros Hz. unfold format_04d. destruct (Z.ltb_spec z 0); [lia|].
  apply value_of_zeros_digits.
Qed.

Lemma test_file_inj (a b : Z) : 0 <= a -> 0 <= b -> test_file a = test_file b -> a = b.
Proof.
  intros Ha Hb H. unfold test_file in H. rewrite !append_cons, !append_nil in H.
  injection H as H. apply append_cancel_r in H. now apply format_04d_inj.
Qed.

Lemma append_assoc (a b c : string) : (a +:+ b) +:+ c = a +:+ (b +:+ c).
Proof.
  induction a as [|x a IH]; [reflexivity|].
  rewrite !append_cons. now rewrite IH.
Qed.

Lemma sim_not_test (a b : Z) : 0 <= a -> sim_file a <> test_file b.
Proof.
  intros Ha H. unfold sim_file, test_file in H.
  rewrite !append_cons, !append_nil in H. injection H as H.
  change "_test.py" with ("_test" +:+ ".py") in H.
  rewrite <- append_assoc in H. apply append_cancel_r in H.
  apply (f_equal value_of) in H.
  rewrite format_04d_value, value_of_test_suffix in H by assumption.
  discriminate.
Qed.

(** X1.  Versions that differ have program files that differ and test
    files that differ; a program file is never a test file; and none of
    them is a file that [save_gpt_response] writes or the version
    history. *)
Theorem persisted_names_are_distinct (a b : Z) :
  0 <= a -> 0 <= b ->
  (sim_file a = sim_file b -> a = b) /\
  (test_file a = test_file b -> a = b) /\
  sim_file a <> test_file b /\
  (forall prefix path,
      audit_path prefix path -> path <> sim_file a /\ path <> test_file a) /\
  sim_file a <> version_history_log /\
  test_file a <> version_history_log.
Proof.
  intros Ha Hb.
  split; [now apply sim_file_inj|]. split; [now apply test_file_inj|].
  split; [now apply sim_not_test|]. split; [|split].
  - intros pre path Hp. split; [now apply (audit_not_sim pre)|].
    destruct Hp as (kind & timestamp & ->). intros H. spell H. discriminate.
  - apply sim_not_history.
  - intros H. spell H. discriminate.
Qed.

(** X1 on versions 2 and 3. *)
Lemma persisted_names_are_distinct_witness :
  (sim_file 2 = sim_file 3 -> 2 = 3) /\
  (test_file 2 = test_file 3 -> 2 = 3) /\
  sim_file 2 <> test_file 3 /\
  (forall prefix path,
      audit_path prefix path -> path <> sim_file 2 /\ path <> test_file 2) /\
  sim_file 2 <> version_history_log /\
  test_file 2 <> version_history_log.
Proof. apply (persisted_names_are_distinct 2 3); lia. Defined.

Lemma zeros_length (n : nat) : String.length (zeros n) = n.
Proof. induction n as [|n IH]; simpl; [reflexivity | now rewrite IH]. Qed.

Lemma digits_short_below_10000 :
  forallb (fun n => (String.length (digits (N.of_nat n)) <=? 4)%nat) (seq 0 (Z.to_nat 10000))
  = true.
Proof. vm_compute. reflexivity. Qed.

(** X2.  The padded number of a version that is not negative reads
    back as that version; it has at least four characters, and exactly
    four up to version 9999. *)
Theorem padded_version_reads_back (z : Z) :
  0 <= z ->
  value_of (format_04d z) = Some (Z.to_N z) /\
  (4 <= String.length (format_04d z))%nat /\
  (z <= 9999 -> String.length (format_04d z) = 4%nat).
Proof.
  intros Hz. split; [|split].
  - rewrite format_04d_value by assumption. f_equal. lia.
  - unfold format_04d. destruct (Z.ltb_spec z 0); [lia|].
    rewrite append_length, zeros_length. lia.
  - intros Hmax. unfold format_04d. destruct (Z.ltb_spec z 0); [lia|].
    rewrite append_length, zeros_length.
    assert (Hshort : (String.length (digits (Z.abs_N z)) <= 4)%nat).
    { pose proof digits_short_below_10000 as Hall.
      rewrite forallb_forall in Hall.
      specialize (Hall (Z.to_nat z)).
      replace (N.of_nat (Z.to_nat z)) with (Z.abs_N z) in Hall by lia.
      apply Nat.leb_le, Hall, in_seq. lia. }
    lia.
Qed.

(** X2 on version 42. *)
Lemma padded_version_reads_back_witness :
  value_of (format_04d 42) = Some (Z.to_N 42) /\
  (4 <= String.length (format_04d 42))%nat /\
  (42 <= 9999 -> String.length (format_04d 42) = 4%nat).
Proof. apply (padded_version_reads_back 42). lia. Defined.

(** ** Persisting code and requests *)

Lemma universal_newlines_portable (s : string) :
  portable s = true -> universal_newlines s = s.
Proof.
  induction s as [|c s IH]; [reflexivity|]. cbn [portable universal_newlines].
  intros H. apply andb_true_iff in H as [Hc Hs]. unfold portable_char in Hc.
  apply andb_true_iff in Hc as [_ Hc]. apply negb_true_iff in Hc.
  rewrite Hc. now rewrite IH.
Qed.

Lemma save_none_run (filename : string) (w : world) :
  faults w 0%nat = None ->
  exists w',
    save_code_to_file None filename w = (Val false, w') /\
    files w' = <[filename := ""]> (files w) /\
    trace w' = (trace w ++
                [Log ERROR ("Error saving code to file " +:+ filename +:+ ": "
                            +:+ "write() argument must be str, not None")])%list.
Proof.
  intros Hf. eexists.
  unfold save_code_to_file, try_except, open_write, open_fault, mbind, M_bind.
  rewrite Hf. cbn. repeat split.
Qed.

(** X3.  [save_code_to_file] never raises.  When storage works and the
    code is a text, it answers [True], the file holds the characters of
    that text and one line is logged; a text that is ASCII without
    carriage returns then reads back as it was written.  When the code
    is [None], it answers [False] and leaves the file empty; when the
    file cannot be opened, it answers [False] and leaves storage as it
    was. *)
Theorem save_code_to_file_outcomes (filename : string) (w : world) :
  (forall text,
      faults w 0%nat = None ->
      exists w',
        save_code_to_file (Some text) filename w = (Val true, w') /\
        files w' = <[filename := text]> (files w) /\
        (portable text = true -> open_read filename w' = (Val text, w')) /\
        trace w' = (trace w ++ [Log INFO ("Saved code to " +:+ filename)])%list) /\
  (faults w 0%nat = None ->
   exists w',
     save_code_to_file None filename w = (Val false, w') /\
     files w' = <[filename := ""]> (files w) /\
     trace w' = (trace w ++
                 [Log ERROR ("Error saving code to file " +:+ filename +:+ ": "
                             +:+ "write() argument must be str, not None")])%list) /\
  (forall e current,
      faults w 0%nat = Some e ->
      exists w',
        save_code_to_file current filename w = (Val false, w') /\
        files w' = files w /\
        trace w' = (trace w ++
                    [Log ERROR ("Error saving code to file " +:+ filename +:+ ": "
                                +:+ exn_str e)])%list).
Proof.
  split; [|split].
  - intros text Hf. eexists.
    unfold save_code_to_file, try_except, open_write, open_fault, mbind, M_bind.
    rewrite Hf. cbn. split; [reflexivity|]. split; [reflexivity|].
    split; [|reflexivity]. intros Hp.
    unfold open_read. cbn [files].
    rewrite lookup_insert_eq, universal_newlines_portable by assumption.
    reflexivity.
  - intros Hf. eexists.
    unfold save_code_to_file, try_except, open_write, open_fault, mbind, M_bind.
    rewrite Hf. cbn. repeat split.
  - intros e current Hf. eexists.
    unfold save_code_to_file, try_except, open_write, open_fault, mbind, M_bind.
    rewrite Hf. cbn. repeat split.
Qed.

(** X3 on a world whose storage works, for a text and for [None], and
    on one whose storage refuses the file. *)
Lemma save_code_to_file_outcomes_witness :
  (exists w',
      save_code_to_file (Some "v2") "sim0002.py" world_crashing = (Val true, w') /\
      files w' = <["sim0002.py" := "v2"]> (files world_crashing) /\
      open_read "sim0002.py" w' = (Val "v2", w') /\
      trace w' = (trace world_crashing
                  ++ [Log INFO ("Saved code to " +:+ "sim0002.py")])%list) /\
  (exists w',
      save_code_to_file None "sim0002.py" world_crashing = (Val false, w') /\
      files w' = <["sim0002.py" := ""]> (files world_crashing) /\
      trace w' = (trace world_crashing ++
                  [Log ERROR ("Error saving code to file " +:+ "sim0002.py" +:+ ": "
                              +:+ "write() argument must be str, not None")])%list) /\
  (exists w',
      save_code_to_file (Some "v2") "sim0002.py" world_full = (Val false, w') /\
      files w' = files world_full /\
      trace w' = (trace world_full ++
                  [Log ERROR ("Error saving code to file " +:+ "sim0002.py" +:+ ": "
                              +:+ exn_str (PyExn "OSError"
                                             "[Errno 28] No space left on device"))])%list).
Proof.
  split; [|split].
  - destruct (proj1 (save_code_to_file_outcomes "sim0002.py" world_crashing)
                "v2" eq_refl) as (w' & Hsave & Hfiles & Hread & Htrace).
    exists w'. split; [exact Hsave|]. split; [exact Hfiles|].
    split; [apply Hread; reflexivity | exact Htrace].
  - apply (proj1 (proj2 (save_code_to_file_outcomes "sim0002.py" world_crashing))).
    reflexivity.
  - apply (proj2 (proj2 (save_code_to_file_outcomes "sim0002.py" world_full))
             (PyExn "OSError" "[Errno 28] No space left on device") (Some "v2")).
    reflexivity.
Defined.

(** X4.  When the service answers with a text and storage works,
    [call_openai_api] returns that text and leaves the prompt and the
    answer in the two files named after the prefix and the time stamp.
    When the service answers without content, it returns [None]: the
    prompt is saved, the file for the answer is left empty and the
    failed write is logged. *)
Theorem call_openai_api_keeps_an_audit_trail
    (model prompt prefix : string) (w : world) :
  faults w 0%nat = None -> faults w 1%nat = None ->
  (forall content,
      api w 0%nat = inr (Some content) ->
      exists w',
        call_openai_api model prompt prefix w = (Val (Some content), w') /\
        files w' = <[response_log prefix (clock w 0%nat) := content]>
                     (<[prompt_log prefix (clock w 0%nat) := prompt]> (files w)) /\
        trace w' = (trace w ++
                    [ApiCall model prompt;
                     Log INFO ("Saved GPT prompt to "
                               +:+ prompt_log prefix (clock w 0%nat));
                     Log INFO ("Saved GPT response to "
                               +:+ response_log prefix (clock w 0%nat))])%list) /\
  (api w 0%nat = inr None ->
   exists w',
     call_openai_api model prompt prefix w = (Val None, w') /\
     files w' = <[response_log prefix (clock w 0%nat) := ""]>
                  (<[prompt_log prefix (clock w 0%nat) := prompt]> (files w)) /\
     trace w' = (trace w ++
                 [ApiCall model prompt;
                  Log ERROR ("Error calling OpenAI API: "
                             +:+ "write() argument must be str, not None")])%list).
Proof.
  intros Hf0 Hf1. split.
  - intros content Ha. eexists.
    unfold call_openai_api, try_except, completions_create, save_gpt_response,
      open_write, open_fault, api_reply, now_strftime, mbind, M_bind.
    cbn. rewrite Ha. cbn. rewrite Hf0. cbn. unfold tl. rewrite Hf1. cbn.
    split; [reflexivity|]. split; [reflexivity|].
    rewrite <- !app_assoc. reflexivity.
  - intros Ha. eexists.
    unfold call_openai_api, try_except, completions_create, save_gpt_response,
      open_write, open_fault, api_reply, now_strftime, mbind, M_bind.
    cbn. rewrite Ha. cbn. rewrite Hf0. cbn. unfold tl. rewrite Hf1. cbn.
    split; [reflexivity|]. split; [reflexivity|].
    rewrite <- !app_assoc. reflexivity.
Qed.

(** X4 on a service that answers with a text, and on one that answers
    without content. *)
Lemma call_openai_api_keeps_an_audit_trail_witness :
  (exists w',
      call_openai_api "gpt-4o" "Write." "initial" world_crashing
      = (Val (Some "code"), w') /\
      files w' = <[response_log "initial" (clock world_crashing 0%nat) := "code"]>
                   (<[prompt_log "initial" (clock world_crashing 0%nat) := "Write."]>
                      (files world_crashing)) /\
      trace w' = (trace world_crashing ++
                  [ApiCall "gpt-4o" "Write.";
                   Log INFO ("Saved GPT prompt to "
                             +:+ prompt_log "initial" (clock world_crashing 0%nat));
                   Log INFO ("Saved GPT response to "
                             +:+ response_log "initial"
                                   (clock world_crashing 0%nat))])%list) /\
  (exists w',
      call_openai_api "gpt-4o" "Write." "initial" (test_world "") = (Val None, w') /\
      files w' = <[response_log "initial" (clock (test_world "") 0%nat) := ""]>
                   (<[prompt_log "initial" (clock (test_world "") 0%nat) := "Write."]>
                      (files (test_world ""))) /\
      trace w' = (trace (test_world "") ++
                  [ApiCall "gpt-4o" "Write.";
                   Log ERROR ("Error calling OpenAI API: "
                              +:+ "write() argument must be str, not None")])%list).
Proof.
  split.
  - apply (proj1 (call_openai_api_keeps_an_audit_trail "gpt-4o" "Write." "initial"
                    world_crashing eq_refl eq_refl) "code").
    reflexivity.
  - apply (proj2 (call_openai_api_keeps_an_audit_trail "gpt-4o" "Write." "initial"
                    (test_world "") eq_refl eq_refl)).
    reflexivity.
Defined.

(** ** Prompt templates *)

Lemma rev_app_append (s : string) :
  forall acc, String.rev_app s acc = String.rev s +:+ acc.
Proof.
  unfold String.rev. induction s as [|c s IH]; intros acc; [reflexivity|].
  cbn [String.rev_app]. rewrite (IH (String c acc)), (IH (String c "")).
  rewrite append_assoc. reflexivity.
Qed.

Lemma rev_cons_append (c : ascii) (cur s : string) :
  String.rev (String c cur) +:+ s = String.rev cur +:+ String c s.
Proof.
  unfold String.rev at 1. cbn [String.rev_app]. rewrite rev_app_append.
  rewrite append_assoc. reflexivity.
Qed.

Lemma append_empty (s : string) : s +:+ "" = s.
Proof. induction s as [|c s IH]; [reflexivity | rewrite append_cons; now rewrite IH]. Qed.

Lemma split_aux_absent (sep : string) :
  forall s cur,
    absent sep s = true -> split_aux sep 0 cur s = [String.rev cur +:+ s].
Proof.
  induction s as [|c s IH]; intros cur H.
  - cbn [split_aux]. now rewrite append_empty.
  - cbn [absent] in H. apply andb_true_iff in H as [Hhere Hrest].
    apply negb_true_iff in Hhere. cbn [split_aux]. rewrite Hhere.
    rewrite IH by assumption. now rewrite rev_cons_append.
Qed.

Lemma split_dashless (a : string) :
  forall b cur,
    dashless a = true ->
    split_aux "---" 0 cur (a +:+ "---" +:+ b)
    = (String.rev cur +:+ a) :: split "---" b.
Proof.
  induction a as [|c a IH]; intros b cur H.
  - rewrite append_nil, append_empty.
    change ("---" +:+ b) with (String "-" ("--" +:+ b)).
    cbn [split_aux].
    assert (Hp : String.prefix "---" (String "-" ("--" +:+ b)) = true).
    { cbn. repeat (destruct (ascii_dec "-" "-") as [_|n]; [|now contradiction n]).
      now destruct b. }
    rewrite Hp. reflexivity.
  - cbn [dashless] in H. apply andb_true_iff in H as [Hc Ha].
    apply negb_true_iff in Hc. rewrite append_cons. cbn [split_aux String.prefix].
    destruct (ascii_dec "-" c) as [<-|_]; [discriminate|].
    rewrite IH by assumption. now rewrite rev_cons_append.
Qed.

Lemma split_aux_cons (sep : string) :
  forall s n cur, exists x l, split_aux sep n cur s = x :: l.
Proof.
  induction s as [|c s IH]; intros n cur; [cbn; eauto|].
  cbn [split_aux]. destruct n as [|n]; [|apply IH].
  destruct (String.prefix sep (String c s)); [eauto | apply IH].
Qed.

Lemma load_prompt_missing (filename : string) (w : world) :
  files w !! template_path filename = None ->
  load_prompt filename w
  = (Raised (PyExn "FileNotFoundError"
               (no_such_file (template_path filename))), w).
Proof.
  unfold load_prompt, template_path, mbind, M_bind, open_read. now intros ->.
Qed.

(** X5.  A template that is missing makes [load_prompt] raise
    [FileNotFoundError] and leaves the world as it was.  A template
    that reads without the separator [---] is returned exactly as read,
    not stripped, with no format parameters.  In a template whose first
    dash starts a separator, the prompt is the text before it with the
    surrounding white space stripped, and the parameters are read from
    the text up to the next separator. *)
Theorem load_prompt_outcomes (filename : string) (w : world) :
  (files w !! template_path filename = None ->
   load_prompt filename w
   = (Raised (PyExn "FileNotFoundError"
                (no_such_file (template_path filename))), w)) /\
  (forall content,
      files w !! template_path filename = Some content ->
      absent "---" (universal_newlines content) = true ->
      load_prompt filename w = (Val (universal_newlines content, []), w)) /\
  (forall content a b,
      files w !! template_path filename = Some content ->
      universal_newlines content = a +:+ "---" +:+ b ->
      dashless a = true ->
      load_prompt filename w
      = (Val (strip a, map strip (split "," (hd "" (split "---" b)))), w)).
Proof.
  unfold load_prompt, template_path, mbind, M_bind, open_read. split; [|split].
  - intros ->. reflexivity.
  - intros content -> Habs. unfold split. rewrite split_aux_absent by assumption.
    reflexivity.
  - intros content a b -> -> Ha. unfold split. rewrite split_dashless by assumption.
    unfold split.
    destruct (split_aux_cons "---" b 0 "") as (x & l & ->). reflexivity.
Qed.

(** X5 on a world without the template, on a template without a
    separator, and on one with a list of parameters. *)
Lemma load_prompt_outcomes_witness :
  let w := test_world "" in
  let w' := World (<[template_path "p.txt" := " Fix {issue} " +:+ "---" +:+ "issue, code"]>
                     (files w)) (trace w) (api w) (procs w) (faults w)
                  (coins w) (clock w) in
  load_prompt "p.txt" w
  = (Raised (PyExn "FileNotFoundError"
               (no_such_file (template_path "p.txt"))), w) /\
  load_prompt "prompt_initial.txt" world_crashing
  = (Val ("Write a simulation.", []), world_crashing) /\
  load_prompt "p.txt" w'
  = (Val (strip " Fix {issue} ",
          map strip (split "," (hd "" (split "---" "issue, code")))), w').
Proof.
  intros w w'. split; [|split].
  - apply (proj1 (load_prompt_outcomes "p.txt" w)). reflexivity.
  - exact (proj1 (proj2 (load_prompt_outcomes "prompt_initial.txt" world_crashing))
             "Write a simulation." eq_refl eq_refl).
  - apply (proj2 (proj2 (load_prompt_outcomes "p.txt" w'))
             (" Fix {issue} " +:+ "---" +:+ "issue, code")); reflexivity.
Defined.

Example load_prompt_parameters :
  (strip " Fix {issue} ", map strip (split "," (hd "" (split "---" "issue, code"))))
  = ("Fix {issue}", ["issue"; "code"]).
Proof. reflexivity. Qed.

(** ** Ways [main] ends before it has a program *)

Lemma bind_returned {A B : Type} (m : M A) (f : A -> M B) (w w1 : world) :
  m w = (Returned, w1) -> (m ≫= f) w = (Returned, w1).
Proof. unfold mbind, M_bind. now intros ->. Qed.

Section EarlyEnds.

Variable str_format : string -> list (string * option string) -> exn + string.

Lemma failed_call (model prompt prefix : string) (w : world) (e : exn) :
  api w 0%nat = inl e ->
  exists w',
    call_openai_api model prompt prefix w = (Val None, w') /\
    trace w' = (trace w ++ [ApiCall model prompt;
                            Log ERROR ("Error calling OpenAI API: "
                                       +:+ exn_str e)])%list /\
    files w' = files w /\ faults w' = faults w.
Proof.
  intros He.
  unfold call_openai_api, try_except, completions_create, mbind, M_bind,
    emit, api_reply. cbn [api trace]. rewrite He.
  eexists. split; [reflexivity|]. cbn [trace files faults].
  split; [now rewrite <- app_assoc | split; reflexivity].
Qed.

(** X6.  When the template for the initial program is missing, [main]
    ends at once with the [FileNotFoundError] of [load_prompt]: nothing
    is logged, requested, written or run. *)
Theorem missing_initial_template_ends_main (rounds fuel : nat) (w : world) :
  files w !! template_path "prompt_initial.txt" = None ->
  main str_format (S rounds) fuel w
  = (Raised (PyExn "FileNotFoundError"
               (no_such_file (template_path "prompt_initial.txt"))), w).
Proof.
  intros Hmiss. unfold main. cbn [main_loop]. apply bind_raised.
  unfold main_body. apply bind_raised. unfold accept_phase. cbn [version].
  change (1 =? 1) with true. cbv iota. apply bind_raised.
  unfold generate_initial. apply bind_raised.
  now apply load_prompt_missing.
Qed.

(** X7.  When the request for the initial program fails, [main] logs
    the failure twice, once in [call_openai_api] and once on its own,
    and returns; storage is untouched and nothing is run. *)
Theorem failed_initial_generation_ends_main (rounds fuel : nat) (w w0 : world)
    (prompt : string) (params : list string) (e : exn) :
  load_prompt "prompt_initial.txt" w = (Val (prompt, params), w0) ->
  api w 0%nat = inl e ->
  exists w',
    main str_format (S rounds) fuel w = (Returned, w') /\
    files w' = files w /\
    trace w' = (trace w ++
                [ApiCall "gpt-4o" prompt;
                 Log ERROR ("Error calling OpenAI API: " +:+ exn_str e);
                 Log ERROR "Failed to generate initial simulation code. Exiting."])%list.
Proof.
  intros Hload Hapi. destruct (load_prompt_reads _ _ _ _ Hload) as [-> _].
  destruct (failed_call "gpt-4o" prompt "initial" w e Hapi)
    as (w1 & Hcall & T1 & F1 & _).
  set (w2 := snd (logging ERROR
                    "Failed to generate initial simulation code. Exiting." w1)).
  exists w2. split; [|split].
  - unfold main. cbn [main_loop]. apply bind_returned.
    unfold main_body. apply bind_returned. unfold accept_phase. cbn [version].
    change (1 =? 1) with true. cbv iota. apply bind_returned.
    unfold generate_initial. rewrite (bind_val _ _ _ _ _ Hload).
    rewrite (bind_val _ _ _ _ _ Hcall). reflexivity.
  - subst w2. cbn [snd logging emit files]. exact F1.
  - subst w2. cbn [snd logging emit trace]. rewrite T1, <- app_assoc.
    reflexivity.
Qed.

End EarlyEnds.

(** A world without any template. *)
Lemma missing_initial_template_ends_main_witness :
  main Demo.format_names 1 10 (test_world "")
  = (Raised (PyExn "FileNotFoundError"
               (no_such_file (template_path "prompt_initial.txt"))), test_world "").
Proof.
  apply (missing_initial_template_ends_main Demo.format_names 0 10 (test_world "")).
  reflexivity.
Defined.

(** X7 on a service that is down from the start. *)
Lemma failed_initial_generation_ends_main_witness :
  let e := PyExn "APIError" "connection lost" in
  let w := Demo.world_of Demo.prompts (fun _ => inl e) (fun _ => Demo.clean)
             (fun _ => true) in
  exists w',
    main Demo.format_names 1 10 w = (Returned, w') /\
    files w' = files w /\
    trace w' = (trace w ++
                [ApiCall "gpt-4o" "Write a simulation.";
                 Log ERROR ("Error calling OpenAI API: " +:+ exn_str e);
                 Log ERROR "Failed to generate initial simulation code. Exiting."])%list.
Proof.
  intros e w.
  apply (failed_initial_generation_ends_main Demo.format_names 0 10 w w
           "Write a simulation." [] e).
  - vm_compute. reflexivity.
  - reflexivity.
Defined.

(** ** The fix loop on any run *)

Section AnyRun.

Variable str_format : string -> list (string * option string) -> exn + string.

Lemma sim_fix_loop_bounded (sim_filename : string) (max version : Z) (fuel : nat) :
  forall (attempts : Z) (current : option string) (w : world)
         (r : outcome (Z * option string * Z)) (w' : world),
    attempts < max ->
    (Z.to_nat (max - attempts) <= fuel)%nat ->
    sim_fix_loop str_format fuel sim_filename max version current attempts w
      = (r, w') ->
    exists n, ran anywhere n w w' /\ (1 <= n <= Z.to_nat (max - attempts))%nat /\
      match r with
      | Val (v, c, a) =>
          (v = version /\ a = attempts + Z.of_nat n - 1 /\ a < max) \/
          (version <> 1 /\ v = version - 1 /\ a = max /\ a = attempts + Z.of_nat n
           /\ exists text, c = Some (universal_newlines text)
                           /\ files w' !! sim_file v = Some text)
      | OutOfFuel => False
      | _ => True
      end.
Proof.
  induction fuel as [|fuel IH]; intros attempts current w r w' Hlt Hfuel H; [lia|].
  cbn [sim_fix_loop] in H.
  destruct (run_simulation_step anywhere sim_filename w) as (w1 & Hrun & R1).
  rewrite (bind_val _ _ _ _ _ Hrun) in H.
  destruct (truthy (simulation_result (procs w 0%nat))); cbn [negb] in H.
  2: { (* the run succeeded *)
       bind_split H u w2 H2;
         [|destruct (keeps_logging anywhere _ _ _ _ _ H2) as [_ [[? ->]|[? ->]]];
           discriminate].
       destruct (keeps_logging anywhere _ _ _ _ _ H2) as [R2 _].
       injection H as <- <-. exists 1%nat.
       split; [eapply ran_trans_0; eassumption|]. split; [lia|]. left. lia. }
  bind_split H u w2 H2;
    [|destruct (keeps_logging anywhere _ _ _ _ _ H2) as [_ [[? ->]|[? ->]]];
      discriminate].
  destruct (keeps_logging anywhere _ _ _ _ _ H2) as [R2 _].
  assert (R12 : ran anywhere 1 w w2) by (eapply ran_trans_0; eassumption).
  destruct (Z.geb_spec (attempts + 1) max) as [Hge|Hnext].
  - destruct (Z.eqb_spec version 1) as [Hv|Hv].
    + bind_split H u' w3 H3.
      * injection H as <- <-. destruct (keeps_logging anywhere _ _ _ _ _ H3) as [R3 _].
        exists 1%nat. split; [eapply ran_trans_0; eassumption|]. split; [lia|exact I].
      * destruct (keeps_logging anywhere _ _ _ _ _ H3) as [_ [[? ->]|[? ->]]];
          discriminate.
    + bind_split H u' w3 H3;
        [|destruct (keeps_logging anywhere _ _ _ _ _ H3) as [_ [[? ->]|[? ->]]];
          discriminate].
      destruct (keeps_logging anywhere _ _ _ _ _ H3) as [R3 _].
      assert (R13 : ran anywhere 1 w w3) by (eapply ran_trans_0; eassumption).
      unfold mbind, M_bind, open_read in H.
      destruct (files w3 !! sim_file (version - 1)) as [text|] eqn:E;
        injection H as <- <-; exists 1%nat; (split; [exact R13|split; [lia|]]).
      * right. repeat split; try assumption; try lia. eauto.
      * exact I.
  - bind_split H fixed w3 H3.
    2: { destruct (keeps_fix_simulation str_format anywhere _ _ (fun _ _ => I) _ _ _ H3)
           as [R3 [[? ->]|[e ->]]]; [discriminate|].
         injection Hr as <-. exists 1%nat.
         split; [eapply ran_trans_0; eassumption|]. split; [lia|exact I]. }
    destruct (keeps_fix_simulation str_format anywhere _ _ (fun _ _ => I) _ _ _ H3)
      as [R3 _].
    bind_split H saved w4 H4.
    2: { destruct (keeps_save_code_to_file anywhere _ _ I _ _ _ H4)
           as [R4 [[? ->]|[e ->]]]; [discriminate|].
         injection Hr as <-. exists 1%nat.
         split; [eapply ran_trans_0; [eapply ran_trans_0|]; eassumption|].
         split; [lia|exact I]. }
    destruct (keeps_save_code_to_file anywhere _ _ I _ _ _ H4) as [R4 _].
    assert (R14 : ran anywhere 1 w w4)
      by (eapply ran_trans_0; [eapply ran_trans_0|]; eassumption).
    destruct saved; cbn [negb] in H.
    + apply IH in H; [|lia|lia].
      destruct H as (n & Rn & Hn & Hr).
      exists (1 + n)%nat. split; [eapply ran_trans; eassumption|].
      split; [lia|].
      destruct r as [[[v c] a]|e| |]; try exact Hr.
      destruct Hr as [(-> & -> & Ha)|(Hv & -> & -> & Ha & Htext)];
        [left|right]; repeat split; try assumption; lia.
    + bind_split H u' w5 H5.
      * injection H as <- <-. destruct (keeps_logging anywhere _ _ _ _ _ H5) as [R5 _].
        exists 1%nat. split; [eapply ran_trans_0; eassumption|]. split; [lia|exact I].
      * destruct (keeps_logging anywhere _ _ _ _ _ H5) as [_ [[? ->]|[? ->]]];
          discriminate.
Qed.

(** X8.  Whatever the child processes, the service and storage do, the
    fix loop of a round ends: started below its budget, it runs the
    program at least once and at most as many times as the budget
    leaves.  When it ends by [break], either the last run was accepted,
    the version is unchanged and the attempt counter has counted the
    failed runs and is below the budget; or the budget is used up, the
    version is not 1 and has gone down by one, and the code is the text
    read from the file of that lower version. *)
Theorem fix_loop_stays_within_budget (fuel : nat) (sim_filename : string)
    (max version attempts : Z) (current : option string) (w w' : world)
    (r : outcome (Z * option string * Z)) :
  attempts < max ->
  (Z.to_nat (max - attempts) <= fuel)%nat ->
  sim_fix_loop str_format fuel sim_filename max version current attempts w
    = (r, w') ->
  r <> OutOfFuel /\
  exists evs,
    trace w' = (trace w ++ evs)%list /\
    (1 <= spawns evs <= Z.to_nat (max - attempts))%nat /\
    forall v c a,
      r = Val (v, c, a) ->
      (v = version /\ a = attempts + Z.of_nat (spawns evs) - 1 /\ a < max) \/
      (version <> 1 /\ v = version - 1 /\ a = max
       /\ a = attempts + Z.of_nat (spawns evs)
       /\ exists text, c = Some (universal_newlines text)
                       /\ files w' !! sim_file v = Some text).
Proof.
  intros Hlt Hfuel H.
  destruct (sim_fix_loop_bounded _ _ _ _ _ _ _ _ _ Hlt Hfuel H)
    as (n & [(evs & T & _ & S) _ _] & Hn & Hr).
  split; [intros ->; exact Hr|].
  exists evs. rewrite S. split; [assumption|]. split; [assumption|].
  intros v c a ->. exact Hr.
Qed.

End AnyRun.

(** X8 on version 3 with three crashing runs. *)
Lemma fix_loop_stays_within_budget_witness :
  let run := sim_fix_loop Demo.format_names 3 "sim0003.py" 3 3 (Some "v3") 0
               world_three in
  fst run <> OutOfFuel /\
  exists evs,
    trace (snd run) = (trace world_three ++ evs)%list /\
    (1 <= spawns evs <= Z.to_nat (3 - 0))%nat /\
    forall v c a,
      fst run = Val (v, c, a) ->
      (v = 3 /\ a = 0 + Z.of_nat (spawns evs) - 1 /\ a < 3) \/
      (3 <> 1 /\ v = 3 - 1 /\ a = 3
       /\ a = 0 + Z.of_nat (spawns evs)
       /\ exists text, c = Some (universal_newlines text)
                       /\ files (snd run) !! sim_file v = Some text).
Proof.
  intros run.
  apply (fix_loop_stays_within_budget Demo.format_names 3 "sim0003.py" 3 3 0
           (Some "v3") world_three).
  - lia.
  - simpl. lia.
  - apply surjective_pairing.
Defined.

(** ** Rounds that lose the candidate *)

Lemma spawned_app (evs1 evs2 : list event) :
  spawned (evs1 ++ evs2) = (spawned evs1 ++ spawned evs2)%list.
Proof.
  induction evs1 as [|e evs1 IH]; [reflexivity|].
  destruct e; cbn [app spawned]; rewrite IH; reflexivity.
Qed.

Section LostCandidate.

Variable str_format : string -> list (string * option string) -> exn + string.

(** X9.  A child that exits with a status other than zero and writes
    nothing to its standard error is taken for a success: the fix loop
    ends at once, logs the run as completed, and keeps the version, the
    code and the attempt counter. *)
Theorem silent_crash_is_accepted (fuel : nat) (sim_filename : string)
    (max version attempts returncode : Z) (current : option string)
    (stdout : string) (w : world) :
  procs w 0%nat = Exited returncode stdout "" ->
  returncode <> 0 ->
  simulation_result (procs w 0%nat) = Some "" /\
  exists w',
    sim_fix_loop str_format (S fuel) sim_filename max version current attempts w
    = (Val (version, current, attempts), w') /\
    trace w' = (trace w ++
                [Spawn (RunSimulation sim_filename);
                 Log INFO ("Simulation for version " +:+ str_int version
                           +:+ " completed successfully.")])%list.
Proof.
  intros Hproc Hrc. split.
  - rewrite Hproc. cbn [simulation_result].
    destruct (Z.eqb_spec returncode 0); [contradiction | reflexivity].
  - eexists. cbn [sim_fix_loop].
    unfold run_simulation, subprocess_run, proc_ends, emit, mbind, M_bind, mret, M_ret.
    cbn [procs]. rewrite Hproc. cbn [simulation_result].
    destruct (Z.eqb_spec returncode 0); [contradiction|].
    cbn [negb truthy logging emit trace]. split; [reflexivity|].
    now rewrite <- app_assoc.
Qed.

(** X10.  A round for a version other than 1 that starts without code
    (the request for a fix or for an implementation failed in the round
    before) empties the file of that version and returns from [main]
    without running anything. *)
Theorem round_without_code_returns (rounds fuel : nat) (v : Z) (mf : string)
    (w : world) :
  v <> 1 ->
  faults w 0%nat = None ->
  exists w',
    main_loop str_format (S rounds) fuel (Ctl v None mf) w = (Returned, w') /\
    files w' = <[sim_file v := ""]> (files w) /\
    trace w' = (trace w ++
                [Log ERROR ("Error saving code to file " +:+ sim_file v +:+ ": "
                            +:+ "write() argument must be str, not None");
                 Log ERROR ("Failed to save simulation code for version "
                            +:+ str_int v +:+ ". Exiting.")])%list.
Proof.
  intros Hv Hf.
  destruct (save_none_run (sim_file v) w Hf)
    as (w1 & Hsave & F1 & T1).
  set (w2 := snd (logging ERROR ("Failed to save simulation code for version "
                                 +:+ str_int v +:+ ". Exiting.") w1)).
  exists w2. split; [|split].
  - cbn [main_loop]. apply bind_returned. unfold main_body. apply bind_returned.
    unfold accept_phase. cbn [version code].
    destruct (Z.eqb_spec v 1); [contradiction|].
    assert (Hret : (mret None : M (option string)) w = (Val None, w)) by reflexivity.
    rewrite (bind_val _ _ _ _ _ Hret), (bind_val _ _ _ _ _ Hsave). reflexivity.
  - subst w2. cbn [snd logging emit files]. exact F1.
  - subst w2. cbn [snd logging emit trace]. rewrite T1, <- app_assoc. reflexivity.
Qed.

(** X11.  When a run fails below the budget and the request for a fix
    fails, the file of the candidate is emptied and [main] returns: the
    failing candidate is not kept. *)
Theorem failed_fix_request_empties_the_candidate (fuel : nat)
    (sim_filename : string) (max version attempts : Z) (current : option string)
    (w w0 : world) (template prompt : string) (params : list string) (e : exn) :
  run_fails (procs w 0%nat) ->
  attempts + 1 < max ->
  load_prompt "prompt_fix_sim.txt" w = (Val (template, params), w0) ->
  str_format template [("issue", simulation_result (procs w 0%nat));
                       ("code", current)] = inr prompt ->
  api w 0%nat = inl e ->
  faults w 0%nat = None ->
  exists w',
    sim_fix_loop str_format (S fuel) sim_filename max version current attempts w
    = (Returned, w') /\
    files w' = <[sim_filename := ""]> (files w) /\
    spawned (trace w') = (spawned (trace w) ++ [RunSimulation sim_filename])%list.
Proof.
  intros Hfail Hbudget Hload Hfmt Hapi Hfault.
  destruct (load_prompt_reads _ _ _ _ Hload) as [-> Hany].
  set (errors := simulation_result (procs w 0%nat)) in *.
  set (w1 := snd (run_simulation sim_filename w)).
  assert (Hrun : run_simulation sim_filename w = (Val errors, w1)) by reflexivity.
  set (w2 := snd (logging WARNING ("Simulation errors in version "
                                   +:+ str_int version +:+ ":" +:+ nl
                                   +:+ str_of errors) w1)).
  assert (Hlog : logging WARNING ("Simulation errors in version "
                                  +:+ str_int version +:+ ":" +:+ nl
                                  +:+ str_of errors) w1 = (Val tt, w2))
    by reflexivity.
  destruct (failed_call "gpt-4o-mini" prompt "fix_simulation" w2 e Hapi)
    as (w3 & Hcall & T3 & F3 & Q3).
  assert (Hfix : fix_simulation str_format errors current w2 = (Val None, w3)).
  { unfold fix_simulation. rewrite (bind_val _ _ _ _ _ (Hany w2 eq_refl)).
    unfold format. rewrite Hfmt. exact Hcall. }
  assert (Hf3 : faults w3 0%nat = None) by (rewrite Q3; exact Hfault).
  destruct (save_none_run sim_filename w3 Hf3)
    as (w4 & Hsave & F4 & T4).
  set (w5 := snd (logging ERROR ("Failed to save fixed simulation code for version "
                                 +:+ str_int version +:+ ". Exiting.") w4)).
  exists w5. split; [|split].
  - cbn [sim_fix_loop]. rewrite (bind_val _ _ _ _ _ Hrun).
    unfold run_fails in Hfail. fold errors in Hfail. rewrite Hfail. cbn [negb].
    rewrite (bind_val _ _ _ _ _ Hlog).
    destruct (Z.geb_spec (attempts + 1) max); [lia|].
    rewrite (bind_val _ _ _ _ _ Hfix), (bind_val _ _ _ _ _ Hsave). reflexivity.
  - subst w5. cbn [snd logging emit files]. rewrite F4, F3. reflexivity.
  - assert (T2 : trace w2 = (trace w ++ [Spawn (RunSimulation sim_filename)]
                             ++ [Log WARNING ("Simulation errors in version "
                                              +:+ str_int version +:+ ":" +:+ nl
                                              +:+ str_of errors)])%list).
    { subst w2 w1. cbn [snd logging emit trace].
      change (trace (snd (run_simulation sim_filename w)))
        with (trace w ++ [Spawn (RunSimulation sim_filename)])%list.
      now rewrite <- app_assoc. }
    subst w5. cbn [snd logging emit trace]. rewrite T4, T3, T2.
    rewrite !spawned_app. cbn [spawned app]. now rewrite !app_nil_r.
Qed.

End LostCandidate.

(** X9 on a child that prints to its standard output only and exits
    with status 1. *)
Lemma silent_crash_is_accepted_witness :
  simulation_result (procs world_silent 0%nat) = Some "" /\
  exists w',
    sim_fix_loop Demo.format_names 1 "sim0001.py" 3 1 (Some "code") 0 world_silent
    = (Val (1, Some "code", 0), w') /\
    trace w' = (trace world_silent ++
                [Spawn (RunSimulation "sim0001.py");
                 Log INFO ("Simulation for version " +:+ str_int 1
                           +:+ " completed successfully.")])%list.
Proof.
  apply (silent_crash_is_accepted Demo.format_names 0 "sim0001.py" 3 1 0 1
           (Some "code") "out" world_silent); [reflexivity | lia].
Defined.

(** X10 on a second round that starts without code. *)
Lemma round_without_code_returns_witness :
  exists w',
    main_loop Demo.format_names 1 10 (Ctl 2 None "New feature: wolves...")
      world_crashing
    = (Returned, w') /\
    files w' = <[sim_file 2 := ""]> (files world_crashing) /\
    trace w' = (trace world_crashing ++
                [Log ERROR ("Error saving code to file " +:+ sim_file 2 +:+ ": "
                            +:+ "write() argument must be str, not None");
                 Log ERROR ("Failed to save simulation code for version "
                            +:+ str_int 2 +:+ ". Exiting.")])%list.
Proof.
  apply (round_without_code_returns Demo.format_names 0 10 2
           "New feature: wolves..." world_crashing); [lia | reflexivity].
Defined.

(** X11 on a service that refuses the request for a fix. *)
Lemma failed_fix_request_empties_the_candidate_witness :
  exists w',
    sim_fix_loop Demo.format_names 1 "sim0001.py" 3 1 (Some "code") 0 world_refusing
    = (Returned, w') /\
    files w' = <["sim0001.py" := ""]> (files world_refusing) /\
    spawned (trace w')
    = (spawned (trace world_refusing) ++ [RunSimulation "sim0001.py"])%list.
Proof.
  apply (failed_fix_request_empties_the_candidate Demo.format_names 0 "sim0001.py"
           3 1 0 (Some "code") world_refusing world_refusing
           "Fix {issue} in: {code}" "Fix Traceback: boom in: code" []
           (PyExn "APIError" "Connection error."));
    [reflexivity | lia | reflexivity | reflexivity | reflexivity | reflexivity].
Defined.

(** ** What a round does to the version *)

Lemma plain_keeps {A : Type} (P : string -> Prop) (m : M A) : keeps P m -> plain m.
Proof. intros K w r w' H. exact (proj2 (K w r w' H)). Qed.

Lemma plain_bind {A B : Type} (m : M A) (f : A -> M B) :
  plain m -> (forall a, plain (f a)) -> plain (m ≫= f).
Proof.
  intros Hm Hf w r w' H.
  destruct (bind_inv _ _ _ _ _ H) as [(a & w1 & H1 & H2)|(r0 & H1 & Hr)].
  - eapply Hf; eassumption.
  - destruct (Hm _ _ _ H1) as [[a ->]|[e ->]]; [discriminate|].
    injection Hr as <-. eauto.
Qed.

Lemma plain_ret {A : Type} (a : A) : plain (mret a).
Proof. apply (plain_keeps anywhere), keeps_ret. Qed.

Lemma plain_random_choice : plain random_choice.
Proof. intros w r w' H. injection H as <- <-. eauto. Qed.

(** Splits a sequence that ended with a value: its first step gave a
    value too. *)
Ltac bind_value H a w1 H1 :=
  let r' := fresh "r" in
  let Hr' := fresh "Hr" in
  apply bind_inv in H;
  destruct H as [(a & w1 & H1 & H)|(r' & _ & Hr')];
  [|destruct r'; discriminate].

Section Versions.

Variable str_format : string -> list (string * option string) -> exn + string.

Lemma plain_determine_next_step (v : Z) (c : option string) (mf : string) :
  plain (determine_next_step v c mf).
Proof.
  unfold determine_next_step, log_version_history, log_feature_history.
  apply plain_bind; [apply (plain_keeps anywhere), keeps_open_append; exact I|].
  intros _. apply plain_bind.
  - destruct (negb _); [|apply plain_ret].
    apply (plain_keeps anywhere), keeps_open_append; exact I.
  - intros _. apply plain_bind; [apply plain_random_choice|].
    intros []; apply plain_ret.
Qed.

Lemma keeps_read_feature_history : keeps anywhere read_feature_history.
Proof. unfold read_feature_history. keeps_tac. Qed.

Lemma keeps_call_anywhere (model prompt prefix : string) :
  keeps anywhere (call_openai_api model prompt prefix).
Proof. apply keeps_call_openai_api. intros; exact I. Qed.

Lemma keeps_analyze_code_for_errors (c : option string) :
  keeps anywhere (analyze_code_for_errors str_format c).
Proof.
  unfold analyze_code_for_errors. keeps_tac;
    auto using keeps_load_prompt, keeps_format, keeps_call_anywhere.
Qed.

Lemma keeps_suggest_new_features (c : option string) :
  keeps anywhere (suggest_new_features str_format c).
Proof.
  unfold suggest_new_features. keeps_tac;
    auto using keeps_read_feature_history, keeps_load_prompt, keeps_format,
      keeps_call_anywhere.
Qed.

Lemma keeps_choose_best_feature (features c : option string) :
  keeps anywhere (choose_best_feature str_format features c).
Proof.
  unfold choose_best_feature. keeps_tac;
    auto using keeps_load_prompt, keeps_format, keeps_call_anywhere.
Qed.

Lemma keeps_design_feature (feature c : option string) :
  keeps anywhere (design_feature str_format feature c).
Proof.
  unfold design_feature. keeps_tac;
    auto using keeps_load_prompt, keeps_format, keeps_call_anywhere.
Qed.

Lemma keeps_implement_feature (design c : option string) :
  keeps anywhere (implement_feature str_format design c).
Proof.
  unfold implement_feature. keeps_tac;
    auto using keeps_load_prompt, keeps_format, keeps_call_anywhere.
Qed.

Lemma keeps_fix_anywhere (error c : option string) :
  keeps anywhere (fix_simulation str_format error c).
Proof. apply keeps_fix_simulation. intros; exact I. Qed.

Lemma plain_analyze_branch (v : Z) (c : option string) (mf : string) :
  plain (analyze_branch str_format v c mf).
Proof.
  apply (plain_keeps anywhere). unfold analyze_branch.
  keeps_tac; auto using keeps_analyze_code_for_errors, keeps_fix_anywhere.
Qed.

Lemma plain_improve_branch (v : Z) (c : option string) (mf : string) :
  plain (improve_branch str_format v c mf).
Proof.
  apply (plain_keeps anywhere). unfold improve_branch.
  keeps_tac; auto using keeps_suggest_new_features, keeps_choose_best_feature,
    keeps_design_feature, keeps_implement_feature.
Qed.

Lemma analyze_branch_version (v : Z) (c : option string) (mf : string)
    (w w' : world) (st : ctl) :
  analyze_branch str_format v c mf w = (Val st, w') ->
  version st = v \/ (version st = v - 1 /\ code st = c /\ main_feature st = mf).
Proof.
  unfold analyze_branch. intros H.
  bind_value H x1 w1 H1.
  bind_value H x2 w2 H2.
  destruct (negb _).
  - bind_value H u w3 H3.
    bind_value H x4 w4 H4.
    injection H as <- _. now left.
  - bind_value H u w3 H3.
    injection H as <- _. right. repeat split.
Qed.

Lemma improve_branch_version (v : Z) (c : option string) (mf : string)
    (w w' : world) (st : ctl) :
  improve_branch str_format v c mf w = (Val st, w') -> version st = v.
Proof.
  unfold improve_branch. intros H.
  bind_value H x1 w1 H1.
  bind_value H x2 w2 H2.
  bind_value H x3 w3 H3.
  bind_value H x4 w4 H4.
  bind_value H x5 w5 H5.
  bind_value H x6 w6 H6.
  now injection H as <- _.
Qed.

Lemma schedule_phase_version (v : Z) (c : option string) (mf : string)
    (w w' : world) (r : outcome ctl) :
  schedule_phase str_format v c mf w = (r, w') ->
  ((exists st, r = Val st) \/ (exists e, r = Raised e)) /\
  forall st, r = Val st ->
    version st = v + 1 \/ (version st = v /\ code st = c /\ main_feature st = mf).
Proof.
  intros H. split.
  - revert w r w' H. unfold schedule_phase.
    apply plain_bind; [apply plain_determine_next_step|]. intros next.
    apply plain_bind.
    + destruct (String.eqb next "analyze");
        [apply plain_analyze_branch | apply plain_improve_branch].
    + intros st. apply plain_bind; [|intros; apply plain_ret].
      apply (plain_keeps anywhere), keeps_sleep.
  - intros st ->. unfold schedule_phase in H.
    bind_value H next_step w1 H1.
    bind_value H st1 w2 H2.
    bind_value H u w3 H3.
    injection H as <- _.
    destruct (String.eqb next_step "analyze").
    + apply analyze_branch_version in H2.
      destruct H2 as [?|(? & ? & ?)]; [left | right; repeat split]; try assumption; lia.
    + apply improve_branch_version in H2. now left.
Qed.

End Versions.

Section Rounds.

Variable str_format : string -> list (string * option string) -> exn + string.

Lemma accept_phase_version (fuel : nat) (st : ctl) (w w' : world)
    (r : outcome accepted) :
  (10 <= fuel)%nat ->
  accept_phase str_format fuel st w = (r, w') ->
  r <> OutOfFuel /\
  forall a, r = Val a ->
    match a with
    | Continue v _ => v = version st - 1 /\ 1 < v
    | Proceed v _ => v = version st \/ (v = version st - 1 /\ v <= 1 /\ version st <> 1)
    end.
Proof.
  intros Hfuel H. unfold accept_phase in H.
  assert (Hmax : 0 < max_sim_fix_attempts_of (version st) <= 10).
  { unfold max_sim_fix_attempts_of. destruct (version st =? 1); lia. }
  bind_split H c0 w1 H1.
  2: { assert (r0 <> OutOfFuel).
       { destruct (version st =? 1).
         - exact (proj2 (generate_initial_ran anywhere _ _ _ (fun _ _ => I) H1)).
         - injection H1 as <- _. discriminate. }
       split; [|intros a ->; destruct r0; discriminate].
       intros ->. destruct r0; try discriminate. contradiction. }
  bind_split H saved w2 H2.
  2: { destruct (keeps_save_code_to_file anywhere _ _ I _ _ _ H2)
         as [_ [[? ->]|[? ->]]]; [discriminate|]. injection Hr as <-.
       split; [discriminate | intros; discriminate]. }
  destruct saved; cbn [negb] in H.
  2: { bind_split H u w3 H3.
       - injection H as <- _. split; [discriminate | intros; discriminate].
       - destruct (keeps_logging anywhere _ _ _ _ _ H3) as [_ [[? ->]|[? ->]]];
           discriminate. }
  bind_split H res w3 H3.
  2: { apply sim_fix_loop_bounded in H3; [|lia|lia].
       destruct H3 as (n & _ & _ & Hr0).
       destruct r0; try discriminate; injection Hr as <-; try contradiction;
         (split; [discriminate | intros; discriminate]). }
  apply sim_fix_loop_bounded in H3; [|lia|lia].
  destruct H3 as (n & _ & _ & Hr0). destruct res as [[v c] a].
  destruct (((a >=? max_sim_fix_attempts_of (version st)) && (v >? 1))%bool) eqn:Econt.
  - injection H as <- _. split; [discriminate|].
    intros ? [= <-]. apply andb_true_iff in Econt as [Ea Ev].
    destruct Hr0 as [(-> & _ & Hlt)|(_ & -> & _)]; [lia|]. lia.
  - assert (Hv : v = version st \/ (v = version st - 1 /\ v <= 1 /\ version st <> 1)).
    { destruct Hr0 as [(-> & _)|(Hne & -> & -> & _)]; [now left|right].
      apply andb_false_iff in Econt as [Ea|Ev]; lia. }
    bind_split H test_code w4 H4.
    2: { destruct (keeps_create_unit_tests str_format anywhere _ _ (fun _ _ => I)
                     _ _ _ H4) as [_ [[? ->]|[? ->]]]; [discriminate|].
         injection Hr as <-. split; [discriminate | intros; discriminate]. }
    bind_split H saved w5 H5.
    2: { destruct (keeps_save_code_to_file anywhere _ _ I _ _ _ H5)
           as [_ [[? ->]|[? ->]]]; [discriminate|]. injection Hr as <-.
         split; [discriminate | intros; discriminate]. }
    destruct saved; cbn [negb] in H.
    + injection H as <- _. split; [discriminate|]. intros ? [= <-]. exact Hv.
    + bind_split H u w6 H6.
      * injection H as <- _. split; [discriminate | intros; discriminate].
      * destruct (keeps_logging anywhere _ _ _ _ _ H6) as [_ [[? ->]|[? ->]]];
          discriminate.
Qed.

(** X12.  A round of [main] always ends, and when it hands a state to
    the next round the version in it is at least 1 and within one of
    the version the round began with. *)
Theorem round_moves_version_by_at_most_one (fuel : nat) (st : ctl)
    (w w' : world) (r : outcome ctl) :
  1 <= version st ->
  (10 <= fuel)%nat ->
  main_body str_format fuel st w = (r, w') ->
  r <> OutOfFuel /\
  forall st', r = Val st' ->
    1 <= version st' /\ version st - 1 <= version st' <= version st + 1.
Proof.
  intros Hv Hfuel H. unfold main_body in H.
  bind_split H a w1 H1.
  - destruct (accept_phase_version _ _ _ _ _ Hfuel H1) as [_ Ha].
    specialize (Ha a eq_refl). destruct a as [v c|v c].
    + injection H as <- _. split; [discriminate|]. intros ? [= <-].
      cbn [version]. lia.
    + destruct (schedule_phase_version _ _ _ _ _ _ _ H) as [Hr Hst].
      split; [destruct Hr as [[? ->]|[? ->]]; discriminate|].
      intros st' ->. specialize (Hst st' eq_refl). lia.
  - destruct (accept_phase_version _ _ _ _ _ Hfuel H1) as [Hr0 _].
    split; [|intros ? ->; destruct r0; discriminate].
    intros ->. destruct r0; try discriminate. contradiction.
Qed.

End Rounds.

(** X12 on the round that rolls back from version 3. *)
Lemma round_moves_version_by_at_most_one_witness :
  let run := main_body Demo.format_names 10 state_three world_three in
  fst run <> OutOfFuel /\
  forall st', fst run = Val st' ->
    1 <= version st' /\ version state_three - 1 <= version st'
                        <= version state_three + 1.
Proof.
  intros run.
  apply (round_moves_version_by_at_most_one Demo.format_names 10 state_three
           world_three (snd run) (fst run)).
  - simpl. lia.
  - lia.
  - apply surjective_pairing.
Defined.

(** ** The scheduler and the history *)

(** X13.  [determine_next_step] adds one line to the version history,
    and one to the feature history unless the round's feature begins
    with ["Fix errors"]; the summary it records is what follows the
    prefix ["Fix errors: "] or ["New feature: "] that the step before
    put in front.  It then answers ["analyze"] or ["improve"] as the
    random source picks. *)
Theorem determine_next_step_records_history (v : Z) (c : option string)
    (summary : string) (w : world) :
  faults w 0%nat = None ->
  (exists w',
      determine_next_step v c ("Fix errors: " +:+ summary) w
      = (Val (if coins w 0%nat then "analyze" else "improve"), w') /\
      files w'
      = <[version_history_log :=
            default "" (files w !! version_history_log)
            +:+ ("Version " +:+ str_int v +:+ ": Fix - " +:+ summary +:+ nl)]>
          (files w) /\
      trace w' = (trace w ++ [Choice (coins w 0%nat)])%list) /\
  (faults w 1%nat = None ->
   exists w',
     determine_next_step v c ("New feature: " +:+ summary) w
     = (Val (if coins w 0%nat then "analyze" else "improve"), w') /\
     files w'
     = <[feature_history_log :=
           default "" (files w !! feature_history_log)
           +:+ ("Version " +:+ str_int v +:+ ": " +:+ summary +:+ nl)]>
         (<[version_history_log :=
              default "" (files w !! version_history_log)
              +:+ ("Version " +:+ str_int v +:+ ": New feature - "
                   +:+ summary +:+ nl)]>
            (files w)) /\
     trace w' = (trace w ++ [Choice (coins w 0%nat)])%list).
Proof.
  intros Hf0. split.
  - exists (snd (determine_next_step v c ("Fix errors: " +:+ summary) w)).
    unfold determine_next_step.
    change (startswith ("Fix errors: " +:+ summary) "Fix errors") with true.
    cbv iota. change (drop 12 ("Fix errors: " +:+ summary)) with summary.
    unfold log_version_history, open_append, open_fault, update_files,
      random_choice, mbind, M_bind, mret, M_ret.
    rewrite Hf0. cbn [negb files trace coins snd].
    destruct (coins w 0%nat); (split; [reflexivity|]; split; reflexivity).
  - intros Hf1.
    exists (snd (determine_next_step v c ("New feature: " +:+ summary) w)).
    unfold determine_next_step.
    change (startswith ("New feature: " +:+ summary) "Fix errors") with false.
    cbv iota. change (drop 13 ("New feature: " +:+ summary)) with summary.
    unfold log_version_history, log_feature_history, open_append, open_fault,
      update_files, random_choice, mbind, M_bind, mret, M_ret.
    rewrite Hf0. cbn [negb files trace coins faults]. unfold tl. rewrite Hf1.
    cbn [files trace coins snd].
    assert (Hne : version_history_log <> feature_history_log) by discriminate.
    rewrite (lookup_insert_ne _ _ _ _ Hne).
    destruct (coins w 0%nat); (split; [reflexivity|]; split; reflexivity).
Qed.

(** X13 on a round that fixed an error, and on one that implemented
    wolves. *)
Lemma determine_next_step_records_history_witness :
  (exists w',
      determine_next_step 3 (Some "v3") ("Fix errors: " +:+ "off by one...")
        world_three
      = (Val (if coins world_three 0%nat then "analyze" else "improve"), w') /\
      files w'
      = <[version_history_log :=
            default "" (files world_three !! version_history_log)
            +:+ ("Version " +:+ str_int 3 +:+ ": Fix - " +:+ "off by one..." +:+ nl)]>
          (files world_three) /\
      trace w' = (trace world_three ++ [Choice (coins world_three 0%nat)])%list) /\
  (exists w',
      determine_next_step 3 (Some "v3") ("New feature: " +:+ "wolves...") world_three
      = (Val (if coins world_three 0%nat then "analyze" else "improve"), w') /\
      files w'
      = <[feature_history_log :=
            default "" (files world_three !! feature_history_log)
            +:+ ("Version " +:+ str_int 3 +:+ ": " +:+ "wolves..." +:+ nl)]>
          (<[version_history_log :=
               default "" (files world_three !! version_history_log)
               +:+ ("Version " +:+ str_int 3 +:+ ": New feature - "
                    +:+ "wolves..." +:+ nl)]>
             (files world_three)) /\
      trace w' = (trace world_three ++ [Choice (coins world_three 0%nat)])%list).
Proof.
  split.
  - apply (proj1 (determine_next_step_records_history 3 (Some "v3") "off by one..."
                    world_three eq_refl)).
  - apply (proj2 (determine_next_step_records_history 3 (Some "v3") "wolves..."
                    world_three eq_refl)).
    reflexivity.
Defined.

(** The feature of the first round is not one of the two prefixes:
    thirteen characters of it are dropped all the same. *)
Example first_history_line :
  files (snd (determine_next_step 1 (Some "code") "Initial implementation"
                (test_world ""))) !! version_history_log
  = Some ("Version 1: New feature - mentation" +:+ nl).
Proof. vm_compute. reflexivity. Qed.

Section Improve.

Variable str_format : string -> list (string * option string) -> exn + string.

(** X14.  When the request for the best feature comes back without an
    answer in a round that chose to improve, [main] ends there with the
    [TypeError] of slicing [None]: no design and no implementation is
    requested. *)
Theorem failed_choice_ends_the_run (rounds fuel : nat) (st : ctl)
    (w w0 w1 w2 w3 : world) (v : Z) (current suggestions : option string) :
  accept_phase str_format fuel st w = (Val (Proceed v current), w0) ->
  determine_next_step v current (main_feature st) w0 = (Val "improve", w1) ->
  suggest_new_features str_format current w1 = (Val suggestions, w2) ->
  choose_best_feature str_format suggestions current w2 = (Val None, w3) ->
  main_loop str_format (S rounds) fuel st w
  = (Raised (PyExn "TypeError" "'NoneType' object is not subscriptable"), w3).
Proof.
  intros Hacc Hnext Hsug Hchoose.
  cbn [main_loop]. apply bind_raised. unfold main_body.
  rewrite (bind_val _ _ _ _ _ Hacc). unfold schedule_phase.
  rewrite (bind_val _ _ _ _ _ Hnext). cbn [String.eqb Ascii.eqb Bool.eqb].
  apply bind_raised. unfold improve_branch.
  rewrite (bind_val _ _ _ _ _ Hsug), (bind_val _ _ _ _ _ Hchoose).
  apply bind_raised. reflexivity.
Qed.

End Improve.

(** X14 on a first round that chooses to improve and gets no answer to
    its request for the best feature. *)
Lemma failed_choice_ends_the_run_witness :
  let w0 := snd (accept_phase Demo.format_names 10 state_one world_improving) in
  let w1 := snd (determine_next_step 1 (Some "code") "Initial implementation" w0) in
  let w2 := snd (suggest_new_features Demo.format_names (Some "code") w1) in
  let w3 := snd (choose_best_feature Demo.format_names (Some "code") (Some "code")
                   w2) in
  main_loop Demo.format_names 1 10 state_one world_improving
  = (Raised (PyExn "TypeError" "'NoneType' object is not subscriptable"), w3).
Proof.
  intros w0 w1 w2 w3.
  apply (failed_choice_ends_the_run Demo.format_names 0 10 state_one
           world_improving w0 w1 w2 w3 1 (Some "code") (Some "code"));
    vm_compute; reflexivity.
Defined.

(** ** The harness at work *)

Lemma spawned_length (evs : list event) : length (spawned evs) = spawns evs.
Proof.
  induction evs as [|e evs IH]; [reflexivity|].
  destruct e; cbn [spawned spawns length]; now rewrite ?IH.
Qed.

Lemma spawned_none (evs : list event) : spawns evs = 0%nat -> spawned evs = [].
Proof.
  intros H. rewrite <- spawned_length in H. now destruct (spawned evs).
Qed.

Lemma keeps_remove_loop (test_names : list string) :
  forall content, keeps (fun _ => False) (remove_loop test_names content).
Proof.
  induction test_names as [|t rest IH]; intros content; cbn [remove_loop].
  - apply keeps_ret.
  - apply keeps_bind; [apply keeps_logging | intros; apply IH].
Qed.

Lemma keeps_remove_problematic_tests (filename : string) (test_names : list string) :
  keeps (fun path => path = filename)
    (remove_problematic_tests filename test_names).
Proof.
  unfold remove_problematic_tests.
  apply keeps_bind; [apply keeps_open_read|]. intros content.
  apply keeps_bind.
  - intros w r w' H. destruct (keeps_remove_loop test_names content w r w' H)
      as [[T F Q] O]. split; [|exact O]. split; [exact T| |exact Q].
    intros path _. apply F. tauto.
  - intros c. now apply keeps_open_write.
Qed.

Section HarnessRuns.

Variable ast_parse : string -> parse_result.
Variable search_test_class : string -> option string.

Lemma get_test_class_name_run (filename : string) (w : world) :
  exists v w1,
    get_test_class_name search_test_class filename w = (Val v, w1) /\
    (if truthy v then str_of v else "UnitTester")
    = test_class_of search_test_class filename w /\
    files w1 = files w /\ procs w1 = procs w /\ faults w1 = faults w /\
    exists evs, trace w1 = (trace w ++ evs)%list /\ spawned evs = [].
Proof.
  unfold get_test_class_name, test_class_of, try_except, mbind, M_bind, open_read.
  destruct (files w !! filename) as [content|];
    eexists _, _; (split; [reflexivity|]); (split; [reflexivity|]);
    (split; [reflexivity|]); (split; [reflexivity|]); (split; [reflexivity|]).
  - exists []. now rewrite app_nil_r.
  - eexists [_]. split; reflexivity.
Qed.

Lemma get_test_methods_run (filename : string) (w : world) :
  exists w1,
    get_test_methods ast_parse filename w
    = (Val (discovered ast_parse filename w), w1) /\
    files w1 = files w /\ procs w1 = procs w /\ faults w1 = faults w /\
    exists evs, trace w1 = (trace w ++ evs)%list /\ spawned evs = [].
Proof.
  unfold get_test_methods, discovered, try_except, mbind, M_bind, open_read.
  destruct (files w !! filename) as [content|].
  - destruct (ast_parse (universal_newlines content)); eexists; (split; [reflexivity|]);
      (split; [reflexivity|]); (split; [reflexivity|]); (split; [reflexivity|]);
      first [ exists []; now rewrite app_nil_r | eexists [_]; split; reflexivity ].
  - eexists. (split; [reflexivity|]); (split; [reflexivity|]);
      (split; [reflexivity|]); (split; [reflexivity|]).
    eexists [_]. split; reflexivity.
Qed.

(** The loop runs every test once, in order, whatever the results. *)
Lemma run_tests_loop_run (filename cls : string) (timeout : Z)
    (tests : list string) :
  forall failures removed w,
    exists failures' removed' w' evs,
      run_tests_loop filename cls timeout tests failures removed w
      = (Val ((failures ++ failures')%list, (removed ++ removed')%list), w') /\
      files w' = files w /\
      trace w' = (trace w ++ evs)%list /\
      spawned evs = map (unittest_command filename cls timeout) tests /\
      ((forall k, (k < length tests)%nat -> procs w k <> TimeoutExpired) ->
       removed' = []) /\
      ((forall k, (k < length tests)%nat -> ~ test_fails (procs w k)) ->
       failures' = []) /\
      ((exists k, (k < length tests)%nat /\ test_fails (procs w k)) ->
       failures' <> []).
Proof.
  induction tests as [|t tests IH]; intros failures removed w.
  - exists [], [], w, []. rewrite !app_nil_r. repeat split; try reflexivity.
    intros (k & Hk & _). simpl in Hk. lia.
  - cbn [run_tests_loop].
    set (w1 := snd (subprocess_run (unittest_command filename cls timeout t) w)).
    assert (Hrun : subprocess_run (unittest_command filename cls timeout t) w
                   = (Val (procs w 0%nat), w1)) by reflexivity.
    unfold unittest_command in Hrun at 1. rewrite (bind_val _ _ _ _ _ Hrun).
    assert (Hshift : forall k, procs w1 k = procs w (S k)) by reflexivity.
    assert (T1 : trace w1
                 = (trace w ++ [Spawn (unittest_command filename cls timeout t)])%list)
      by reflexivity.
    assert (F1 : files w1 = files w) by reflexivity.
    clearbody w1.
    destruct (procs w 0%nat) as [rc out err| |e] eqn:E0.
    + destruct (Z.eqb_spec rc 0) as [Hrc|Hrc]; cbn [negb].
      * destruct (IH failures removed w1)
          as (f' & rm' & w' & evs & Hloop & F & T & Sp & Hto & Hok & Hbad).
        exists f', rm', w', (Spawn (unittest_command filename cls timeout t) :: evs).
        split; [exact Hloop|]. split; [congruence|].
        split; [rewrite T, T1, <- app_assoc; reflexivity|].
        split; [cbn [spawned map]; now rewrite Sp|]. split; [|split].
        -- intros H. apply Hto. intros k Hk. rewrite Hshift. apply H. simpl. lia.
        -- intros H. apply Hok. intros k Hk. rewrite Hshift. apply H. simpl. lia.
        -- intros (k & Hk & Hf). apply Hbad. destruct k as [|k].
           ++ rewrite E0 in Hf. cbn in Hf. contradiction.
           ++ exists k. rewrite Hshift. simpl in Hk. split; [lia|assumption].
      * destruct (IH (failures ++ ["Test " +:+ t +:+ " failed:" +:+ nl +:+ err])%list
                    removed w1)
          as (f' & rm' & w' & evs & Hloop & F & T & Sp & Hto & Hok & Hbad).
        exists (("Test " +:+ t +:+ " failed:" +:+ nl +:+ err) :: f'), rm', w',
          (Spawn (unittest_command filename cls timeout t) :: evs).
        split; [etransitivity; [exact Hloop|]; now rewrite <- app_assoc|]. split; [congruence|].
        split; [rewrite T, T1, <- app_assoc; reflexivity|].
        split; [cbn [spawned map]; now rewrite Sp|]. split; [|split].
        -- intros H. apply Hto. intros k Hk. rewrite Hshift. apply H. simpl. lia.
        -- intros H. exfalso. apply (H 0%nat); [simpl; lia|].
           rewrite E0. exact Hrc.
        -- intros _. discriminate.
    + set (msg := "Test " +:+ t +:+ " timed out after " +:+ str_int timeout
                  +:+ " seconds").
      set (w2 := snd (logging WARNING msg w1)).
      assert (Hlog : (logging WARNING msg;;
                      mret (failures, (removed ++ [t])%list)) w1
                     = (Val (failures, (removed ++ [t])%list), w2)) by reflexivity.
      rewrite (bind_val _ _ _ _ _ Hlog).
      destruct (IH failures (removed ++ [t])%list w2)
        as (f' & rm' & w' & evs & Hloop & F & T & Sp & Hto & Hok & Hbad).
      exists f', (t :: rm'), w',
        (Spawn (unittest_command filename cls timeout t) :: Log WARNING msg :: evs).
      split; [etransitivity; [exact Hloop|]; now rewrite <- app_assoc|].
      split; [rewrite F; exact F1|].
      split; [rewrite T; subst w2; cbn [snd logging emit trace];
              rewrite T1, <- !app_assoc; reflexivity|].
      split; [cbn [spawned map]; now rewrite Sp|]. split; [|split].
      * intros H. exfalso. apply (H 0%nat); [simpl; lia | exact E0].
      * intros H. apply Hok. intros k Hk.
        change (procs w2 k) with (procs w1 k). rewrite Hshift. apply H. simpl. lia.
      * intros (k & Hk & Hf). apply Hbad. destruct k as [|k].
        -- rewrite E0 in Hf. contradiction.
        -- exists k. change (procs w2 k) with (procs w1 k). rewrite Hshift.
           simpl in Hk. split; [lia|assumption].
    + destruct (IH (failures ++ ["Error running test " +:+ t +:+ ": "
                                 +:+ exn_str e])%list removed w1)
        as (f' & rm' & w' & evs & Hloop & F & T & Sp & Hto & Hok & Hbad).
      exists (("Error running test " +:+ t +:+ ": " +:+ exn_str e) :: f'), rm', w',
        (Spawn (unittest_command filename cls timeout t) :: evs).
      split; [etransitivity; [exact Hloop|]; now rewrite <- app_assoc|]. split; [congruence|].
      split; [rewrite T, T1, <- app_assoc; reflexivity|].
      split; [cbn [spawned map]; now rewrite Sp|]. split; [|split].
      * intros H. apply Hto. intros k Hk. rewrite Hshift. apply H. simpl. lia.
      * intros H. exfalso. apply (H 0%nat); [simpl; lia|]. rewrite E0. exact I.
      * intros _. discriminate.
Qed.

(** The tests the loop sets aside are those that time out. *)
Lemma run_tests_loop_removed (filename cls : string) (timeout : Z)
    (tests : list string) :
  forall failures removed w,
    exists failures' w',
      run_tests_loop filename cls timeout tests failures removed w
      = (Val (failures', (removed ++ timed_out tests (procs w))%list), w') /\
      files w' = files w /\ faults w' = faults w.
Proof.
  induction tests as [|t tests IH]; intros failures removed w.
  - exists failures, w. cbn [timed_out]. now rewrite app_nil_r.
  - cbn [run_tests_loop timed_out].
    set (w1 := snd (subprocess_run (unittest_command filename cls timeout t) w)).
    assert (Hrun : subprocess_run (unittest_command filename cls timeout t) w
                   = (Val (procs w 0%nat), w1)) by reflexivity.
    unfold unittest_command in Hrun at 1. rewrite (bind_val _ _ _ _ _ Hrun).
    assert (Hshift : procs w1 = tl (procs w)) by reflexivity.
    assert (F1 : files w1 = files w) by reflexivity.
    assert (Q1 : faults w1 = faults w) by reflexivity.
    clearbody w1.
    destruct (procs w 0%nat) as [rc out err| |e].
    + destruct (negb (rc =? 0)).
      * destruct (IH (failures ++ ["Test " +:+ t +:+ " failed:" +:+ nl +:+ err])%list
                    removed w1) as (f' & w' & Hloop & F & Q).
        exists f', w'. rewrite <- Hshift.
        split; [exact Hloop | split; congruence].
      * destruct (IH failures removed w1) as (f' & w' & Hloop & F & Q).
        exists f', w'. rewrite <- Hshift.
        split; [exact Hloop | split; congruence].
    + set (msg := "Test " +:+ t +:+ " timed out after " +:+ str_int timeout
                  +:+ " seconds").
      set (w2 := snd (logging WARNING msg w1)).
      assert (Hlog : (logging WARNING msg;;
                      mret (failures, (removed ++ [t])%list)) w1
                     = (Val (failures, (removed ++ [t])%list), w2)) by reflexivity.
      rewrite (bind_val _ _ _ _ _ Hlog).
      destruct (IH failures (removed ++ [t])%list w2) as (f' & w' & Hloop & F & Q).
      exists f', w'. change (procs w2) with (procs w1) in Hloop.
      rewrite Hshift, <- app_assoc in Hloop.
      split; [exact Hloop|]. split; [rewrite F; exact F1 | rewrite Q; exact Q1].
    + destruct (IH (failures ++ ["Error running test " +:+ t +:+ ": "
                                 +:+ exn_str e])%list removed w1)
        as (f' & w' & Hloop & F & Q).
      exists f', w'. rewrite <- Hshift.
      split; [exact Hloop | split; congruence].
Qed.

End HarnessRuns.

Section HarnessProperties.

Variable ast_parse : string -> parse_result.
Variable search_test_class : string -> option string.

Lemma run_unit_tests_unfold (filename : string) (timeout : Z) (w : world) :
  exists w2 evs0,
    files w2 = files w /\ procs w2 = procs w /\ faults w2 = faults w /\
    trace w2 = (trace w ++ evs0)%list /\ spawned evs0 = [] /\
    run_unit_tests ast_parse search_test_class filename timeout w
    = match discovered ast_parse filename w with
      | [] => (Val (Some (unable_to_parse filename)), w2)
      | _ =>
          ('(failures, removed_tests) ←
             run_tests_loop filename (test_class_of search_test_class filename w)
               timeout (discovered ast_parse filename w) [] [];
           (match removed_tests with
            | [] => mret tt
            | _ => remove_problematic_tests filename removed_tests
            end);;
           match failures, removed_tests with
           | [], [] => mret None
           | _, _ =>
               mret (Some (join nl (failures ++ ["Removed tests due to timeout: "
                                                 +:+ join ", " removed_tests])%list))
           end) w2
      end.
Proof.
  destruct (get_test_methods_run ast_parse filename w)
    as (w1 & Hget & F1 & Q1 & A1 & evs1 & T1 & S1).
  destruct (get_test_class_name_run search_test_class filename w1)
    as (cls & w2 & Hcls & Hname & F2 & Q2 & A2 & evs2 & T2 & S2).
  exists w2, (evs1 ++ evs2)%list.
  split; [congruence|]. split; [congruence|]. split; [congruence|].
  split; [now rewrite T2, T1, app_assoc|].
  split; [now rewrite spawned_app, S1, S2|].
  unfold run_unit_tests.
  rewrite (bind_val _ _ _ _ _ Hget), (bind_val _ _ _ _ _ Hcls), Hname.
  unfold test_class_of. rewrite F1.
  destruct (discovered ast_parse filename w); reflexivity.
Qed.

(** X15.  The harness runs every discovered test exactly once, in the
    order of discovery, each with the given timeout and addressed as
    module, class and test; a test that fails or times out does not
    keep the later ones from running, and nothing else is spawned. *)
Theorem harness_runs_every_test_once (filename : string) (timeout : Z)
    (w w' : world) (r : outcome (option string)) :
  run_unit_tests ast_parse search_test_class filename timeout w = (r, w') ->
  exists evs,
    trace w' = (trace w ++ evs)%list /\
    spawned evs
    = map (unittest_command filename
             (test_class_of search_test_class filename w) timeout)
        (discovered ast_parse filename w).
Proof.
  intros H.
  destruct (run_unit_tests_unfold filename timeout w)
    as (w2 & evs0 & F2 & Q2 & A2 & T2 & S2 & Hrun).
  rewrite Hrun in H. clear Hrun.
  destruct (discovered ast_parse filename w) as [|t tests] eqn:Ed.
  - injection H as <- <-. exists evs0. now split.
  - destruct (run_tests_loop_run filename
                (test_class_of search_test_class filename w) timeout (t :: tests)
                [] [] w2)
      as (failures & removed & w3 & evs & Hloop & F3 & T3 & S3 & _).
    rewrite (bind_val _ _ _ _ _ Hloop) in H. cbn [app] in H.
    assert (Hrest : exists evs', trace w' = (trace w3 ++ evs')%list
                                 /\ spawned evs' = []).
    { destruct removed as [|rm removed].
      - destruct failures; injection H as <- <-; exists []; now rewrite app_nil_r.
      - unfold mbind, M_bind in H.
        destruct (remove_problematic_tests filename (rm :: removed) w3)
          as [r1 w4] eqn:Erm.
        destruct (keeps_remove_problematic_tests _ _ _ _ _ Erm)
          as [[(evs' & T4 & _ & S4) _ _] _].
        exists evs'. split; [|now apply spawned_none].
        destruct r1 as [[]|e| |]; try (injection H as <- <-; exact T4).
        destruct failures; injection H as <- <-; exact T4. }
    destruct Hrest as (evs' & T' & S').
    exists (evs0 ++ evs ++ evs')%list. split.
    + rewrite T', T3, T2, <- !app_assoc. reflexivity.
    + rewrite !spawned_app, S2, S3, S'. now rewrite app_nil_r.
Qed.

(** X16.  When every discovered test exits with status zero, the
    harness answers [None] and leaves storage as it was. *)
Theorem harness_is_silent_when_all_pass (filename : string) (timeout : Z)
    (w : world) :
  discovered ast_parse filename w <> [] ->
  (forall k, (k < length (discovered ast_parse filename w))%nat ->
             exists stdout stderr, procs w k = Exited 0 stdout stderr) ->
  exists w',
    run_unit_tests ast_parse search_test_class filename timeout w = (Val None, w') /\
    files w' = files w.
Proof.
  intros Hne Hpass.
  destruct (run_unit_tests_unfold filename timeout w)
    as (w2 & evs0 & F2 & Q2 & A2 & T2 & S2 & Hrun).
  rewrite Hrun. clear Hrun.
  destruct (discovered ast_parse filename w) as [|t tests] eqn:Ed; [contradiction|].
  destruct (run_tests_loop_run filename
              (test_class_of search_test_class filename w) timeout (t :: tests)
              [] [] w2)
    as (failures & removed & w3 & evs & Hloop & F3 & T3 & S3 & Hto & Hok & _).
  rewrite (bind_val _ _ _ _ _ Hloop). cbn [app].
  assert (Hr : removed = []).
  { apply Hto. intros k Hk. rewrite Q2.
    destruct (Hpass k Hk) as (out & err & ->). discriminate. }
  assert (Hf : failures = []).
  { apply Hok. intros k Hk. rewrite Q2.
    destruct (Hpass k Hk) as (out & err & ->). cbn. lia. }
  subst. exists w3. split; [reflexivity | congruence].
Qed.


End HarnessProperties.

(** X15 on a file with two tests outside any class, both crashing. *)
Lemma harness_runs_every_test_once_witness :
  let w := failing_tests_world Demo.plain_tests_source in
  let run := run_unit_tests Demo.parse Demo.search_class "sim0001_test.py" 30 w in
  exists evs,
    trace (snd run) = (trace w ++ evs)%list /\
    spawned evs
    = map (unittest_command "sim0001_test.py"
             (test_class_of Demo.search_class "sim0001_test.py" w) 30)
        (discovered Demo.parse "sim0001_test.py" w).
Proof.
  intros w run.
  apply (harness_runs_every_test_once Demo.parse Demo.search_class
           "sim0001_test.py" 30 w (snd run) (fst run)).
  apply surjective_pairing.
Defined.

(** X16 on a file with two tests whose children exit cleanly. *)
Lemma harness_is_silent_when_all_pass_witness :
  let w := test_world Demo.plain_tests_source in
  exists w',
    run_unit_tests Demo.parse Demo.search_class "sim0001_test.py" 30 w
    = (Val None, w') /\
    files w' = files w.
Proof.
  intros w.
  apply (harness_is_silent_when_all_pass Demo.parse Demo.search_class
           "sim0001_test.py" 30 w).
  - discriminate.
  - intros k _. exists "", "". reflexivity.
Defined.


(** ** Which names are extracted *)

Lemma collect_in (nodes : list node) (name : string) :
  In name (collect_test_methods nodes) <->
  startswith name "test_" = true /\
  exists n, In n nodes /\ node_kind n = FunctionDef name.
Proof.
  induction nodes as [|n nodes IH]; cbn [collect_test_methods In].
  - split; [contradiction | intros (_ & ? & [] & _)].
  - destruct (node_kind n) as [|fname|aname|cname|] eqn:Ek;
      try (rewrite IH; split;
           [intros (Hs & m & Hm & Hk); split; [exact Hs | exists m; auto]
           |intros (Hs & m & [<-|Hm] & Hk); [congruence | eauto]]).
    destruct (startswith fname "test_") eqn:Es.
    + cbn [In]. rewrite IH. split.
      * intros [<-|(Hs & m & Hm & Hk)]; [split; [exact Es | exists n; auto]|].
        split; [exact Hs | exists m; auto].
      * intros (Hs & m & [<-|Hm] & Hk); [left; congruence | right; eauto].
    + rewrite IH. split.
      * intros (Hs & m & Hm & Hk). split; [exact Hs | exists m; auto].
      * intros (Hs & m & [<-|Hm] & Hk); [|eauto].
        rewrite Ek in Hk. injection Hk as ->. congruence.
Qed.

Section Extraction.

Variable ast_parse : string -> parse_result.

(** X18.  From a file that parses, [get_test_methods] logs nothing and
    leaves the world as it was, and a name is extracted exactly when it
    begins with [test_] and is the name of a function definition
    somewhere in the tree; classes and [async def] functions of such a
    name contribute nothing. *)
Theorem extracted_names_are_the_test_functions (filename content : string)
    (tree : node) (w : world) (name : string) :
  files w !! filename = Some content ->
  ast_parse (universal_newlines content) = Parsed tree ->
  get_test_methods ast_parse filename w
  = (Val (discovered ast_parse filename w), w) /\
  (In name (discovered ast_parse filename w) <->
   startswith name "test_" = true /\
   exists n, In n (preorder tree) /\ node_kind n = FunctionDef name).
Proof.
  intros Hfile Hparse. split.
  - unfold get_test_methods, discovered, try_except, mbind, M_bind, open_read.
    now rewrite Hfile, Hparse.
  - unfold discovered. rewrite Hfile, Hparse.
    assert (Hperm : Permutation (walk tree) (preorder tree)).
    { unfold walk. rewrite <- (app_nil_r (preorder tree)).
      change (preorder tree ++ [])%list with (flat_map preorder [tree]).
      apply walk_queue_permutation. unfold forest_count. simpl. lia. }
    rewrite !collect_in. split; intros (Hs & n & Hn & Hk); (split; [exact Hs|]);
      exists n; (split; [|exact Hk]).
    + eapply Permutation_in; eassumption.
    + eapply Permutation_in; [symmetry|]; eassumption.
Qed.

(** X19.  [get_test_methods] never raises.  A file that cannot be read,
    or that [ast.parse] turns down, gives the empty list and one error
    line that says which of the failures it was; storage is untouched. *)
Theorem unreadable_test_file_gives_no_names (filename : string) (w : world) :
  (files w !! filename = None ->
   get_test_methods ast_parse filename w
   = (Val [],
      snd (logging ERROR
             ("Error parsing " +:+ filename +:+ ": " +:+ no_such_file filename)
             w))) /\
  (forall content,
      files w !! filename = Some content ->
      match ast_parse (universal_newlines content) with
      | Parsed tree =>
          get_test_methods ast_parse filename w
          = (Val (collect_test_methods (walk tree)), w)
      | IndentationError lineno =>
          get_test_methods ast_parse filename w
          = (Val [],
             snd (logging ERROR
                    ("Indentation error in " +:+ filename +:+ " at line "
                     +:+ str_int lineno) w))
      | SyntaxError lineno text =>
          get_test_methods ast_parse filename w
          = (Val [],
             snd (logging ERROR
                    ("Syntax error in " +:+ filename +:+ " at line "
                     +:+ str_int lineno +:+ ": " +:+ text) w))
      | ParseError e =>
          get_test_methods ast_parse filename w
          = (Val [],
             snd (logging ERROR
                    ("Error parsing " +:+ filename +:+ ": " +:+ exn_str e) w))
      end).
Proof.
  unfold get_test_methods, try_except, mbind, M_bind, open_read. split.
  - intros ->. reflexivity.
  - intros content ->. destruct (ast_parse (universal_newlines content)); reflexivity.
Qed.

End Extraction.

(** X18 on the test case class. *)
Lemma extracted_names_are_the_test_functions_witness :
  get_test_methods Demo.parse "sim0001_test.py" (test_world Demo.test_case_source)
  = (Val (discovered Demo.parse "sim0001_test.py"
            (test_world Demo.test_case_source)),
     test_world Demo.test_case_source) /\
  (In "test_a" (discovered Demo.parse "sim0001_test.py"
                  (test_world Demo.test_case_source)) <->
   startswith "test_a" "test_" = true /\
   exists n, In n (preorder Demo.test_case_tree) /\ node_kind n = FunctionDef "test_a").
Proof.
  apply (extracted_names_are_the_test_functions Demo.parse "sim0001_test.py"
           Demo.test_case_source Demo.test_case_tree
           (test_world Demo.test_case_source) "test_a"); reflexivity.
Defined.

(** X19 on a world without the file, and on a file that does not
    parse. *)
Lemma unreadable_test_file_gives_no_names_witness :
  get_test_methods Demo.parse "missing_test.py" (test_world "")
  = (Val [],
     snd (logging ERROR
            ("Error parsing " +:+ "missing_test.py" +:+ ": "
             +:+ no_such_file "missing_test.py")
            (test_world ""))) /\
  get_test_methods Demo.parse "sim0001_test.py" (test_world "def broken(")
  = (Val [],
     snd (logging ERROR
            ("Syntax error in " +:+ "sim0001_test.py" +:+ " at line "
             +:+ str_int 1 +:+ ": " +:+ "def broken(")
            (test_world "def broken("))).
Proof.
  split.
  - apply (proj1 (unreadable_test_file_gives_no_names Demo.parse "missing_test.py"
                    (test_world ""))).
    reflexivity.
  - exact (proj2 (unreadable_test_file_gives_no_names Demo.parse "sim0001_test.py"
                    (test_world "def broken(")) "def broken(" eq_refl).
Defined.

(** ** The test file under repair *)

Lemma drop_length (k : nat) : forall s, (String.length (drop k s) <= String.length s - k)%nat.
Proof.
  induction k as [|k IH]; intros [|c s]; cbn [drop String.length]; try lia.
  specialize (IH s). lia.
Qed.

Lemma lazy_skip_length (s : string) :
  (String.length (Repair.lazy_skip s) <= String.length s)%nat.
Proof.
  induction s as [|c s IH]; [reflexivity|]. cbn [Repair.lazy_skip].
  destruct (String.prefix "def" (String c s)); cbn [String.length]; lia.
Qed.

Lemma match_here_shorter (test_name s rest : string) :
  Repair.match_here test_name s = Some rest ->
  (String.length rest < String.length s)%nat.
Proof.
  unfold Repair.match_here. destruct (String.prefix _ s) eqn:Ep; [|discriminate].
  intros H.
  assert (Hr : rest = Repair.lazy_skip
                        (drop (String.length ("def " +:+ test_name)) s))
    by congruence.
  clear H. subst rest.
  assert (H3 : (0 < String.length s)%nat).
  { destruct s; [discriminate Ep | cbn [String.length]; lia]. }
  pose proof (lazy_skip_length
                (drop (String.length ("def " +:+ test_name)) s)) as H1.
  pose proof (drop_length (String.length ("def " +:+ test_name)) s) as H2.
  rewrite append_length in *. change (String.length "def ") with 4%nat in *. lia.
Qed.

Lemma sub_fuel_stable (test_name : string) (fuel1 : nat) :
  forall fuel2 s,
    (String.length s < fuel1)%nat -> (String.length s < fuel2)%nat ->
    Repair.sub_fuel fuel1 test_name s = Repair.sub_fuel fuel2 test_name s.
Proof.
  induction fuel1 as [|fuel1 IH]; intros fuel2 s H1 H2; [lia|].
  destruct fuel2 as [|fuel2]; [lia|]. cbn [Repair.sub_fuel].
  destruct (Repair.match_here test_name s) as [rest|] eqn:Em.
  - apply match_here_shorter in Em. apply IH; lia.
  - destruct s as [|c s]; [reflexivity|]. cbn [String.length] in *.
    f_equal. apply IH; lia.
Qed.

Lemma sub_fuel_length (test_name : string) (fuel : nat) :
  forall s, (String.length (Repair.sub_fuel fuel test_name s) <= String.length s)%nat.
Proof.
  induction fuel as [|fuel IH]; intros s; [reflexivity|]. cbn [Repair.sub_fuel].
  destruct (Repair.match_here test_name s) as [rest|] eqn:Em.
  - apply match_here_shorter in Em. specialize (IH rest). lia.
  - destruct s as [|c s]; [reflexivity|]. cbn [String.length].
    specialize (IH s). lia.
Qed.

Lemma pattern_sub_fuel (test_name content : string) (fuel : nat) :
  (String.length content < fuel)%nat ->
  Repair.sub_fuel fuel test_name content = Repair.pattern_sub test_name content.
Proof. intros Hf. apply sub_fuel_stable; [assumption | lia]. Qed.

(** X20.  Deleting the definitions of a list of tests only deletes: the
    text that is left is never longer than the text read. *)
Theorem removal_never_lengthens (test_names : list string) (content : string) :
  Forall (fun test_name => identifier test_name = true) test_names ->
  (String.length (Repair.remove_all test_names content) <= String.length content)%nat.
Proof.
  intros _. revert content. induction test_names as [|t rest IH]; intros content;
    [reflexivity|].
  cbn [Repair.remove_all fold_left].
  etransitivity; [apply IH|]. apply sub_fuel_length.
Qed.

(** X20 on a file with two tests, of which one is deleted. *)
Lemma removal_never_lengthens_witness :
  (String.length (Repair.remove_all ["test_slow"]
                    (two_tests "test_slow" "test_fast"))
   <= String.length (two_tests "test_slow" "test_fast"))%nat.
Proof.
  apply (removal_never_lengthens ["test_slow"] (two_tests "test_slow" "test_fast")).
  repeat constructor.
Defined.

Lemma absent_drop (sep : string) :
  forall s k, absent sep s = true -> String.prefix sep (drop k s) = false.
Proof.
  induction s as [|c s IH]; intros k H.
  - destruct k; cbn [drop absent] in *; now apply negb_true_iff.
  - cbn [absent] in H. apply andb_true_iff in H as [Hh Ht].
    destruct k as [|k]; cbn [drop]; [now apply negb_true_iff | now apply IH].
Qed.

Lemma remove_all_absent (test_names : list string) (content : string) :
  Forall (fun test_name => absent ("def " +:+ test_name) content = true) test_names ->
  Repair.remove_all test_names content = content.
Proof.
  induction 1 as [|t rest Ht _ IH]; [reflexivity|].
  cbn [Repair.remove_all fold_left]. rewrite pattern_sub_absent; [exact IH|].
  intros k. unfold Repair.match_here. now rewrite absent_drop.
Qed.

Lemma remove_loop_run (test_names : list string) :
  forall content w,
    exists w',
      remove_loop test_names content w
      = (Val (Repair.remove_all test_names content), w') /\
      files w' = files w /\ faults w' = faults w /\
      trace w' = (trace w ++
                  map (fun test_name =>
                         Log INFO ("Removed problematic test: " +:+ test_name))
                    test_names)%list.
Proof.
  induction test_names as [|t rest IH]; intros content w.
  - exists w. cbn. now rewrite app_nil_r.
  - cbn [remove_loop Repair.remove_all fold_left map].
    set (w1 := snd (logging INFO ("Removed problematic test: " +:+ t) w)).
    destruct (IH (Repair.pattern_sub t content) w1) as (w' & Hloop & F & Q & T).
    exists w'. split; [exact Hloop|]. split; [exact F|]. split; [exact Q|].
    rewrite T. subst w1. cbn [snd logging emit trace]. now rewrite <- app_assoc.
Qed.

Lemma remove_problematic_tests_run (test_filename content : string)
    (test_names : list string) (w : world) :
  files w !! test_filename = Some content ->
  faults w 0%nat = None ->
  exists w',
    remove_problematic_tests test_filename test_names w = (Val tt, w') /\
    files w' = <[test_filename :=
                   Repair.remove_all test_names (universal_newlines content)]>
                 (files w) /\
    trace w' = (trace w ++
                map (fun test_name =>
                       Log INFO ("Removed problematic test: " +:+ test_name))
                  test_names)%list.
Proof.
  intros Hfile Hfault.
  set (text := universal_newlines content).
  destruct (remove_loop_run test_names text w) as (w1 & Hloop & F1 & Q1 & T1).
  assert (Hread : open_read test_filename w = (Val text, w)).
  { unfold open_read. now rewrite Hfile. }
  set (w2 := snd (open_write test_filename
                    (Some (Repair.remove_all test_names text)) w1)).
  assert (Hwrite : open_write test_filename
                     (Some (Repair.remove_all test_names text)) w1
                   = (Val tt, w2) /\
                   files w2 = <[test_filename :=
                                  Repair.remove_all test_names text]> (files w) /\
                   trace w2 = trace w1).
  { subst w2. unfold open_write, open_fault, update_files, mbind, M_bind.
    rewrite Q1, Hfault. cbn [snd files trace]. now rewrite F1. }
  destruct Hwrite as (Hwrite & F2 & T2).
  exists w2. split; [|split; [exact F2 | now rewrite T2]].
  unfold remove_problematic_tests.
  rewrite (bind_val _ _ _ _ _ Hread), (bind_val _ _ _ _ _ Hloop). exact Hwrite.
Qed.

(** X21.  [remove_problematic_tests] raises [FileNotFoundError] and
    changes nothing when the file is missing.  Otherwise, storage
    working and the names being identifiers, it rewrites the file with
    the text left after the definitions are deleted, one name after the
    other, from the text read; it touches no other file, and logs one
    line for each name, found or not.  When no name occurs after [def ]
    anywhere in the text read, the text written is the text read: a
    file that is ASCII without carriage returns is left as it was. *)
Theorem remove_problematic_tests_rewrites_the_file (test_filename : string)
    (test_names : list string) (w : world) :
  (files w !! test_filename = None ->
   remove_problematic_tests test_filename test_names w
   = (Raised (PyExn "FileNotFoundError" (no_such_file test_filename)), w)) /\
  (forall content,
      files w !! test_filename = Some content ->
      faults w 0%nat = None ->
      Forall (fun test_name => identifier test_name = true) test_names ->
      exists w',
        remove_problematic_tests test_filename test_names w = (Val tt, w') /\
        files w' = <[test_filename :=
                       Repair.remove_all test_names (universal_newlines content)]>
                     (files w) /\
        trace w' = (trace w ++
                    map (fun test_name =>
                           Log INFO ("Removed problematic test: " +:+ test_name))
                      test_names)%list /\
        (Forall (fun test_name =>
                   absent ("def " +:+ test_name) (universal_newlines content) = true)
           test_names ->
         files w' = <[test_filename := universal_newlines content]> (files w) /\
         (portable content = true -> files w' = files w))).
Proof.
  split.
  - intros Hnone. unfold remove_problematic_tests, mbind, M_bind, open_read.
    now rewrite Hnone.
  - intros content Hfile Hfault _.
    destruct (remove_problematic_tests_run _ _ test_names _ Hfile Hfault)
      as (w' & Hrun & F & T).
    exists w'. split; [exact Hrun|]. split; [exact F|]. split; [exact T|].
    intros Habs. rewrite F, remove_all_absent by assumption.
    split; [reflexivity|]. intros Hp.
    rewrite universal_newlines_portable by assumption. now apply insert_id.
Qed.

(** X21 on a world without the file, and on a file that defines
    neither of two names. *)
Lemma remove_problematic_tests_rewrites_the_file_witness :
  let w := test_world (one_test "test_fast" "pass") in
  remove_problematic_tests "sim0002_test.py" ["test_slow"] w
  = (Raised (PyExn "FileNotFoundError" (no_such_file "sim0002_test.py")), w) /\
  exists w',
    remove_problematic_tests "sim0001_test.py" ["test_slow"; "test_gone"] w
    = (Val tt, w') /\
    files w' = <["sim0001_test.py" :=
                   Repair.remove_all ["test_slow"; "test_gone"]
                     (one_test "test_fast" "pass")]> (files w) /\
    trace w' = (trace w ++
                map (fun test_name =>
                       Log INFO ("Removed problematic test: " +:+ test_name))
                  ["test_slow"; "test_gone"])%list /\
    files w' = files w.
Proof.
  intros w. split.
  - apply (proj1 (remove_problematic_tests_rewrites_the_file "sim0002_test.py"
                    ["test_slow"] w)).
    reflexivity.
  - destruct (proj2 (remove_problematic_tests_rewrites_the_file "sim0001_test.py"
                       ["test_slow"; "test_gone"] w)
                (one_test "test_fast" "pass") eq_refl eq_refl
                ltac:(repeat constructor))
      as (w' & Hrun & Hfiles & Htrace & Hsame).
    exists w'. split; [exact Hrun|]. split; [exact Hfiles|].
    split; [exact Htrace|].
    apply Hsame; [repeat constructor | reflexivity].
Defined.

(** ** The import of the simulation in a test module *)

Lemma replace_aux_skip (old new : string) :
  forall a b,
    replace_aux old new (String.length a) (a +:+ b) = replace_aux old new 0 b.
Proof.
  induction a as [|c a IH]; intros b; [now rewrite append_nil|].
  rewrite append_cons. cbn [String.length replace_aux]. apply IH.
Qed.

Lemma prefix_append (old rest : string) : String.prefix old (old +:+ rest) = true.
Proof.
  induction old as [|c old IH]; [now destruct rest|].
  rewrite append_cons. cbn [String.prefix].
  destruct (ascii_dec c c) as [_|n]; [exact IH | now contradiction n].
Qed.

Lemma replace_absent (old new : string) :
  forall s, absent old s = true -> replace old new s = s.
Proof.
  unfold replace. induction s as [|c s IH]; intros H; [reflexivity|].
  cbn [absent] in H. apply andb_true_iff in H as [Hh Ht].
  apply negb_true_iff in Hh. cbn [replace_aux]. rewrite Hh. now rewrite IH.
Qed.

Lemma replace_no_start (old new : string) :
  forall a b,
    no_start old (String.length a) (a +:+ b) = true ->
    replace old new (a +:+ b) = a +:+ replace old new b.
Proof.
  unfold replace. induction a as [|c a IH]; intros b H;
    [now rewrite !append_nil|].
  rewrite append_cons in *. cbn [String.length no_start] in H.
  apply andb_true_iff in H as [Hh Ht]. apply negb_true_iff in Hh.
  cbn [replace_aux]. rewrite Hh, IH by assumption. now rewrite append_cons.
Qed.

Lemma replace_here (c : ascii) (old new rest : string) :
  replace (String c old) new (String c old +:+ rest)
  = new +:+ replace (String c old) new rest.
Proof.
  unfold replace. pose proof (prefix_append (String c old) rest) as Hp.
  rewrite append_cons in *. cbn [replace_aux]. rewrite Hp.
  cbn [String.length Nat.sub]. rewrite Nat.sub_0_r, replace_aux_skip. reflexivity.
Qed.

(** X22.  [adjust_unit_test_imports] names the module of the simulation
    file of the given version.  A text without the placeholder comes
    back as it is; the text up to the first placeholder is kept, the
    placeholder is replaced, and the rest is adjusted in the same way. *)
Theorem adjust_unit_test_imports_rewrites_each_placeholder
    (test_code : string) (version : Z) :
  sim_file version = "sim" +:+ format_04d version +:+ ".py" /\
  (absent import_marker test_code = true ->
   adjust_unit_test_imports test_code version = test_code) /\
  (forall before rest,
      test_code = before +:+ import_marker +:+ rest ->
      no_start import_marker (String.length before) test_code = true ->
      adjust_unit_test_imports test_code version
      = before +:+ ("from " +:+ "sim" +:+ format_04d version)
        +:+ adjust_unit_test_imports rest version).
Proof.
  split; [reflexivity|]. split.
  - intros H. unfold adjust_unit_test_imports. now apply replace_absent.
  - intros before rest -> H. unfold adjust_unit_test_imports.
    rewrite replace_no_start by exact H. f_equal.
    apply (replace_here "f" "rom your_module").
Qed.

(** X22 on a module with one import of the placeholder. *)
Lemma adjust_unit_test_imports_rewrites_each_placeholder_witness :
  adjust_unit_test_imports
    ("import unittest" +:+ nl +:+ import_marker +:+ " import Simulation" +:+ nl) 7
  = ("import unittest" +:+ nl) +:+ ("from " +:+ "sim" +:+ format_04d 7)
    +:+ adjust_unit_test_imports (" import Simulation" +:+ nl) 7
  /\ adjust_unit_test_imports (" import Simulation" +:+ nl) 7
     = " import Simulation" +:+ nl.
Proof.
  split.
  - apply (proj2 (proj2 (adjust_unit_test_imports_rewrites_each_placeholder
                           ("import unittest" +:+ nl +:+ import_marker
                            +:+ " import Simulation" +:+ nl) 7))
             ("import unittest" +:+ nl) (" import Simulation" +:+ nl));
      reflexivity.
  - apply (proj1 (proj2 (adjust_unit_test_imports_rewrites_each_placeholder
                           (" import Simulation" +:+ nl) 7))).
    reflexivity.
Defined.

(** ** The API key *)

Lemma rev_cons (c : ascii) (s : string) :
  String.rev (String c s) = String.rev s +:+ String c "".
Proof.
  rewrite <- (append_empty (String.rev (String c s))). apply rev_cons_append.
Qed.

Lemma rev_append (a b : string) :
  String.rev (a +:+ b) = String.rev b +:+ String.rev a.
Proof.
  induction a as [|c a IH]; [now rewrite append_nil, append_empty|].
  rewrite append_cons, !rev_cons, IH, append_assoc. reflexivity.
Qed.

Lemma lstrip_head (s : string) :
  lstrip s = "" \/ exists c r, lstrip s = String c r /\ is_space c = false.
Proof.
  induction s as [|c s IH]; [now left|]. cbn [lstrip].
  destruct (is_space c) eqn:Ec; [exact IH|]. right. now exists c, s.
Qed.

Lemma lstrip_keeps_last (c : ascii) :
  is_space c = false ->
  forall a, exists a', lstrip (a +:+ String c "") = a' +:+ String c "".
Proof.
  intros Hc. induction a as [|d a IH].
  - exists "". rewrite !append_nil. cbn [lstrip]. now rewrite Hc.
  - rewrite append_cons. cbn [lstrip]. destruct (is_space d); [exact IH|].
    exists (String d a). now rewrite append_cons.
Qed.

Lemma strip_trimmed (s : string) : trimmed (strip s).
Proof.
  unfold strip, rstrip.
  destruct (lstrip_head s) as [->|(c & r & -> & Hc)]; [now left|].
  rewrite rev_cons.
  destruct (lstrip_keeps_last c Hc (String.rev r)) as (a' & Ha).
  right. split.
  - exists c, (String.rev a'). split; [|exact Hc].
    rewrite Ha, rev_append. reflexivity.
  - destruct (lstrip_head (String.rev r +:+ String c "")) as [He|(d & q & Hq & Hd)].
    + rewrite Ha in He. destruct a'; discriminate He.
    + exists (String.rev q), d. split; [|exact Hd]. rewrite Hq. apply rev_cons.
Qed.

(** X23.  [load_api_key] answers with the text read from the key file
    without the white space around it, and leaves the world as it was;
    when the file is missing it logs one error that names the file and
    exits with status 1. *)
Theorem load_api_key_outcomes (filename : string) (w : world) :
  (forall content,
      files w !! filename = Some content ->
      load_api_key filename w = (Val (strip (universal_newlines content)), w) /\
      trimmed (strip (universal_newlines content))) /\
  (files w !! filename = None ->
   exists w',
     load_api_key filename w = (Raised (PyExn "SystemExit" "1"), w') /\
     files w' = files w /\
     trace w' = (trace w ++
                 [Log ERROR ("API key file '" +:+ filename +:+ "' not found.")])%list).
Proof.
  split.
  - intros content H. split; [|apply strip_trimmed].
    unfold load_api_key, try_except, mbind, M_bind, open_read. now rewrite H.
  - intros H. eexists.
    unfold load_api_key, try_except, mbind, M_bind, open_read. rewrite H.
    cbn. repeat split.
Qed.

(** X23 on a key file that ends with a carriage return and a line
    feed, and on a world without a key file. *)
Lemma load_api_key_outcomes_witness :
  let stored := " sk-1" +:+ String "013" nl in
  ((load_api_key "apikey.txt" (key_world stored)
    = (Val (strip (universal_newlines stored)), key_world stored)
    /\ trimmed (strip (universal_newlines stored)))
   /\ strip (universal_newlines stored) = "sk-1")
  /\ exists w',
       load_api_key "apikey.txt" (test_world "")
       = (Raised (PyExn "SystemExit" "1"), w') /\
       files w' = files (test_world "") /\
       trace w' = (trace (test_world "") ++
                   [Log ERROR ("API key file '" +:+ "apikey.txt"
                               +:+ "' not found.")])%list.
Proof.
  intros stored. split; [split; [|reflexivity]|].
  - apply (proj1 (load_api_key_outcomes "apikey.txt" (key_world stored))).
    reflexivity.
  - apply (proj2 (load_api_key_outcomes "apikey.txt" (test_world ""))).
    reflexivity.
Defined.

(** ** What [main] runs *)

Section Spawning.

Variable Q : command -> Prop.

Lemma spawns_only_keeps {A : Type} (P : string -> Prop) (m : M A) :
  keeps P m -> spawns_only Q m.
Proof.
  intros K w r w' H. destruct (K w r w' H) as [[(evs & T & _ & S) _ _] _].
  exists evs. split; [exact T|]. rewrite spawned_none by exact S. constructor.
Qed.

Lemma spawns_only_bind {A B : Type} (m : M A) (f : A -> M B) :
  spawns_only Q m -> (forall a, spawns_only Q (f a)) -> spawns_only Q (m ≫= f).
Proof.
  intros Hm Hf w r w' H.
  destruct (bind_inv _ _ _ _ _ H) as [(a & w1 & H1 & H2)|(r0 & H1 & Hr)].
  - destruct (Hm _ _ _ H1) as (evs1 & T1 & S1).
    destruct (Hf _ _ _ _ H2) as (evs2 & T2 & S2).
    exists (evs1 ++ evs2)%list. split; [now rewrite T2, T1, app_assoc|].
    rewrite spawned_app. now apply Forall_app.
  - exact (Hm _ _ _ H1).
Qed.

Lemma spawns_only_return {A : Type} : spawns_only Q (@main_return A).
Proof.
  intros w r w' H. injection H as <- <-. exists []. rewrite app_nil_r.
  split; [reflexivity | constructor].
Qed.

Lemma spawns_only_out_of_fuel {A : Type} : spawns_only Q (@out_of_fuel A).
Proof.
  intros w r w' H. injection H as <- <-. exists []. rewrite app_nil_r.
  split; [reflexivity | constructor].
Qed.

Lemma spawns_only_random_choice : spawns_only Q random_choice.
Proof.
  intros w r w' H. injection H as <- <-. exists [Choice (coins w 0%nat)].
  split; [reflexivity | constructor].
Qed.

Lemma spawns_only_run_simulation (filename : string) :
  Q (RunSimulation filename) -> spawns_only Q (run_simulation filename).
Proof.
  intros HQ w r w' H. injection H as <- <-.
  exists [Spawn (RunSimulation filename)]. split; [reflexivity|].
  cbn [spawned]. now constructor.
Qed.

End Spawning.

Ltac spawns_step :=
  lazymatch goal with
  | |- spawns_only _ (_ ≫= _) => apply spawns_only_bind; [|intros]
  | |- spawns_only _ (match ?x with _ => _ end) => destruct x
  end.

Lemma keeps_save_anywhere (c : option string) (filename : string) :
  keeps anywhere (save_code_to_file c filename).
Proof. apply keeps_save_code_to_file. exact I. Qed.

Lemma keeps_append_anywhere (path text : string) :
  keeps anywhere (open_append path text).
Proof. apply keeps_open_append. exact I. Qed.

Section MainSpawns.

Variable str_format : string -> list (string * option string) -> exn + string.
Variable Q : command -> Prop.

Lemma keeps_tests_anywhere (c : option string) (filename : string) :
  keeps anywhere (create_unit_tests str_format c filename).
Proof. apply keeps_create_unit_tests. intros; exact I. Qed.

Lemma spawns_only_sim_fix_loop (sim_filename : string) (max : Z) (fuel : nat) :
  Q (RunSimulation sim_filename) ->
  forall version current attempts,
    spawns_only Q
      (sim_fix_loop str_format fuel sim_filename max version current attempts).
Proof.
  intros HQ. induction fuel as [|fuel IH]; intros version current attempts;
    cbn [sim_fix_loop]; [apply spawns_only_out_of_fuel|].
  repeat spawns_step;
    first [ apply IH
          | now apply spawns_only_run_simulation
          | apply spawns_only_return
          | apply (spawns_only_keeps Q anywhere);
            auto using keeps_fix_anywhere, keeps_save_anywhere with keeps ].
Qed.

Lemma spawns_only_schedule_phase (v : Z) (c : option string) (mf : string) :
  spawns_only Q (schedule_phase str_format v c mf).
Proof.
  unfold schedule_phase, determine_next_step, analyze_branch, improve_branch,
    log_version_history, log_feature_history.
  repeat spawns_step;
    first [ apply spawns_only_random_choice
          | apply (spawns_only_keeps Q anywhere);
            auto using keeps_fix_anywhere, keeps_analyze_code_for_errors,
              keeps_suggest_new_features, keeps_choose_best_feature,
              keeps_design_feature, keeps_implement_feature, keeps_append_anywhere
              with keeps ].
Qed.

Lemma spawns_only_accept_phase (fuel : nat) (st : ctl) :
  Q (RunSimulation (sim_file (version st))) ->
  spawns_only Q (accept_phase str_format fuel st).
Proof.
  intros HQ. unfold accept_phase, generate_initial.
  repeat spawns_step;
    first [ now apply spawns_only_sim_fix_loop
          | apply spawns_only_return
          | apply (spawns_only_keeps Q anywhere);
            auto using keeps_call_anywhere, keeps_save_anywhere,
              keeps_load_prompt, keeps_tests_anywhere with keeps ].
Qed.

End MainSpawns.

Section MainRuns.

Variable str_format : string -> list (string * option string) -> exn + string.

Lemma spawns_only_main_loop (fuel rounds : nat) :
  forall st, spawns_only simulation_run (main_loop str_format rounds fuel st).
Proof.
  induction rounds as [|rounds IH]; intros st; cbn [main_loop];
    [apply spawns_only_out_of_fuel|].
  apply spawns_only_bind; [|exact IH]. unfold main_body.
  apply spawns_only_bind; [apply spawns_only_accept_phase; now exists (version st)|].
  intros [v c|v c].
  - apply (spawns_only_keeps _ anywhere), keeps_ret.
  - apply spawns_only_schedule_phase.
Qed.

(** X24.  [main] never runs a unit test: however long it runs and
    however it ends, every child process it starts is a run of the
    simulation file of some version. *)
Theorem main_runs_simulations_only (rounds fuel : nat) (w : world) :
  exists evs,
    trace (snd (main str_format rounds fuel w)) = (trace w ++ evs)%list /\
    Forall simulation_run (spawned evs).
Proof.
  apply (spawns_only_main_loop fuel rounds (Ctl 1 None "Initial implementation")
           w (fst (main str_format rounds fuel w))).
  apply surjective_pairing.
Qed.

End MainRuns.

(** ** The feature history *)

(** X26.  [read_feature_history] answers with the empty text when there
    is no feature history.  [log_feature_history] puts its line after
    the history so far, and when that history and the line are ASCII
    without carriage returns the next reading returns them, stripped. *)
Theorem feature_history_round_trip (v : Z) (summary : string) (w : world) :
  (files w !! feature_history_log = None ->
   read_feature_history w = (Val "", w)) /\
  (faults w 0%nat = None ->
   exists w1,
     log_feature_history v summary w = (Val tt, w1) /\
     files w1
     = <[feature_history_log :=
           default "" (files w !! feature_history_log)
           +:+ ("Version " +:+ str_int v +:+ ": " +:+ summary +:+ nl)]> (files w) /\
     (portable (default "" (files w !! feature_history_log)
                +:+ ("Version " +:+ str_int v +:+ ": " +:+ summary +:+ nl)) = true ->
      read_feature_history w1
      = (Val (strip (default "" (files w !! feature_history_log)
                     +:+ ("Version " +:+ str_int v +:+ ": " +:+ summary +:+ nl))),
         w1))).
Proof.
  split.
  - intros H. unfold read_feature_history, path_exists, mbind, M_bind.
    rewrite H. reflexivity.
  - intros Hf.
    set (line := "Version " +:+ str_int v +:+ ": " +:+ summary +:+ nl).
    set (w1 := World (<[feature_history_log :=
                          default "" (files w !! feature_history_log) +:+ line]>
                        (files w))
                 (trace w) (api w) (procs w) (tl (faults w)) (coins w) (clock w)).
    exists w1. split; [|split; [reflexivity|]].
    + unfold log_feature_history, open_append, open_fault, update_files,
        mbind, M_bind.
      rewrite Hf. reflexivity.
    + intros Hp.
      assert (Hl : files w1 !! feature_history_log
                   = Some (default "" (files w !! feature_history_log) +:+ line))
        by apply lookup_insert_eq.
      assert (Hex : path_exists feature_history_log w1 = (Val true, w1)).
      { unfold path_exists. rewrite Hl, bool_decide_true by eauto. reflexivity. }
      assert (Hrd : open_read feature_history_log w1
                    = (Val (default "" (files w !! feature_history_log) +:+ line),
                       w1)).
      { unfold open_read. rewrite Hl.
        now rewrite universal_newlines_portable by exact Hp. }
      unfold read_feature_history.
      rewrite (bind_val _ _ _ _ _ Hex), (bind_val _ _ _ _ _ Hrd). reflexivity.
Qed.

(** X26 on a first line of history. *)
Lemma feature_history_round_trip_witness :
  read_feature_history world_crashing = (Val "", world_crashing) /\
  exists w1,
    log_feature_history 1 "mentation" world_crashing = (Val tt, w1) /\
    files w1
    = <[feature_history_log :=
          default "" (files world_crashing !! feature_history_log)
          +:+ ("Version " +:+ str_int 1 +:+ ": " +:+ "mentation" +:+ nl)]>
        (files world_crashing) /\
    read_feature_history w1
    = (Val (strip (default "" (files world_crashing !! feature_history_log)
                   +:+ ("Version " +:+ str_int 1 +:+ ": " +:+ "mentation" +:+ nl))),
       w1).
Proof.
  split.
  - apply (proj1 (feature_history_round_trip 1 "mentation" world_crashing)).
    reflexivity.
  - destruct (proj2 (feature_history_round_trip 1 "mentation" world_crashing)
                eq_refl) as (w1 & Hlog & Hfiles & Hread).
    exists w1. split; [exact Hlog|]. split; [exact Hfiles|].
    apply Hread. reflexivity.
Defined.

(** ** What [main] writes *)

Section Writing.

Variable P : string -> Prop.

Lemma writes_only_keeps {A : Type} (m : M A) : keeps P m -> writes_only P m.
Proof. intros K w r w' H. exact (ran_files _ _ _ _ (proj1 (K w r w' H))). Qed.

Lemma writes_only_bind {A B : Type} (m : M A) (f : A -> M B) :
  writes_only P m -> (forall a, writes_only P (f a)) -> writes_only P (m ≫= f).
Proof.
  intros Hm Hf w r w' H path Hp.
  destruct (bind_inv _ _ _ _ _ H) as [(a & w1 & H1 & H2)|(r0 & H1 & Hr)].
  - rewrite (Hf _ _ _ _ H2 path Hp). exact (Hm _ _ _ H1 path Hp).
  - exact (Hm _ _ _ H1 path Hp).
Qed.

Lemma writes_only_return {A : Type} : writes_only P (@main_return A).
Proof. intros w r w' H. now injection H as <- <-. Qed.

Lemma writes_only_out_of_fuel {A : Type} : writes_only P (@out_of_fuel A).
Proof. intros w r w' H. now injection H as <- <-. Qed.

Lemma writes_only_random_choice : writes_only P random_choice.
Proof. intros w r w' H. now injection H as <- <-. Qed.

Lemma writes_only_run_simulation (filename : string) :
  writes_only P (run_simulation filename).
Proof. intros w r w' H. now injection H as <- <-. Qed.

End Writing.

Ltac writes_step :=
  lazymatch goal with
  | |- writes_only _ (_ ≫= _) => apply writes_only_bind; [|intros]
  | |- writes_only _ (match ?x with _ => _ end) => destruct x
  end.

Lemma working_sim (v : Z) : working_file (sim_file v).
Proof. left. now exists v. Qed.

Lemma working_test (v : Z) : working_file (test_file v).
Proof. right. left. now exists v. Qed.

Lemma working_log (name : string) : working_file (path_join logs_dir name).
Proof. right. right. now exists name. Qed.

Lemma working_audit (pre path : string) : audit_path pre path -> working_file path.
Proof. intros (kind & timestamp & ->). apply working_log. Qed.

Lemma template_not_working (filename : string) :
  ~ working_file (template_path filename).
Proof.
  unfold working_file, template_path, path_join, prompts_dir, sim_file,
    test_file, logs_dir.
  intros [[v H]|[[v H]|[name H]]]; rewrite !append_cons in H; discriminate H.
Qed.

Section MainWrites.

Variable str_format : string -> list (string * option string) -> exn + string.

Lemma keeps_call_working (model prompt pre : string) :
  keeps working_file (call_openai_api model prompt pre).
Proof. apply keeps_call_openai_api. apply working_audit. Qed.

Lemma writes_only_sim_fix_loop (max : Z) (fuel : nat) (v0 : Z) :
  forall version current attempts,
    writes_only working_file
      (sim_fix_loop str_format fuel (sim_file v0) max version current attempts).
Proof.
  induction fuel as [|fuel IH]; intros version current attempts;
    cbn [sim_fix_loop]; [apply writes_only_out_of_fuel|].
  repeat writes_step;
    first [ apply IH
          | apply writes_only_run_simulation
          | apply writes_only_return
          | apply writes_only_keeps;
            first [ apply keeps_fix_simulation, working_audit
                  | apply keeps_save_code_to_file, working_sim
                  | auto with keeps ] ].
Qed.

Lemma writes_only_schedule_phase (v : Z) (c : option string) (mf : string) :
  writes_only working_file (schedule_phase str_format v c mf).
Proof.
  unfold schedule_phase, determine_next_step, analyze_branch, improve_branch,
    log_version_history, log_feature_history, analyze_code_for_errors,
    suggest_new_features, choose_best_feature, design_feature, implement_feature,
    read_feature_history.
  repeat writes_step;
    first [ apply writes_only_random_choice
          | apply writes_only_keeps;
            first [ apply keeps_fix_simulation, working_audit
                  | apply keeps_open_append, working_log
                  | apply keeps_call_working
                  | apply keeps_load_prompt
                  | apply keeps_format
                  | auto with keeps ] ].
Qed.

Lemma writes_only_accept_phase (fuel : nat) (st : ctl) :
  writes_only working_file (accept_phase str_format fuel st).
Proof.
  unfold accept_phase, generate_initial.
  repeat writes_step;
    first [ apply writes_only_sim_fix_loop
          | apply writes_only_return
          | apply writes_only_keeps;
            first [ apply keeps_save_code_to_file;
                    first [apply working_sim | apply working_test]
                  | apply keeps_create_unit_tests, working_audit
                  | apply keeps_call_working
                  | apply keeps_load_prompt
                  | auto with keeps ] ].
Qed.

Lemma writes_only_main_loop (fuel rounds : nat) :
  forall st, writes_only working_file (main_loop str_format rounds fuel st).
Proof.
  induction rounds as [|rounds IH]; intros st; cbn [main_loop];
    [apply writes_only_out_of_fuel|].
  apply writes_only_bind; [|exact IH]. unfold main_body.
  apply writes_only_bind; [apply writes_only_accept_phase|].
  intros [v c|v c].
  - apply writes_only_keeps, keeps_ret.
  - apply writes_only_schedule_phase.
Qed.

(** X27.  [main] writes only its own files: the programs, their tests
    and the logs folder.  Every other file, and so every prompt
    template, reads after any run as it did before. *)
Theorem main_writes_its_own_files_only (rounds fuel : nat) (w : world) :
  (forall path,
      ~ working_file path ->
      files (snd (main str_format rounds fuel w)) !! path = files w !! path) /\
  (forall filename,
      files (snd (main str_format rounds fuel w)) !! template_path filename
      = files w !! template_path filename).
Proof.
  assert (H : forall path,
             ~ working_file path ->
             files (snd (main str_format rounds fuel w)) !! path = files w !! path).
  { apply (writes_only_main_loop fuel rounds (Ctl 1 None "Initial implementation")
             w (fst (main str_format rounds fuel w))).
    apply surjective_pairing. }
  split; [exact H|]. intros filename. apply H, template_not_working.
Qed.

End MainWrites.

(** X27 on the key file, in a run of three rounds that writes programs,
    tests and logs. *)
Lemma main_writes_its_own_files_only_witness :
  let run := main Demo.format_names 3 10 world_keyed in
  files (snd run) !! "apikey.txt" = files world_keyed !! "apikey.txt" /\
  files (snd run) !! sim_file 1 = Some "code" /\
  files (snd run) !! test_file 1 = Some "code" /\
  files world_keyed !! sim_file 1 = None.
Proof.
  intros run. split; [|vm_compute; repeat split].
  apply (proj1 (main_writes_its_own_files_only Demo.format_names 3 10 world_keyed)).
  unfold working_file, sim_file, test_file, path_join, logs_dir.
  intros [[v H]|[[v H]|[name H]]]; rewrite !append_cons in H; discriminate H.
Defined.

(** ** Tests that time out *)

Section Timeouts.

Variable ast_parse : string -> parse_result.
Variable search_test_class : string -> option string.

(** X28.  When a discovered test times out and storage works, the
    harness hands the tests that timed out, and only those, to
    [remove_problematic_tests], which rewrites the test file from the
    text it reads, and its report ends with the line that names
    them. *)
Theorem harness_removes_the_tests_that_time_out (filename content : string)
    (timeout : Z) (w : world) :
  files w !! filename = Some content ->
  Forall (fun test_name => identifier test_name = true)
    (discovered ast_parse filename w) ->
  timed_out (discovered ast_parse filename w) (procs w) <> [] ->
  faults w 0%nat = None ->
  exists failures w',
    run_unit_tests ast_parse search_test_class filename timeout w
    = (Val (Some (join nl (failures ++
                           ["Removed tests due to timeout: "
                            +:+ join ", " (timed_out (discovered ast_parse filename w)
                                             (procs w))])%list)), w') /\
    files w'
    = <[filename := Repair.remove_all
                      (timed_out (discovered ast_parse filename w) (procs w))
                      (universal_newlines content)]> (files w).
Proof.
  intros Hfile _ Hto Hfault.
  destruct (run_unit_tests_unfold ast_parse search_test_class filename timeout w)
    as (w2 & evs0 & F2 & Q2 & A2 & T2 & S2 & Hrun).
  rewrite Hrun. clear Hrun.
  destruct (discovered ast_parse filename w) as [|t tests] eqn:Ed;
    [now contradiction Hto|].
  destruct (run_tests_loop_removed filename
              (test_class_of search_test_class filename w) timeout (t :: tests)
              [] [] w2) as (failures & w3 & Hloop & F3 & A3).
  rewrite Q2 in Hloop. cbn [app] in Hloop.
  rewrite (bind_val _ _ _ _ _ Hloop).
  set (removed := timed_out (t :: tests) (procs w)) in *.
  assert (Hfile3 : files w3 !! filename = Some content) by (rewrite F3, F2; exact Hfile).
  assert (Hfault3 : faults w3 0%nat = None) by (rewrite A3, A2; exact Hfault).
  destruct (remove_problematic_tests_run _ _ removed _ Hfile3 Hfault3)
    as (w4 & Hrm & F4 & T4).
  exists failures, w4. split; [|rewrite F4, F3, F2; reflexivity].
  destruct removed as [|rm removed]; [now contradiction Hto|].
  rewrite (bind_val _ _ _ _ _ Hrm). now destruct failures.
Qed.

End Timeouts.

(** X28 on a file with two tests, of which the first times out and the
    second crashes. *)
Lemma harness_removes_the_tests_that_time_out_witness :
  let w := slow_test_world Demo.plain_tests_source in
  exists failures w',
    run_unit_tests Demo.parse Demo.search_class "sim0001_test.py" 30 w
    = (Val (Some (join nl (failures ++
                           ["Removed tests due to timeout: "
                            +:+ join ", "
                                  (timed_out (discovered Demo.parse
                                                "sim0001_test.py" w)
                                     (procs w))])%list)), w') /\
    files w'
    = <["sim0001_test.py" :=
          Repair.remove_all
            (timed_out (discovered Demo.parse "sim0001_test.py" w) (procs w))
            Demo.plain_tests_source]> (files w).
Proof.
  intros w.
  apply (harness_removes_the_tests_that_time_out Demo.parse Demo.search_class
           "sim0001_test.py" Demo.plain_tests_source 30 w);
    [reflexivity | vm_compute; repeat constructor | vm_compute; discriminate
    | reflexivity].
Defined.

Example slow_test_is_set_aside :
  timed_out (discovered Demo.parse "sim0001_test.py"
               (slow_test_world Demo.plain_tests_source))
    (procs (slow_test_world Demo.plain_tests_source))
  = ["test_a"].
Proof. vm_compute. reflexivity. Qed.

(** ** Rollback *)




Section Rollback.

Variable str_format : string -> list (string * option string) -> exn + string.
Variable N : Z.
Variable template : string.
Variable params : list string.

Hypothesis HN : 2 <= N.
Hypothesis format_total :
  forall issue c,
    exists prompt, str_format template [("issue", issue); ("code", c)] = inr prompt.






End Rollback.




(** C3.  On a fresh start whose runs all exit with status 1 and write
    nothing to their standard error, the very first run is logged as
    completed: version 1 is accepted after one run, its tests are
    requested, the scheduler is asked and a line of version history is
    written, and the round hands version 2 to the next one: [main], cut
    off after that round, has neither returned nor raised. *)
Theorem silent_failure_passes_for_success :
  let run := main_body Demo.format_names 10 state_one world_silent in
  (forall k, procs world_silent k = Exited 1 "out" "") /\
  max_sim_fix_attempts_of 1 = 10 /\
  spawned (trace (snd run)) = [RunSimulation "sim0001.py"] /\
  In (Log INFO "Simulation for version 1 completed successfully.")
    (trace (snd run)) /\
  In (Choice true) (trace (snd run)) /\
  files (snd run) !! version_history_log
  = Some ("Version 1: New feature - mentation" +:+ nl) /\
  fst run = Val (Ctl 2 (Some "code") "Fix errors: code...") /\
  fst (main Demo.format_names 1 10 world_silent) = OutOfFuel.
Proof.
  vm_compute.
  repeat split; repeat (first [left; reflexivity | right]).
Qed.

(** The budget at work: when every run comes back with an error text,
    a fresh start runs version 1 ten times and [main] returns with no
    scheduling choice and no version history. *)
Example ten_runs_with_error_text_halt :
  let run := main Demo.format_names 1 10 world_crashing in
  fst run = Returned /\
  spawned (trace (snd run)) = repeat (RunSimulation "sim0001.py") 10 /\
  List.filter is_choice (trace (snd run)) = [] /\
  files (snd run) !! version_history_log = None.
Proof. vm_compute. repeat split. Qed.

(** ** Nothing runs after a rollback *)

Section Emitting.

Variable P : event -> Prop.

Lemma emits_ret {A : Type} (a : A) : emits P (mret a).
Proof.
  intros w r w' H. injection H as <- <-. exists []. rewrite app_nil_r.
  split; [reflexivity | constructor].
Qed.

Lemma emits_raise {A : Type} (e : exn) : emits P (@raise A e).
Proof.
  intros w r w' H. injection H as <- <-. exists []. rewrite app_nil_r.
  split; [reflexivity | constructor].
Qed.

Lemma emits_return {A : Type} : emits P (@main_return A).
Proof.
  intros w r w' H. injection H as <- <-. exists []. rewrite app_nil_r.
  split; [reflexivity | constructor].
Qed.

Lemma emits_bind {A B : Type} (m : M A) (f : A -> M B) :
  emits P m -> (forall a, emits P (f a)) -> emits P (m ≫= f).
Proof.
  intros Hm Hf w r w' H.
  destruct (bind_inv _ _ _ _ _ H) as [(a & w1 & H1 & H2)|(r0 & H1 & Hr)].
  - destruct (Hm _ _ _ H1) as (evs1 & T1 & P1).
    destruct (Hf _ _ _ _ H2) as (evs2 & T2 & P2).
    exists (evs1 ++ evs2)%list. split; [now rewrite T2, T1, app_assoc|].
    now apply Forall_app.
  - exact (Hm _ _ _ H1).
Qed.

Lemma emits_try_except {A : Type} (body : M A) (handler : exn -> M A) :
  emits P body -> (forall e, emits P (handler e)) -> emits P (try_except body handler).
Proof.
  intros Hb Hh w r w' H. unfold try_except in H.
  destruct (body w) as [[a|e| |] w1] eqn:E;
    try (injection H as <- <-; exact (Hb _ _ _ E)).
  destruct (Hb _ _ _ E) as (evs1 & T1 & P1).
  destruct (Hh _ _ _ _ H) as (evs2 & T2 & P2).
  exists (evs1 ++ evs2)%list. split; [now rewrite T2, T1, app_assoc|].
  now apply Forall_app.
Qed.

Lemma emits_emit (e : event) : P e -> emits P (emit e).
Proof.
  intros He w r w' H. injection H as <- <-. exists [e].
  split; [reflexivity | now constructor].
Qed.

(** A step that leaves the trace as it is. *)
Lemma emits_still {A : Type} (m : M A) :
  (forall w, trace (snd (m w)) = trace w) -> emits P m.
Proof.
  intros Hm w r w' H. exists []. rewrite app_nil_r.
  split; [|constructor]. specialize (Hm w). now rewrite H in Hm.
Qed.

Lemma emits_open_read (path : string) : emits P (open_read path).
Proof.
  apply emits_still. intros w. unfold open_read. now destruct (files w !! path).
Qed.

Lemma emits_open_fault : emits P open_fault.
Proof.
  apply emits_still. intros w. unfold open_fault. now destruct (faults w 0%nat).
Qed.

Lemma emits_update_files (f : gmap string string -> gmap string string) :
  emits P (update_files f).
Proof. now apply emits_still. Qed.

Lemma emits_api_reply : emits P api_reply.
Proof.
  apply emits_still. intros w. unfold api_reply. now destruct (api w 0%nat).
Qed.

Lemma emits_now_strftime : emits P now_strftime.
Proof. now apply emits_still. Qed.

End Emitting.

Lemma emits_weaken {A : Type} (P P' : event -> Prop) (m : M A) :
  (forall e, P e -> P' e) -> emits P m -> emits P' m.
Proof.
  intros HP Hm w r w' H. destruct (Hm _ _ _ H) as (evs & T & F).
  exists evs. split; [exact T|]. eapply Forall_impl; eassumption.
Qed.

Ltac emits_step :=
  lazymatch goal with
  | |- emits _ (_ ≫= _) => apply emits_bind; [|intros]
  | |- emits _ (try_except _ _) => apply emits_try_except; [|intros]
  | |- emits _ (match ?x with _ => _ end) => destruct x
  end.

Ltac emits_tac :=
  repeat emits_step;
  first [ apply emits_ret | apply emits_raise | apply emits_return
        | apply emits_open_read | apply emits_open_fault
        | apply emits_update_files | apply emits_api_reply
        | apply emits_now_strftime
        | apply emits_emit; exact I ].

Section QuietHelpers.

Variable str_format : string -> list (string * option string) -> exn + string.

Lemma quiet_call_openai_api (model prompt pre : string) :
  emits quiet (call_openai_api model prompt pre).
Proof.
  unfold call_openai_api, completions_create, save_gpt_response, open_write,
    logging.
  emits_tac.
Qed.

Lemma quiet_load_prompt (filename : string) : emits quiet (load_prompt filename).
Proof. unfold load_prompt. emits_tac. Qed.

Lemma quiet_save_code_to_file (c : option string) (filename : string) :
  emits quiet (save_code_to_file c filename).
Proof. unfold save_code_to_file, open_write, logging. emits_tac. Qed.

Lemma quiet_fix_simulation (errors c : option string) :
  emits quiet (fix_simulation str_format errors c).
Proof.
  unfold fix_simulation, format.
  repeat emits_step;
    first [ apply quiet_load_prompt | apply quiet_call_openai_api
          | apply emits_ret | apply emits_raise ].
Qed.

Lemma quiet_generate_initial : emits quiet generate_initial.
Proof.
  unfold generate_initial, logging.
  repeat emits_step;
    first [ apply quiet_load_prompt | apply quiet_call_openai_api
          | apply emits_ret | apply emits_return | apply emits_emit; exact I ].
Qed.

End QuietHelpers.

Lemma quiet_leading (Q : command -> Prop) (e : event) : quiet e -> leading Q e.
Proof. destruct e as [[]| | | |]; cbn; intros H; try contradiction; now split. Qed.

Lemma quiet_spawned (evs : list event) : Forall quiet evs -> spawned evs = [].
Proof.
  induction 1 as [|e evs He _ IH]; [reflexivity|].
  destruct e; cbn [spawned]; try exact IH. contradiction.
Qed.

Lemma leading_spawned (Q : command -> Prop) (evs : list event) :
  Forall (leading Q) evs -> Forall Q (spawned evs).
Proof.
  induction 1 as [|e evs [_ He] _ IH]; [constructor|].
  destruct e; cbn [spawned]; try exact IH. now constructor.
Qed.

Lemma leading_not_rollback (Q : command -> Prop) (evs : list event) (e : event) :
  Forall (leading Q) evs -> is_rollback_warning e = true -> ~ In e evs.
Proof.
  intros Hall He Hin. rewrite Forall_forall in Hall.
  destruct (Hall e) as [Hn _].
  - apply list_elem_of_In. exact Hin.
  - congruence.
Qed.

Section Staging.

Variable Q : command -> Prop.

Lemma staged_before {A : Type} (m : M A) : emits (leading Q) m -> staged Q m.
Proof.
  intros Hm w r w' H. destruct (Hm _ _ _ H) as (evs & T & F).
  exists evs, []. rewrite app_nil_r. now split.
Qed.

Lemma staged_after {A : Type} (m : M A) :
  spawns_only (fun _ => False) m -> staged Q m.
Proof.
  intros Hm w r w' H. destruct (Hm _ _ _ H) as (evs & T & F).
  exists [], evs. split; [exact T|]. split; [constructor|].
  destruct (spawned evs); [reflexivity | now inversion F].
Qed.

Lemma staged_bind_before {A B : Type} (m : M A) (f : A -> M B) :
  emits (leading Q) m -> (forall a, staged Q (f a)) -> staged Q (m ≫= f).
Proof.
  intros Hm Hf w r w' H.
  destruct (bind_inv _ _ _ _ _ H) as [(a & w1 & H1 & H2)|(r0 & H1 & Hr)].
  - destruct (Hm _ _ _ H1) as (evs1 & T1 & F1).
    destruct (Hf _ _ _ _ H2) as (before & after & T2 & F2 & S2).
    exists (evs1 ++ before)%list, after.
    split; [now rewrite T2, T1, <- !app_assoc|].
    split; [now apply Forall_app | exact S2].
  - exact (staged_before m Hm _ _ _ H1).
Qed.

Lemma staged_bind_after {A B : Type} (m : M A) (f : A -> M B) :
  staged Q m -> (forall a, spawns_only (fun _ => False) (f a)) ->
  staged Q (m ≫= f).
Proof.
  intros Hm Hf w r w' H.
  destruct (bind_inv _ _ _ _ _ H) as [(a & w1 & H1 & H2)|(r0 & H1 & Hr)].
  - destruct (Hm _ _ _ H1) as (before & after & T1 & F1 & S1).
    destruct (Hf _ _ _ _ H2) as (evs2 & T2 & F2).
    exists before, (after ++ evs2)%list.
    split; [now rewrite T2, T1, <- !app_assoc|]. split; [exact F1|].
    rewrite spawned_app, S1. destruct (spawned evs2); [reflexivity | now inversion F2].
  - exact (Hm _ _ _ H1).
Qed.

End Staging.

Section StagedRound.

Variable str_format : string -> list (string * option string) -> exn + string.
Variable Q : command -> Prop.

Lemma leading_run_simulation (filename : string) :
  Q (RunSimulation filename) -> emits (leading Q) (run_simulation filename).
Proof.
  intros HQ w r w' H. injection H as <- <-.
  exists [Spawn (RunSimulation filename)]. split; [reflexivity|].
  constructor; [now split | constructor].
Qed.

Lemma leading_quiet {A : Type} (m : M A) : emits quiet m -> emits (leading Q) m.
Proof. apply emits_weaken, quiet_leading. Qed.

Lemma leading_log_and_return {A : Type} (msg : string) :
  emits (leading Q) (logging ERROR msg;; @main_return A).
Proof.
  apply leading_quiet, emits_bind; [now apply emits_emit | intros; apply emits_return].
Qed.

Lemma staged_sim_fix_loop (filename : string) (max : Z) (fuel : nat) :
  Q (RunSimulation filename) ->
  forall version current attempts,
    staged Q (sim_fix_loop str_format fuel filename max version current attempts).
Proof.
  intros HQ. induction fuel as [|fuel IH]; intros version current attempts;
    cbn [sim_fix_loop].
  { apply staged_before, emits_still. reflexivity. }
  apply staged_bind_before; [now apply leading_run_simulation|]. intros errors.
  destruct (negb (truthy errors)).
  { apply staged_before, leading_quiet, emits_bind;
      [now apply emits_emit | intros; apply emits_ret]. }
  apply staged_bind_before.
  { apply emits_emit. split; reflexivity. }
  intros _. destruct (attempts + 1 >=? max).
  - destruct (version =? 1).
    + apply staged_before, leading_log_and_return.
    + apply staged_after, (spawns_only_keeps _ anywhere). keeps_tac.
  - apply staged_bind_before; [apply leading_quiet, quiet_fix_simulation|].
    intros fixed.
    apply staged_bind_before; [apply leading_quiet, quiet_save_code_to_file|].
    intros saved. destruct (negb saved); [|apply IH].
    apply staged_before, leading_log_and_return.
Qed.

Lemma staged_main_body (fuel : nat) (st : ctl) :
  Q (RunSimulation (sim_file (version st))) ->
  staged Q (main_body str_format fuel st).
Proof.
  intros HQ. unfold main_body. apply staged_bind_after.
  2: { intros [v c|v c].
       - apply (spawns_only_keeps _ anywhere), keeps_ret.
       - apply spawns_only_schedule_phase. }
  unfold accept_phase.
  apply staged_bind_before.
  { apply leading_quiet. destruct (version st =? 1);
      [apply quiet_generate_initial | apply emits_ret]. }
  intros code0.
  apply staged_bind_before; [apply leading_quiet, quiet_save_code_to_file|].
  intros saved. destruct (negb saved).
  { apply staged_before, leading_log_and_return. }
  apply staged_bind_after; [now apply staged_sim_fix_loop|].
  intros [[v c] a].
  repeat spawns_step;
    first [ apply spawns_only_return
          | apply (spawns_only_keeps _ anywhere);
            auto using keeps_save_anywhere, keeps_tests_anywhere with keeps ].
Qed.

(** A loop that ends with another version than it began with has logged
    the rollback as its last event. *)
Lemma sim_fix_loop_logs_the_rollback (filename : string) (max version : Z)
    (fuel : nat) :
  forall (attempts : Z) (current : option string) (w w' : world)
         (v : Z) (c : option string) (a : Z),
    sim_fix_loop str_format fuel filename max version current attempts w
    = (Val (v, c, a), w') ->
    v = version \/
    exists before,
      trace w' = (trace w ++ before ++ [rollback_warning version max])%list.
Proof.
  induction fuel as [|fuel IH]; intros attempts current w w' v c a H;
    [discriminate H|].
  cbn [sim_fix_loop] in H.
  bind_value H errors w1 H1. injection H1 as _ <-.
  destruct (negb (truthy errors)).
  { bind_value H u w2 H2. injection H as <- _ _ _. now left. }
  bind_value H u w2 H2. injection H2 as _ <-.
  destruct (attempts + 1 >=? max).
  - destruct (version =? 1).
    + bind_value H u' w3 H3. discriminate H.
    + bind_value H u' w3 H3. injection H3 as _ <-.
      bind_value H text w4 H4.
      assert (w4 = w').
      { injection H as _ _ _ <-. unfold open_read in H4.
        destruct (files _ !! _); now injection H4 as _ <-. }
      assert (Hv : v = version - 1) by now injection H as <- _ _ _.
      subst w'. right.
      assert (trace w4
              = (trace w ++ [Spawn (RunSimulation filename);
                             Log WARNING ("Simulation errors in version "
                                          +:+ str_int version +:+ ":" +:+ nl
                                          +:+ str_of errors)]
                 ++ [rollback_warning version max])%list) as ->.
      { unfold open_read in H4.
        destruct (files _ !! _); injection H4 as _ <-;
          cbn [trace]; rewrite <- !app_assoc; reflexivity. }
      eexists. reflexivity.
  - bind_value H fixed w3 H3.
    destruct (quiet_fix_simulation str_format _ _ _ _ _ H3) as (e3 & T3 & _).
    bind_value H saved w4 H4.
    destruct (quiet_save_code_to_file _ _ _ _ _ H4) as (e4 & T4 & _).
    destruct (negb saved).
    + bind_value H u' w5 H5. discriminate H.
    + destruct (IH _ _ _ _ _ _ _ H) as [->|(before & T)]; [now left|].
      right.
      exists ([Spawn (RunSimulation filename);
               Log WARNING ("Simulation errors in version "
                            +:+ str_int version +:+ ":" +:+ nl
                            +:+ str_of errors)] ++ e3 ++ e4 ++ before)%list.
      rewrite T, T4, T3. cbn [trace]. rewrite <- !app_assoc. reflexivity.
Qed.

Lemma main_body_logs_the_rollback (fuel : nat) (st st' : ctl) (w w' : world) :
  main_body str_format fuel st w = (Val st', w') ->
  version st' < version st ->
  exists evs,
    trace w' = (trace w ++ evs)%list /\
    In (rollback_warning (version st) (max_sim_fix_attempts_of (version st))) evs.
Proof.
  intros H Hlt. unfold main_body in H.
  bind_value H acc w1 Hacc.
  assert (Hw1 : (exists v c, acc = Continue v c \/ acc = Proceed v c) /\
                ((forall v c, acc = Continue v c \/ acc = Proceed v c ->
                              v = version st) \/
                 exists evs,
                   trace w1 = (trace w ++ evs)%list /\
                   In (rollback_warning (version st)
                         (max_sim_fix_attempts_of (version st))) evs)).
  { split; [destruct acc; eauto|].
    unfold accept_phase in Hacc.
    bind_value Hacc code0 wa Ha.
    assert (Ta : exists ea, trace wa = (trace w ++ ea)%list).
    { destruct (version st =? 1).
      - destruct (quiet_generate_initial _ _ _ Ha) as (ea & T & _). eauto.
      - injection Ha as _ <-. exists []. now rewrite app_nil_r. }
    destruct Ta as (ea & Ta).
    bind_value Hacc saved wb Hb.
    destruct (quiet_save_code_to_file _ _ _ _ _ Hb) as (eb & Tb & _).
    destruct (negb saved).
    { bind_value Hacc u wc Hc. discriminate Hacc. }
    bind_value Hacc res wc Hc. destruct res as [[v c] a].
    destruct (sim_fix_loop_logs_the_rollback _ _ _ _ _ _ _ _ _ _ _ Hc)
      as [->|(before & Tc)].
    - left. intros v' c' Hv'.
      destruct ((a >=? max_sim_fix_attempts_of (version st))
                && (version st >? 1))%bool.
      + injection Hacc as <- _. destruct Hv' as [Hv'|Hv']; congruence.
      + bind_value Hacc tests wd Hd. bind_value Hacc saved' we He.
        destruct (negb saved').
        * bind_value Hacc u wf Hf. discriminate Hacc.
        * injection Hacc as <- _. destruct Hv' as [Hv'|Hv']; congruence.
    - right.
      assert (Tw1 : exists post, trace w1 = (trace wc ++ post)%list).
      { destruct ((a >=? max_sim_fix_attempts_of (version st)) && (v >? 1))%bool.
        - injection Hacc as _ <-. exists []. now rewrite app_nil_r.
        - bind_value Hacc tests wd Hd.
          destruct (keeps_tests_anywhere str_format _ _ _ _ _ Hd)
            as [[(ed & Td & _) _ _] _].
          bind_value Hacc saved' we He.
          destruct (keeps_save_anywhere _ _ _ _ _ He) as [[(ee & Te & _) _ _] _].
          destruct (negb saved').
          + bind_value Hacc u wf Hf. discriminate Hacc.
          + injection Hacc as _ <-. exists (ed ++ ee)%list.
            now rewrite Te, Td, app_assoc. }
      destruct Tw1 as (post & Tw1).
      exists (ea ++ eb ++ before
              ++ [rollback_warning (version st)
                    (max_sim_fix_attempts_of (version st))] ++ post)%list.
      split; [rewrite Tw1, Tc, Tb, Ta, <- !app_assoc; reflexivity|].
      rewrite !in_app_iff. right. right. right. left. now left. }
  destruct Hw1 as [_ [Hsame|(evs & T & Hin)]].
  - exfalso. destruct acc as [v c|v c].
    + injection H as <- _. cbn [version] in Hlt.
      specialize (Hsame v c (or_introl eq_refl)). lia.
    + specialize (Hsame v c (or_intror eq_refl)). subst v.
      destruct (schedule_phase_version str_format _ _ _ _ _ _ H) as [_ Hst].
      specialize (Hst st' eq_refl). lia.
  - assert (Tw' : exists post, trace w' = (trace w1 ++ post)%list).
    { destruct acc as [v c|v c].
      - injection H as _ <-. exists []. now rewrite app_nil_r.
      - destruct (spawns_only_schedule_phase str_format (fun _ => True) _ _ _ _ _ _ H)
          as (post & Tp & _). eauto. }
    destruct Tw' as (post & Tw').
    exists (evs ++ post)%list. split; [now rewrite Tw', T, app_assoc|].
    apply in_app_iff. now left.
Qed.

End StagedRound.

Lemma rollback_warning_is_one (version max : Z) :
  is_rollback_warning (rollback_warning version max) = true.
Proof. apply (prefix_append "Version "). Qed.

Section OwnFile.

Variable str_format : string -> list (string * option string) -> exn + string.

(** X25.  The events of a round fall in two stages.  In the first,
    every child process runs the program file of the version the round
    began with, and no rollback is announced; in the second, nothing is
    run.  A round that hands on a lower version than it began with has
    logged the rollback warning, and it lies in the second stage: after
    a rollback nothing more is run in that round. *)
Theorem round_runs_its_own_file (fuel : nat) (st : ctl) (w : world) :
  exists before after,
    trace (snd (main_body str_format fuel st w)) = (trace w ++ before ++ after)%list /\
    Forall (eq (RunSimulation (sim_file (version st)))) (spawned before) /\
    Forall (fun e => is_rollback_warning e = false) before /\
    spawned after = [] /\
    forall st',
      fst (main_body str_format fuel st w) = Val st' ->
      version st' < version st ->
      In (rollback_warning (version st) (max_sim_fix_attempts_of (version st)))
        after.
Proof.
  destruct (main_body str_format fuel st w) as [r w'] eqn:Hrun. cbn [fst snd].
  destruct (staged_main_body str_format (eq (RunSimulation (sim_file (version st))))
              fuel st eq_refl _ _ _ Hrun) as (before & after & T & F & S).
  exists before, after. split; [exact T|].
  split; [now apply leading_spawned|].
  split; [eapply Forall_impl; [exact F | now intros e [He _]]|].
  split; [exact S|].
  intros st' -> Hlt.
  destruct (main_body_logs_the_rollback str_format _ _ _ _ _ Hrun Hlt)
    as (evs & T' & Hin).
  rewrite T in T'. apply app_inv_head in T'. subst evs.
  apply in_app_iff in Hin as [Hin|Hin]; [|exact Hin].
  exfalso. revert Hin.
  eapply leading_not_rollback; [exact F | apply rollback_warning_is_one].
Qed.

End OwnFile.

(** X25 on the round that rolls back from version 3. *)
Lemma round_runs_its_own_file_witness :
  exists before after,
    trace (snd (main_body Demo.format_names 10 state_three world_three))
    = (trace world_three ++ before ++ after)%list /\
    Forall (eq (RunSimulation (sim_file 3))) (spawned before) /\
    Forall (fun e => is_rollback_warning e = false) before /\
    spawned after = [] /\
    In (rollback_warning 3 3) after.
Proof.
  destruct (round_runs_its_own_file Demo.format_names 10 state_three world_three)
    as (before & after & Htrace & Hruns & Hcalm & Hnone & Hrollback).
  exists before, after. split; [exact Htrace|]. split; [exact Hruns|].
  split; [exact Hcalm|]. split; [exact Hnone|].
  apply (Hrollback (Ctl 2 (Some "v2") "New feature: wolves...")).
  - vm_compute. reflexivity.
  - simpl. lia.
Defined.
